(** * mole-go: the FRP tunnel supervisor ([MoleService])

    A shallow embedding of [frpc_res_darwin.go] (package [main]): the user
    configuration, the projection of that configuration into the [frpc.toml]
    structure, the supervisor of the [frpc] subprocess and its log buffer.

    The operating system is an explicit [World]: a file system, the outcomes
    of the fallible system calls still to come, the clock and the trace of
    the externally visible actions.  Methods of [*MoleService] are state
    transformers over the pair of the service and the world. *)

From Stdlib Require Import ZArith String Ascii List.
From Stdlib.Strings Require Import Byte.
From stdpp Require Import base tactics option list gmap strings fin_maps pretty.

Set Warnings "-register-all".

Local Open Scope string_scope.
Local Open Scope list_scope.
Local Open Scope Z_scope.

(** ** Data model *)

(** [type ProxyRule struct]. Go's [int] fields carry no arithmetic here and
    are kept as [Z]. *)
Record ProxyRule := mkProxyRule {
  ID : string;
  Enabled : bool;
  ProxyType : string;
  Name : string;
  LocalIP : string;
  LocalPort : Z;
  RemotePort : Z;
  Domains : list string
}.

(** The anonymous struct of the [Server] field of [UserConfig]. *)
Record ServerConfig := mkServerConfig {
  Addr : string;
  Port : Z;
  Token : string;
  Remark : string;
  AutoStart : bool
}.

(** [type UserConfig struct]. *)
Record UserConfig := mkUserConfig {
  ConfigVersion : string;
  LastUpdated : string;
  Server : ServerConfig;
  Proxies : list ProxyRule
}.

(** The dynamic values [generateFrpcToml] stores in its [map[string]any]:
    strings, integers, a string slice ([customDomains]), the
    [map[string]string] of the auth block and the slice of proxy maps. *)
Inductive Any :=
| AString (s : string)
| AInt (n : Z)
| AStrings (l : list string)
| AStringMap (m : gmap string string)
| ATables (l : list (gmap string Any)).

(** ** Runtime configuration generator *)

Module Generator.

(** The map literal of the loop body followed by the type-dependent
    field. *)
Definition proxyItem (p : ProxyRule) : gmap string Any :=
  let item : gmap string Any :=
    <["name" := AString (Name p)]>
    (<["type" := AString (ProxyType p)]>
    (<["localIP" := AString (LocalIP p)]>
    (<["localPort" := AInt (LocalPort p)]> ∅))) in
  if String.eqb (ProxyType p) "http"
  then <["customDomains" := AStrings (Domains p)]> item
  else <["remotePort" := AInt (RemotePort p)]> item.

(** One iteration of [for _, p := range s.config.Proxies]. *)
Definition proxyStep (proxies : list (gmap string Any)) (p : ProxyRule)
  : list (gmap string Any) :=
  if negb (Enabled p) then proxies else proxies ++ [proxyItem p].

(** The loop, started from the nil slice. *)
Definition buildProxies (ps : list ProxyRule) : list (gmap string Any) :=
  foldl proxyStep [] ps.

(** Sections A to C of [generateFrpcToml]: the structure [runCfg] that is
    handed to [toml.Marshal]. *)
Definition buildRunCfg (cfg : UserConfig) : gmap string Any :=
  let runCfg : gmap string Any := ∅ in
  let runCfg := <["serverAddr" := AString (Addr (Server cfg))]> runCfg in
  let runCfg := <["serverPort" := AInt (Port (Server cfg))]> runCfg in
  let authCfg : gmap string string := ∅ in
  let authCfg := <["method" := "token"]> authCfg in
  let authCfg := <["token" := Token (Server cfg)]> authCfg in
  let runCfg := <["auth" := AStringMap authCfg]> runCfg in
  let proxies := buildProxies (Proxies cfg) in
  <["proxies" := ATables proxies]> runCfg.

(** The proxy entries of a generated structure. *)
Definition runProxies (runCfg : gmap string Any) : list (gmap string Any) :=
  match runCfg !! "proxies" with
  | Some (ATables l) => l
  | _ => []
  end.

(** The enabled rules of a configuration, in list order. *)
Definition enabledRules (cfg : UserConfig) : list ProxyRule :=
  filter (λ p, Enabled p = true) (Proxies cfg).

Definition disabledRules (cfg : UserConfig) : list ProxyRule :=
  filter (λ p, Enabled p = false) (Proxies cfg).

(** The loopback address named by the comment on [LocalIP]. *)
Definition loopback : string := "127.0.0.1".

(** Two rules that agree on the fields the loop body reads: the four of
    the map literal and the one the branch on the type picks. *)
Definition sameEntry (p q : ProxyRule) : Prop :=
  Name p = Name q ∧ ProxyType p = ProxyType q ∧ LocalIP p = LocalIP q
  ∧ LocalPort p = LocalPort q
  ∧ (if String.eqb (ProxyType p) "http" then Domains p = Domains q
     else RemotePort p = RemotePort q).

End Generator.

(** ** The [time] package: [time.Now().Format(time.RFC3339)]

    A model of the part of Go's standard library that [SaveUserConfig]
    calls.  An instant is a number of nanoseconds since the Unix epoch; the
    layout [RFC3339] is ["2006-01-02T15:04:05Z07:00"], which has no
    fractional seconds, so [Format] renders the whole second an instant
    lies in.  The location is a fixed offset in minutes east of UTC. *)

Module Time.

Definition nanosPerSecond : Z := 1000000000.

(** The whole second an instant lies in. *)
Definition Unix (t : Z) : Z := t / nanosPerSecond.

(** Proleptic Gregorian date of a day number counted from 1970-01-01. *)
Definition civilFromDays (days : Z) : Z * Z * Z :=
  let z := days + 719468 in
  let era := z / 146097 in
  let doe := z - era * 146097 in
  let yoe := (doe - doe / 1460 + doe / 36524 - doe / 146096) / 365 in
  let doy := doe - (365 * yoe + yoe / 4 - yoe / 100) in
  let mp := (5 * doy + 2) / 153 in
  let d := doy - (153 * mp + 2) / 5 + 1 in
  let m := if mp <? 10 then mp + 3 else mp - 9 in
  (yoe + era * 400 + (if m <=? 2 then 1 else 0), m, d).

Definition daysFromCivil (y m d : Z) : Z :=
  let y := y - (if m <=? 2 then 1 else 0) in
  let era := y / 400 in
  let yoe := y - era * 400 in
  let doy := (153 * (if 2 <? m then m - 3 else m + 9) + 2) / 5 + d - 1 in
  let doe := yoe * 365 + yoe / 4 - yoe / 100 + doy in
  era * 146097 + doe - 719468.

Definition digit (n : Z) : ascii := ascii_of_N (48 + Z.to_N n).

Definition digitVal (c : ascii) : option Z :=
  let n := Z.of_N (N_of_ascii c) in
  if (48 <=? n) && (n <=? 57) then Some (n - 48) else None.

(** Two and four decimal digits, zero padded, in front of [rest]. *)
Definition pad2 (n : Z) (rest : string) : string :=
  String (digit (n / 10)) (String (digit (n mod 10)) rest).

Definition pad4 (n : Z) (rest : string) : string :=
  pad2 (n / 100) (pad2 (n mod 100) rest).

(** The layout element [Z07:00]. *)
Definition zoneSuffix (zone : Z) : string :=
  if zone =? 0 then "Z"
  else String (if zone <? 0 then "-"%char else "+"%char)
         (pad2 (Z.abs zone / 60) (String ":" (pad2 (Z.abs zone mod 60) ""))).

(** [t.Format(time.RFC3339)] for an instant [t] in the location [zone]. *)
Definition Format_RFC3339 (zone t : Z) : string :=
  let loc := Unix t + zone * 60 in
  let rem := loc mod 86400 in
  let '(y, m, d) := civilFromDays (loc / 86400) in
  pad4 y (String "-" (pad2 m (String "-" (pad2 d (String "T"
    (pad2 (rem / 3600) (String ":" (pad2 (rem mod 3600 / 60) (String ":"
      (pad2 (rem mod 60) (zoneSuffix zone))))))))))).

Definition read2 (s : string) : option (Z * string) :=
  match s with
  | String a (String b rest) =>
      match digitVal a, digitVal b with
      | Some x, Some y => Some (10 * x + y, rest)
      | _, _ => None
      end
  | _ => None
  end.

Definition read4 (s : string) : option (Z * string) :=
  '(hi, s) ← read2 s;
  '(lo, s) ← read2 s;
  Some (100 * hi + lo, s).

Definition expect (c : ascii) (s : string) : option string :=
  match s with
  | String a rest => if Ascii.eqb a c then Some rest else None
  | EmptyString => None
  end.

Definition readZone (s : string) : option Z :=
  match s with
  | String c rest =>
      if Ascii.eqb c "Z" then (if String.eqb rest "" then Some 0 else None)
      else
        sign ← (if Ascii.eqb c "+" then Some 1
                else if Ascii.eqb c "-" then Some (-1) else None);
        '(hh, s) ← read2 rest;
        s ← expect ":" s;
        '(mm, s) ← read2 s;
        if String.eqb s "" then Some (sign * (hh * 60 + mm)) else None
  | EmptyString => None
  end.

(** [time.Parse(time.RFC3339, s)] on the strings [Format_RFC3339]
    produces: the Unix second the timestamp denotes. *)
Definition Parse_RFC3339 (s : string) : option Z :=
  '(y, s) ← read4 s;
  s ← expect "-" s;
  '(m, s) ← read2 s;
  s ← expect "-" s;
  '(d, s) ← read2 s;
  s ← expect "T" s;
  '(hh, s) ← read2 s;
  s ← expect ":" s;
  '(mi, s) ← read2 s;
  s ← expect ":" s;
  '(ss, s) ← read2 s;
  zone ← readZone s;
  Some (daysFromCivil y m d * 86400 + hh * 3600 + mi * 60 + ss - zone * 60).

End Time.

(** ** The operating system and the application shell *)

(** Go's [error] is the text of [err.Error()]; [None] is [nil]. *)
Abbreviation error := (option string).

Inductive Result (A : Type) :=
| Ok (a : A)
| Err (e : string).
Arguments Ok {A} a.
Arguments Err {A} e.

(** The data of an event published with [manager.App.Event.Emit]. *)
Inductive Payload :=
| PLogs (logs : list string)
| PStatus (status : string).

(** Externally visible actions, recorded in the order they happen. *)
Inductive Event :=
| EvWriteFile (path : string) (ok : bool)
| EvStart (path : string) (args : list string) (pid : option Z)
| EvKill (pid : Z) (ok : bool)
| EvRun (name : string) (args : list string) (ok : bool)
| EvEmit (topic : string) (data : Payload).

Record World := mkWorld {
  files : gmap string (list byte);       (* the file system *)
  frpcBin : gmap string (list byte);     (* the embedded [embed.FS] *)
  outcomes : list error;                 (* results of the fallible system
                                            calls to come; none left: success *)
  trace : list Event;
  now : Z;                               (* [time.Now()], in nanoseconds *)
  zone : Z;                              (* offset of [time.Local], minutes *)
  nextPid : Z;
  tickers : nat;                         (* flush tickers not yet stopped *)
  GOOS : string;
  GOARCH : string;
  userConfigDir : string;                (* [os.UserConfigDir()] *)
  torn : list (option nat)               (* what the failed writes to come
                                            leave behind: nothing changed, or
                                            the first bytes of the data *)
}.

(** [*exec.Cmd]; [Process] is nil until [Start] succeeds. *)
Record Cmd := mkCmd {
  Path : string;
  Args : list string;
  Process : option Z
}.

(** [type MoleService struct].  [mu] and [logMu] hold whether the lock is
    taken; [ctx] and [initWait] play no part in the methods modelled. *)
Record MoleService := mkMoleService {
  mu : bool;
  config : option UserConfig;
  isRunning : bool;
  frpCmd : option Cmd;
  logMu : bool;
  logBuffer : list string
}.

Record ServiceStatus := mkServiceStatus {
  Success : bool;
  IsRunning : bool;
  Config : option UserConfig;
  Message : string
}.

Record State := mkState {
  svc : MoleService;
  os : World
}.

(** [NewMoleService()]. *)
Definition NewMoleService : MoleService :=
  {| mu := false; config := None; isRunning := false; frpCmd := None;
     logMu := false; logBuffer := [] |}.

(** *** Field updates *)

Definition set_mu (b : bool) (s : MoleService) : MoleService :=
  {| mu := b; config := config s; isRunning := isRunning s;
     frpCmd := frpCmd s; logMu := logMu s; logBuffer := logBuffer s |}.
Definition set_config (c : option UserConfig) (s : MoleService) : MoleService :=
  {| mu := mu s; config := c; isRunning := isRunning s;
     frpCmd := frpCmd s; logMu := logMu s; logBuffer := logBuffer s |}.
Definition set_isRunning (b : bool) (s : MoleService) : MoleService :=
  {| mu := mu s; config := config s; isRunning := b;
     frpCmd := frpCmd s; logMu := logMu s; logBuffer := logBuffer s |}.
Definition set_frpCmd (c : option Cmd) (s : MoleService) : MoleService :=
  {| mu := mu s; config := config s; isRunning := isRunning s;
     frpCmd := c; logMu := logMu s; logBuffer := logBuffer s |}.
Definition set_logMu (b : bool) (s : MoleService) : MoleService :=
  {| mu := mu s; config := config s; isRunning := isRunning s;
     frpCmd := frpCmd s; logMu := b; logBuffer := logBuffer s |}.
Definition set_logBuffer (l : list string) (s : MoleService) : MoleService :=
  {| mu := mu s; config := config s; isRunning := isRunning s;
     frpCmd := frpCmd s; logMu := logMu s; logBuffer := l |}.

Definition set_files (f : gmap string (list byte)) (w : World) : World :=
  {| files := f; frpcBin := frpcBin w; outcomes := outcomes w;
     trace := trace w; now := now w; zone := zone w; nextPid := nextPid w;
     tickers := tickers w; GOOS := GOOS w; GOARCH := GOARCH w;
     userConfigDir := userConfigDir w; torn := torn w |}.
Definition set_outcomes (o : list error) (w : World) : World :=
  {| files := files w; frpcBin := frpcBin w; outcomes := o;
     trace := trace w; now := now w; zone := zone w; nextPid := nextPid w;
     tickers := tickers w; GOOS := GOOS w; GOARCH := GOARCH w;
     userConfigDir := userConfigDir w; torn := torn w |}.
Definition set_trace (t : list Event) (w : World) : World :=
  {| files := files w; frpcBin := frpcBin w; outcomes := outcomes w;
     trace := t; now := now w; zone := zone w; nextPid := nextPid w;
     tickers := tickers w; GOOS := GOOS w; GOARCH := GOARCH w;
     userConfigDir := userConfigDir w; torn := torn w |}.
Definition set_nextPid (n : Z) (w : World) : World :=
  {| files := files w; frpcBin := frpcBin w; outcomes := outcomes w;
     trace := trace w; now := now w; zone := zone w; nextPid := n;
     tickers := tickers w; GOOS := GOOS w; GOARCH := GOARCH w;
     userConfigDir := userConfigDir w; torn := torn w |}.
Definition set_tickers (n : nat) (w : World) : World :=
  {| files := files w; frpcBin := frpcBin w; outcomes := outcomes w;
     trace := trace w; now := now w; zone := zone w; nextPid := nextPid w;
     tickers := n; GOOS := GOOS w; GOARCH := GOARCH w;
     userConfigDir := userConfigDir w; torn := torn w |}.
Definition set_torn (t : list (option nat)) (w : World) : World :=
  {| files := files w; frpcBin := frpcBin w; outcomes := outcomes w;
     trace := trace w; now := now w; zone := zone w; nextPid := nextPid w;
     tickers := tickers w; GOOS := GOOS w; GOARCH := GOARCH w;
     userConfigDir := userConfigDir w; torn := t |}.

(** *** The monad of a method call

    A call either returns a value in a new state or blocks for ever on a
    lock that is already taken ([sync.Mutex] and [sync.RWMutex] are not
    reentrant). *)

Inductive Outcome (A : Type) :=
| Ret (a : A) (st : State)
| Blocked (st : State).
Arguments Ret {A} a st.
Arguments Blocked {A} st.

Definition M (A : Type) : Type := State → Outcome A.

#[global] Instance M_ret : MRet M := λ A a st, Ret a st.
#[global] Instance M_bind : MBind M := λ A B f m st,
  match m st with
  | Ret a st' => f a st'
  | Blocked st' => Blocked st'
  end.

Definition getSvc {A} (f : MoleService → A) : M A := λ st, Ret (f (svc st)) st.
Definition getOs {A} (f : World → A) : M A := λ st, Ret (f (os st)) st.
Definition modSvc (f : MoleService → MoleService) : M unit :=
  λ st, Ret tt {| svc := f (svc st); os := os st |}.
Definition modOs (f : World → World) : M unit :=
  λ st, Ret tt {| svc := svc st; os := f (os st) |}.

Definition record (e : Event) : M unit :=
  modOs (λ w, set_trace (trace w ++ [e]) w).

(** The result of the next fallible system call. *)
Definition nextOutcome : M error := λ st,
  match outcomes (os st) with
  | [] => Ret None st
  | o :: rest => Ret o {| svc := svc st; os := set_outcomes rest (os st) |}
  end.

(** What the next failed write leaves behind. *)
Definition nextTorn : M (option nat) := λ st,
  match torn (os st) with
  | [] => Ret None st
  | t :: rest => Ret t {| svc := svc st; os := set_torn rest (os st) |}
  end.

(** *** Locks *)

(** [s.mu.Lock()]: blocks while the lock is taken. *)
Definition mu_Lock : M unit := λ st,
  if mu (svc st) then Blocked st
  else Ret tt {| svc := set_mu true (svc st); os := os st |}.
Definition mu_Unlock : M unit := modSvc (set_mu false).

Definition logMu_Lock : M unit := λ st,
  if logMu (svc st) then Blocked st
  else Ret tt {| svc := set_logMu true (svc st); os := os st |}.
Definition logMu_Unlock : M unit := modSvc (set_logMu false).

(** [s.mu.Lock(); defer s.mu.Unlock()] around a method body. *)
Definition withLock {A} (body : M A) : M A :=
  mu_Lock;; r ← body; mu_Unlock;; mret r.

(** [s.mu.RLock()]: blocks while the write lock is taken.  The methods
    that take the read lock release it before they call anything else, so
    the readers are not counted. *)
Definition mu_RLock : M unit := λ st,
  if mu (svc st) then Blocked st else Ret tt st.
Definition mu_RUnlock : M unit := mret tt.

(** *** System calls *)

(** [filepath.Join]: the elements joined with the separator. *)
Definition filepath_Join (elems : list string) : string :=
  String.concat "/" elems.

(** [_, err := os.Stat(path); os.IsNotExist(err)]. *)
Definition os_Stat_IsNotExist (path : string) : M bool :=
  getOs (λ w, match files w !! path with None => true | Some _ => false end).

Definition os_ReadFile (path : string) : M (Result (list byte)) :=
  fs ← getOs files;
  match fs !! path with
  | None => mret (Err ("open " +:+ path +:+ ": no such file or directory"))
  | Some data =>
      o ← nextOutcome;
      mret (match o with Some e => Err e | None => Ok data end)
  end.

(** [os.WriteFile(path, data, perm)] opens the file with
    [O_WRONLY|O_CREATE|O_TRUNC], writes [data] and closes the file.  When
    it fails, either the open failed and the file system is as it was, or
    the file was created or truncated and holds the first [k] bytes of
    [data]: none of them, some of them, or all of them when only the
    close failed. *)
Definition os_WriteFile (path : string) (data : list byte) : M error :=
  o ← nextOutcome;
  match o with
  | Some e =>
      t ← nextTorn;
      match t with
      | None => mret tt
      | Some k =>
          modOs (λ w, set_files (<[path := take k data]> (files w)) w)
      end;;
      record (EvWriteFile path false);;
      mret (Some e)
  | None =>
      modOs (λ w, set_files (<[path := data]> (files w)) w);;
      record (EvWriteFile path true);;
      mret None
  end.

(** [frpcBin.ReadFile(name)] on the embedded file system. *)
Definition frpcBin_ReadFile (name : string) : M (Result (list byte)) :=
  fs ← getOs frpcBin;
  mret (match fs !! name with
        | Some data => Ok data
        | None => Err ("open " +:+ name +:+ ": file does not exist")
        end).

(** [err == nil]. *)
Definition isNil (err : error) : bool :=
  match err with None => true | Some _ => false end.

(** [s.frpCmd.Process.Kill()]. *)
Definition Process_Kill (pid : Z) : M error :=
  o ← nextOutcome;
  record (EvKill pid (isNil o));;
  mret o.

(** [exec.Command(name, args...).Run()]. *)
Definition exec_Run (name : string) (args : list string) : M error :=
  o ← nextOutcome;
  record (EvRun name args (isNil o));;
  mret o.

(** [s.frpCmd.Start()]: on success the command gets its [Process]. *)
Definition frpCmd_Start : M error :=
  c ← getSvc frpCmd;
  match c with
  | None => mret (Some "nil command")
  | Some c =>
      o ← nextOutcome;
      match o with
      | Some e => record (EvStart (Path c) (Args c) None);; mret (Some e)
      | None =>
          pid ← getOs nextPid;
          modOs (set_nextPid (pid + 1));;
          modSvc (set_frpCmd (Some (mkCmd (Path c) (Args c) (Some pid))));;
          record (EvStart (Path c) (Args c) (Some pid));;
          mret None
      end
  end.

(** [time.NewTicker] followed by the goroutine that stops the ticker only
    on [<-s.ctx.Done()]. *)
Definition time_NewTicker : M unit :=
  modOs (λ w, set_tickers (S (tickers w)) w).

(** The top-level context ends: every ticker goroutine takes the
    [<-s.ctx.Done()] branch and stops its ticker. *)
Definition ctx_Done : M unit := modOs (set_tickers 0%nat).

Definition Event_Emit (topic : string) (data : Payload) : M unit :=
  record (EvEmit topic data).

(** *** The platform files [frpc_res_darwin.go], [frpc_res_linux.go],
    [frpc_res_windows.go] *)

Definition frpcMap (goos : string) : gmap string string :=
  if String.eqb goos "darwin" then
    {[ "amd64" := "resources/bin/frpc_darwin_amd64";
       "arm64" := "resources/bin/frpc_darwin_arm64" ]}
  else if String.eqb goos "linux" then
    {[ "amd64" := "resources/bin/frpc_linux_amd64";
       "arm64" := "resources/bin/frpc_linux_arm64" ]}
  else if String.eqb goos "windows" then
    {[ "amd64" := "resources/bin/frpc_windows_amd64.exe";
       "arm64" := "resources/bin/frpc_windows_arm64.exe" ]}
  else ∅.

Definition frpcTargetName (goos : string) : string :=
  if String.eqb goos "windows" then "frpc.exe" else "frpc".

(** The result of the [n]-th fallible system call from now on. *)
Definition outcomeAt (n : nat) (o : list error) : error :=
  default None (o !! n).

(** ** The TOML codec

    [github.com/BurntSushi/toml] is not part of the repository: its
    [Marshal] and [Unmarshal] are the operations of a class. *)

Class TomlCodec := {
  toml_Marshal_UserConfig : UserConfig → Result (list byte);
  toml_Marshal_map : gmap string Any → Result (list byte);
  toml_Unmarshal_UserConfig : list byte → Result UserConfig
}.

(** ** The configuration document

    What [toml.Marshal] writes for a [UserConfig], following the [toml]
    tags of the struct, and what [toml.Unmarshal] reads back from such a
    document.  A Go string is a byte string; a [string] here is the same
    sequence of bytes. *)

Module Toml.

Definition quoteChar : ascii := ascii_of_N 34.
Definition backslash : ascii := ascii_of_N 92.
Definition newline : ascii := ascii_of_N 10.
Definition tab : ascii := ascii_of_N 9.

Definition hexDigit (n : N) : ascii :=
  if (n <? 10)%N then ascii_of_N (48 + n) else ascii_of_N (87 + n).

(** The replacements of a quoted string: the quote, the backslash, the
    five short escapes, and [\u00XX] for the other control bytes and
    DEL.  Every other byte is written as it is. *)
Definition escapeByte (c : ascii) : string :=
  let n := N_of_ascii c in
  if (n =? 34)%N then String backslash (String quoteChar "")
  else if (n =? 92)%N then String backslash (String backslash "")
  else if (n =? 8)%N then String backslash "b"
  else if (n =? 9)%N then String backslash "t"
  else if (n =? 10)%N then String backslash "n"
  else if (n =? 12)%N then String backslash "f"
  else if (n =? 13)%N then String backslash "r"
  else if (n <? 32)%N || (n =? 127)%N
  then String backslash
         (String "u" (String "0" (String "0"
           (String (hexDigit (n / 16)) (String (hexDigit (n mod 16)) "")))))
  else String c "".

Fixpoint escape (s : string) : string :=
  match s with
  | EmptyString => EmptyString
  | String c r => escapeByte c +:+ escape r
  end.

Definition writeQuoted (s : string) : string :=
  String quoteChar (escape s +:+ String quoteChar "").

Definition writeBool (b : bool) : string := if b then "true" else "false".

(** [strconv.FormatInt(n, 10)]. *)
Definition writeInt (n : Z) : string := pretty n.

Fixpoint writeElements (l : list string) : string :=
  match l with
  | [] => ""
  | [x] => writeQuoted x
  | x :: rest => writeQuoted x +:+ ", " +:+ writeElements rest
  end.

Definition writeStrings (l : list string) : string :=
  "[" +:+ writeElements l +:+ "]".

Definition keyValue (indent key value : string) : string :=
  indent +:+ key +:+ " = " +:+ value.

(** The table of the [Server] field: a blank line, the header, the
    fields in declaration order, indented. *)
Definition serverTable (s : ServerConfig) : list string :=
  [ ""; "[server]";
    keyValue "  " "addr" (writeQuoted (Addr s));
    keyValue "  " "port" (writeInt (Port s));
    keyValue "  " "token" (writeQuoted (Token s));
    keyValue "  " "remark" (writeQuoted (Remark s));
    keyValue "  " "auto_start" (writeBool (AutoStart s)) ].

(** One element of the array of tables [proxies]; [omitempty] leaves an
    empty [domains] out, and has no effect on an integer. *)
Definition proxyTable (p : ProxyRule) : list string :=
  [ ""; "[[proxies]]";
    keyValue "  " "id" (writeQuoted (ID p));
    keyValue "  " "enabled" (writeBool (Enabled p));
    keyValue "  " "proxy_type" (writeQuoted (ProxyType p));
    keyValue "  " "name" (writeQuoted (Name p));
    keyValue "  " "local_ip" (writeQuoted (LocalIP p));
    keyValue "  " "local_port" (writeInt (LocalPort p));
    keyValue "  " "remote_port" (writeInt (RemotePort p)) ]
  ++ (if Nat.eqb (length (Domains p)) 0 then []
      else [keyValue "  " "domains" (writeStrings (Domains p))]).

(** The lines of the document: the plain fields first, the tables after
    them.  A slice without elements is not an array of tables and is
    written with the plain fields; a nil slice is left out, and is read
    back as the same empty list. *)
Definition document (c : UserConfig) : list string :=
  [ keyValue "" "config_version" (writeQuoted (ConfigVersion c));
    keyValue "" "last_updated" (writeQuoted (LastUpdated c)) ]
  ++ (if Nat.eqb (length (Proxies c)) 0 then ["proxies = []"] else [])
  ++ serverTable (Server c)
  ++ concat (proxyTable <$> Proxies c).

Fixpoint unlines (ls : list string) : string :=
  match ls with
  | [] => ""
  | l :: rest => l +:+ String newline (unlines rest)
  end.

(** [toml.Marshal(s.config)]. *)
Definition Marshal (c : UserConfig) : Result (list byte) :=
  Ok (list_byte_of_string (unlines (document c))).

(** A text without a line break. *)
Fixpoint oneLine (s : string) : bool :=
  match s with
  | EmptyString => true
  | String c r => negb (Ascii.eqb c newline) && oneLine r
  end.

(** *** Reading *)

Fixpoint lines (s : string) : list string :=
  match s with
  | EmptyString => [""]
  | String c r =>
      if Ascii.eqb c newline then "" :: lines r
      else match lines r with
           | l :: ls => String c l :: ls
           | [] => [String c ""]
           end
  end.

Definition continuation (c : ascii) : bool :=
  let n := N_of_ascii c in (128 <=? n)%N && (n <? 192)%N.

Definition between (lo hi : N) (c : ascii) : bool :=
  let n := N_of_ascii c in (lo <=? n)%N && (n <? hi)%N.

(** [utf8.Valid]: the lexer reports a byte that does not start or
    continue a UTF-8 sequence as an error.  In a document that [Marshal]
    wrote such a byte can only stand inside a string, so the test is
    made on the strings. *)
Fixpoint validUTF8 (s : string) : bool :=
  match s with
  | EmptyString => true
  | String a r =>
      let n := N_of_ascii a in
      if (n <? 128)%N then validUTF8 r
      else if (194 <=? n)%N && (n <? 224)%N then
        match r with
        | String b r1 => continuation b && validUTF8 r1
        | _ => false
        end
      else if (224 <=? n)%N && (n <? 240)%N then
        match r with
        | String b (String c r2) =>
            (if (n =? 224)%N then between 160 192 b
             else if (n =? 237)%N then between 128 160 b
             else continuation b)
            && continuation c && validUTF8 r2
        | _ => false
        end
      else if (240 <=? n)%N && (n <? 245)%N then
        match r with
        | String b (String c (String d r3)) =>
            (if (n =? 240)%N then between 144 192 b
             else if (n =? 244)%N then between 128 144 b
             else continuation b)
            && continuation c && continuation d && validUTF8 r3
        | _ => false
        end
      else false
  end.

Definition hexVal (c : ascii) : option N :=
  let n := N_of_ascii c in
  if (48 <=? n)%N && (n <=? 57)%N then Some (n - 48)%N
  else if (97 <=? n)%N && (n <=? 102)%N then Some (n - 87)%N
  else if (65 <=? n)%N && (n <=? 70)%N then Some (n - 55)%N
  else None.

(** The UTF-8 encoding of the code point of a [\uXXXX] escape; a
    surrogate is not a scalar value. *)
Definition encodeRune (cp : N) : option string :=
  if (cp <? 128)%N then Some (String (ascii_of_N cp) "")
  else if (cp <? 2048)%N then
    Some (String (ascii_of_N (192 + cp / 64))
           (String (ascii_of_N (128 + cp mod 64)) ""))
  else if (55296 <=? cp)%N && (cp <? 57344)%N then None
  else
    Some (String (ascii_of_N (224 + cp / 4096))
           (String (ascii_of_N (128 + (cp / 64) mod 64))
             (String (ascii_of_N (128 + cp mod 64)) ""))).

Definition shortEscape (c : ascii) : option ascii :=
  if Ascii.eqb c "b" then Some (ascii_of_N 8)
  else if Ascii.eqb c "t" then Some tab
  else if Ascii.eqb c "n" then Some newline
  else if Ascii.eqb c "f" then Some (ascii_of_N 12)
  else if Ascii.eqb c "r" then Some (ascii_of_N 13)
  else if Ascii.eqb c quoteChar then Some quoteChar
  else if Ascii.eqb c backslash then Some backslash
  else None.

(** A control byte that may not stand in a basic string. *)
Definition isControl (c : ascii) : bool :=
  let n := N_of_ascii c in
  ((n <? 32)%N && negb (n =? 9)%N) || (n =? 127)%N.

(** The body of a basic string, after the opening quote: its value and
    what follows the closing quote. *)
Fixpoint readBasic (s : string) : option (string * string) :=
  match s with
  | EmptyString => None
  | String c r =>
      if Ascii.eqb c quoteChar then Some ("", r)
      else if Ascii.eqb c backslash then
        match r with
        | EmptyString => None
        | String e r1 =>
            if Ascii.eqb e "u" then
              match r1 with
              | String h1 (String h2 (String h3 (String h4 r2))) =>
                  match hexVal h1, hexVal h2, hexVal h3, hexVal h4 with
                  | Some a, Some b, Some c, Some d =>
                      match encodeRune (((a * 16 + b) * 16 + c) * 16 + d)%N,
                            readBasic r2 with
                      | Some u, Some (v, rest) => Some (u +:+ v, rest)
                      | _, _ => None
                      end
                  | _, _, _, _ => None
                  end
              | _ => None
              end
            else
              match shortEscape e, readBasic r1 with
              | Some x, Some (v, rest) => Some (String x v, rest)
              | _, _ => None
              end
        end
      else if isControl c then None
      else
        match readBasic r with
        | Some (v, rest) => Some (String c v, rest)
        | None => None
        end
  end.

(** A value that is one basic string. *)
Definition readString (value : string) : option string :=
  match value with
  | String c r =>
      if Ascii.eqb c quoteChar then
        match readBasic r with
        | Some (v, EmptyString) => if validUTF8 v then Some v else None
        | _ => None
        end
      else None
  | EmptyString => None
  end.

Definition digitOf (c : ascii) : option N :=
  let n := N_of_ascii c in
  if (48 <=? n)%N && (n <=? 57)%N then Some (n - 48)%N else None.

Fixpoint readDigits (acc : N) (s : string) : option N :=
  match s with
  | EmptyString => Some acc
  | String c r =>
      match digitOf c with
      | Some d => readDigits (acc * 10 + d) r
      | None => None
      end
  end.

(** A decimal integer. *)
Definition readInt (value : string) : option Z :=
  match value with
  | EmptyString => None
  | String c r =>
      if Ascii.eqb c "-" then
        match r with
        | EmptyString => None
        | String _ _ => n ← readDigits 0 r; Some (- Z.of_N n)
        end
      else n ← readDigits 0 value; Some (Z.of_N n)
  end.

Definition readBool (value : string) : option bool :=
  if String.eqb value "true" then Some true
  else if String.eqb value "false" then Some false
  else None.

(** The elements of an array of strings, after the opening bracket.
    Every element takes at least two bytes, so the length of the text
    bounds their number. *)
Fixpoint readElements (fuel : nat) (s : string) : option (list string) :=
  match fuel with
  | O => None
  | S fuel =>
      match s with
      | String c r =>
          if Ascii.eqb c quoteChar then
            match readBasic r with
            | Some (v, rest) =>
                if validUTF8 v then
                  if String.eqb rest "]" then Some [v]
                  else
                    match rest with
                    | String "," (String " " more) =>
                        vs ← readElements fuel more; Some (v :: vs)
                    | _ => None
                    end
                else None
            | None => None
            end
          else None
      | EmptyString => None
      end
  end.

Definition readStrings (value : string) : option (list string) :=
  if String.eqb value "[]" then Some []
  else
    match value with
    | String "[" r => readElements (String.length r) r
    | _ => None
    end.

Fixpoint trimLeft (s : string) : string :=
  match s with
  | String c r =>
      if Ascii.eqb c " " || Ascii.eqb c tab then trimLeft r else s
  | EmptyString => EmptyString
  end.

(** A line [key = value]: the bare key and the text of the value. *)
Fixpoint splitKey (s : string) : option (string * string) :=
  match s with
  | EmptyString => None
  | String c r =>
      if Ascii.eqb c "=" then Some ("", trimLeft r)
      else if Ascii.eqb c " " || Ascii.eqb c tab then
        match trimLeft r with
        | String "=" v => Some ("", trimLeft v)
        | _ => None
        end
      else
        match splitKey r with
        | Some (k, v) => Some (String c k, v)
        | None => None
        end
  end.

(** The table the reader is in. *)
Inductive Table :=
| Root
| InServer
| InProxy (p : ProxyRule).

(** What has been read so far: the fields of the [UserConfig], the
    elements of [proxies] that are complete, and the open table. *)
Record Partial := mkPartial {
  pVersion : string;
  pUpdated : string;
  pServer : ServerConfig;
  pRules : list ProxyRule;
  pTable : Table
}.

(** [var loadedConfig UserConfig]: the zero value. *)
Definition start : Partial :=
  mkPartial "" "" (mkServerConfig "" 0 "" "" false) [] Root.

Definition closeTable (d : Partial) : list ProxyRule :=
  match pTable d with
  | InProxy p => pRules d ++ [p]
  | _ => pRules d
  end.

Definition setServer (s : ServerConfig) (key value : string)
  : option ServerConfig :=
  if String.eqb key "addr" then
    v ← readString value;
    Some (mkServerConfig v (Port s) (Token s) (Remark s) (AutoStart s))
  else if String.eqb key "port" then
    v ← readInt value;
    Some (mkServerConfig (Addr s) v (Token s) (Remark s) (AutoStart s))
  else if String.eqb key "token" then
    v ← readString value;
    Some (mkServerConfig (Addr s) (Port s) v (Remark s) (AutoStart s))
  else if String.eqb key "remark" then
    v ← readString value;
    Some (mkServerConfig (Addr s) (Port s) (Token s) v (AutoStart s))
  else if String.eqb key "auto_start" then
    v ← readBool value;
    Some (mkServerConfig (Addr s) (Port s) (Token s) (Remark s) v)
  else Some s.

Definition setRule (p : ProxyRule) (key value : string)
  : option ProxyRule :=
  if String.eqb key "id" then
    v ← readString value;
    Some (mkProxyRule v (Enabled p) (ProxyType p) (Name p) (LocalIP p)
            (LocalPort p) (RemotePort p) (Domains p))
  else if String.eqb key "enabled" then
    v ← readBool value;
    Some (mkProxyRule (ID p) v (ProxyType p) (Name p) (LocalIP p)
            (LocalPort p) (RemotePort p) (Domains p))
  else if String.eqb key "proxy_type" then
    v ← readString value;
    Some (mkProxyRule (ID p) (Enabled p) v (Name p) (LocalIP p)
            (LocalPort p) (RemotePort p) (Domains p))
  else if String.eqb key "name" then
    v ← readString value;
    Some (mkProxyRule (ID p) (Enabled p) (ProxyType p) v (LocalIP p)
            (LocalPort p) (RemotePort p) (Domains p))
  else if String.eqb key "local_ip" then
    v ← readString value;
    Some (mkProxyRule (ID p) (Enabled p) (ProxyType p) (Name p) v
            (LocalPort p) (RemotePort p) (Domains p))
  else if String.eqb key "local_port" then
    v ← readInt value;
    Some (mkProxyRule (ID p) (Enabled p) (ProxyType p) (Name p) (LocalIP p)
            v (RemotePort p) (Domains p))
  else if String.eqb key "remote_port" then
    v ← readInt value;
    Some (mkProxyRule (ID p) (Enabled p) (ProxyType p) (Name p) (LocalIP p)
            (LocalPort p) v (Domains p))
  else if String.eqb key "domains" then
    v ← readStrings value;
    Some (mkProxyRule (ID p) (Enabled p) (ProxyType p) (Name p) (LocalIP p)
            (LocalPort p) (RemotePort p) v)
  else Some p.

(** A key of the open table is stored in the field that carries it as
    its tag; a value of another type is an error; a key that no field
    carries is passed over. *)
Definition assign (d : Partial) (key value : string) : option Partial :=
  match pTable d with
  | Root =>
      if String.eqb key "config_version" then
        v ← readString value;
        Some (mkPartial v (pUpdated d) (pServer d) (pRules d) Root)
      else if String.eqb key "last_updated" then
        v ← readString value;
        Some (mkPartial (pVersion d) v (pServer d) (pRules d) Root)
      else if String.eqb key "proxies" then
        if String.eqb value "[]" then Some d else None
      else Some d
  | InServer =>
      s ← setServer (pServer d) key value;
      Some (mkPartial (pVersion d) (pUpdated d) s (pRules d) InServer)
  | InProxy p =>
      p ← setRule p key value;
      Some (mkPartial (pVersion d) (pUpdated d) (pServer d) (pRules d)
              (InProxy p))
  end.

(** One line of the document. *)
Definition step (d : Partial) (line : string) : option Partial :=
  let l := trimLeft line in
  if String.eqb l "" then Some d
  else if String.eqb l "[server]" then
    Some (mkPartial (pVersion d) (pUpdated d) (pServer d) (closeTable d)
            InServer)
  else if String.eqb l "[[proxies]]" then
    Some (mkPartial (pVersion d) (pUpdated d) (pServer d) (closeTable d)
            (InProxy (mkProxyRule "" false "" "" "" 0 0 [])))
  else
    match splitKey l with
    | Some (key, value) => assign d key value
    | None => None
    end.

Fixpoint readLines (d : Partial) (ls : list string) : option Partial :=
  match ls with
  | [] => Some d
  | l :: rest =>
      match step d l with
      | Some d => readLines d rest
      | None => None
      end
  end.

(** [toml.Unmarshal(data, &loadedConfig)] for documents laid out as
    [Marshal] lays them out: the tables [server] and [proxies], one
    [key = value] a line, basic strings, decimal integers, booleans and
    one-line arrays of strings.  The rest of the TOML syntax (comments,
    literal and multi-line strings, inline tables, other number formats)
    is not covered and is reported as an error. *)
Definition Unmarshal (data : list byte) : Result UserConfig :=
  match readLines start (lines (string_of_list_byte data)) with
  | Some d =>
      Ok (mkUserConfig (pVersion d) (pUpdated d) (pServer d) (closeTable d))
  | None => Err "toml: cannot decode the document"
  end.

(** The codec of the configuration store.  The encoding of the run-time
    structure of [generateFrpcToml], a document the program writes and
    never reads, is left open. *)
Definition codec (marshalMap : gmap string Any → Result (list byte))
  : TomlCodec := {|
  toml_Marshal_UserConfig := Marshal;
  toml_Marshal_map := marshalMap;
  toml_Unmarshal_UserConfig := Unmarshal
|}.

(** The strings of the configuration that [SaveUserConfig] puts on
    disk as they came are well-formed UTF-8. *)
Definition validRule (p : ProxyRule) : bool :=
  validUTF8 (ID p) && validUTF8 (ProxyType p) && validUTF8 (Name p)
  && validUTF8 (LocalIP p) && forallb validUTF8 (Domains p).

Definition validServer (s : ServerConfig) : bool :=
  validUTF8 (Addr s) && validUTF8 (Token s) && validUTF8 (Remark s).

Definition validText (c : UserConfig) : bool :=
  validServer (Server c) && forallb validRule (Proxies c).

End Toml.

(** ** The methods of [*MoleService]

    Output of the standard logger ([log.Println], [log.Printf]) and the
    directories made by [os.MkdirAll] are not part of the state. *)

Module Service.
Section Methods.
Context `{TomlCodec}.

Definition getFrpBinDir : M string :=
  baseDir ← getOs userConfigDir;
  mret (filepath_Join [baseDir; "mole"; "bin"]).

Definition getAppConfigDir : M string :=
  baseDir ← getOs userConfigDir;
  mret (filepath_Join [baseDir; "mole"; "config"]).

Definition emitLog (logs : list string) : M unit :=
  if Nat.eqb (length logs) 0 then mret tt
  else Event_Emit "frp-logs" (PLogs logs).

Definition emitFrpStatus (status : string) : M unit :=
  Event_Emit "frp-status" (PStatus status).

Definition loadConfigFromDisk : M error :=
  dir ← getAppConfigDir;
  let configPath := filepath_Join [dir; "config.toml"] in
  missing ← os_Stat_IsNotExist configPath;
  if (missing : bool)
  then mret (Some ("stat " +:+ configPath +:+ ": no such file or directory"))
  else
    r ← os_ReadFile configPath;
    match r with
    | Err e => mret (Some e)
    | Ok data =>
        match toml_Unmarshal_UserConfig data with
        | Err e => mret (Some e)
        | Ok loadedConfig =>
            modSvc (set_config (Some loadedConfig));;
            mret None
        end
    end.

Definition generateFrpcToml : M error :=
  cfg ← getSvc config;
  match cfg with
  | None => mret (Some "未发现有效配置")
  | Some cfg =>
      let runCfg := Generator.buildRunCfg cfg in
      binDir ← getFrpBinDir;
      let frpcPath := filepath_Join [binDir; "frpc.toml"] in
      match toml_Marshal_map runCfg with
      | Err e => mret (Some e)
      | Ok out => os_WriteFile frpcPath out
      end
  end.

(** The configuration [SaveUserConfig] installs: [newCfg] with the two
    provenance fields overwritten. *)
Definition stamped (newCfg : UserConfig) (zone t : Z) : UserConfig :=
  {| ConfigVersion := "1.0.0";
     LastUpdated := Time.Format_RFC3339 zone t;
     Server := Server newCfg;
     Proxies := Proxies newCfg |}.

Definition SaveUserConfig (newCfg : UserConfig) : M error :=
  withLock (
    t ← getOs now;
    loc ← getOs zone;
    let cfg := stamped newCfg loc t in
    modSvc (set_config (Some cfg));;
    dir ← getAppConfigDir;
    let configPath := filepath_Join [dir; "config.toml"] in
    match toml_Marshal_UserConfig cfg with
    | Err e => mret (Some ("配置文件格式化失败: " +:+ e))
    | Ok data =>
        r ← os_WriteFile configPath data;
        match r with
        | Some e => mret (Some ("保存文件失败: " +:+ e))
        | None => generateFrpcToml
        end
    end).

Definition Disconnect : M ServiceStatus :=
  running ← getSvc isRunning;
  if negb running
  then mret {| Success := true; IsRunning := false; Config := None;
               Message := "服务本就处于停止状态" |}
  else
    c ← getSvc frpCmd;
    r ← match c return M error with
        | Some {| Process := Some pid |} => Process_Kill pid
        | _ => mret None
        end;
    match r with
    | Some e =>
        mret {| Success := false; IsRunning := true; Config := None;
                Message := "停止进程失败: " +:+ e |}
    | None =>
        modSvc (set_isRunning false);;
        emitLog ["用户手动断开连接"];;
        mret {| Success := true; IsRunning := false; Config := None;
                Message := "服务已断开" |}
    end.

Definition prepareFrpEnv : M (Result (string * string)) :=
  binDir ← getFrpBinDir;
  goos ← getOs GOOS;
  let frpcPath := filepath_Join [binDir; frpcTargetName goos] in
  missing ← os_Stat_IsNotExist frpcPath;
  r ← (if (missing : bool) return M error then
         arch ← getOs GOARCH;
         d ← frpcBin_ReadFile (default "" (frpcMap goos !! arch));
         match d with
         | Err e => mret (Some e)
         | Ok data => os_WriteFile frpcPath data
         end
       else mret None);
  match r with
  | Some e => mret (Err e)
  | None =>
      let tomlPath := filepath_Join [binDir; "frpc.toml"] in
      missing ← os_Stat_IsNotExist tomlPath;
      (if (missing : bool) then generateFrpcToml;; mret tt else mret tt);;
      mret (Ok (frpcPath, tomlPath))
  end.

Definition stopFrp : M unit :=
  mu_Lock;;
  c ← getSvc frpCmd;
  match c return M unit with
  | Some {| Process := Some p |} =>
      let pid := pretty p in
      mu_Unlock;;
      goos ← getOs GOOS;
      (if String.eqb goos "windows"
       then exec_Run "taskkill" ["/F"; "/T"; "/PID"; pid]
       else exec_Run "kill" ["-9"; pid]);;
      modSvc (set_isRunning false)
  | _ => mu_Unlock
  end.

Definition startFrp : M unit :=
  withLock (
    running ← getSvc isRunning;
    if (running : bool) then mret tt
    else
      r ← prepareFrpEnv;
      match r with
      | Err e => mret tt
      | Ok (frpcPath, tomlPath) =>
          err ← generateFrpcToml;
          match err with
          | Some e => mret tt
          | None =>
              c ← getSvc frpCmd;
              match c return M unit with
              | Some {| Process := Some _ |} => stopFrp
              | _ => mret tt
              end;;
              modSvc (set_isRunning false);;
              modSvc (set_frpCmd (Some (mkCmd frpcPath ["-c"; tomlPath] None)));;
              time_NewTicker;;
              err ← frpCmd_Start;
              match err with
              | Some e => emitLog ["frpc 进程启动失败："; e]
              | None =>
                  emitFrpStatus "start";;
                  modSvc (set_isRunning true)
              end
          end
      end).

(** The goroutine started after a successful [Start], from the moment
    [s.frpCmd.Wait()] returns. *)
Definition exitWaiter : M unit :=
  withLock (
    modSvc (set_frpCmd None);;
    modSvc (set_isRunning false);;
    emitLog ["警告：frpc 进程已退出"];;
    emitFrpStatus "stop").

(** The closure [readLog] on a pipe that yields [lines] before it is
    closed: each scanned line is appended to the buffer under [logMu]. *)
Fixpoint readLog (lines : list string) : M unit :=
  match lines with
  | [] => mret tt
  | line :: rest =>
      logMu_Lock;;
      modSvc (λ s, set_logBuffer (logBuffer s ++ [line]) s);;
      logMu_Unlock;;
      readLog rest
  end.

Definition flushLogs : M unit :=
  logMu_Lock;;
  buf ← getSvc logBuffer;
  if Nat.eqb (length buf) 0 then logMu_Unlock
  else
    let logsToSend := buf in
    modSvc (set_logBuffer []);;
    logMu_Unlock;;
    emitLog logsToSend.

Definition cleanup : M unit := stopFrp.

(** [n] rounds of a start followed by the exit of the subprocess. *)
Fixpoint startExitCycles (n : nat) : M unit :=
  match n with
  | O => mret tt
  | S n => startFrp;; exitWaiter;; startExitCycles n
  end.

Definition getRunningSummary : M string :=
  running ← getSvc isRunning;
  if (running : bool) then mret "FRP 服务正在运行中"
  else
    cfg ← getSvc config;
    match cfg with
    | None => mret "尚未完成基础配置"
    | Some _ => mret "服务待命中"
    end.

(** [GetStatus], from the moment the receive on [s.initWait] returns. *)
Definition GetStatus : M ServiceStatus :=
  mu_RLock;;
  running ← getSvc isRunning;
  cfg ← getSvc config;
  msg ← getRunningSummary;
  mu_RUnlock;;
  mret {| Success := true; IsRunning := running; Config := cfg;
          Message := msg |}.

(** The goroutines a method starts with [go] and leaves behind. *)
Inductive Goroutine := go_startFrp.

(** [Connect] returns its status and the goroutine it has started, if
    any. *)
Definition Connect : M (ServiceStatus * option Goroutine) :=
  mu_RLock;;
  cfg ← getSvc config;
  match cfg with
  | None =>
      mu_RUnlock;;
      mret ({| Success := false; IsRunning := false; Config := None;
               Message := "错误：未发现有效配置。请先前往配置页保存服务器信息。" |},
            None)
  | Some _ =>
      mu_RUnlock;;
      running ← getSvc isRunning;
      if (running : bool) then
        cfg ← getSvc config;
        mret ({| Success := true; IsRunning := true; Config := cfg;
                 Message := "提示：隧道已在运行中，无需重复连接。" |},
              None)
      else
        cfg ← getSvc config;
        mret ({| Success := true; IsRunning := false; Config := cfg;
                 Message := "启动中..." |},
              Some go_startFrp)
  end.

(** The scheduler runs a goroutine that was left behind. *)
Definition goRun (g : option Goroutine) : M unit :=
  match g with
  | Some go_startFrp => startFrp
  | None => mret tt
  end.

(** The body of the goroutine [ServiceStartup] starts, up to the deferred
    [close(s.initWait)]. *)
Definition initTask : M unit :=
  err ← loadConfigFromDisk;
  match err with
  | Some _ => mret tt
  | None =>
      mu_RLock;;
      cfg ← getSvc config;
      match cfg with
      | Some c =>
          if AutoStart (Server c) then mu_RUnlock;; startFrp
          else mu_RUnlock
      | None => mu_RUnlock
      end
  end.

(** The first half of [flushLogs], under [logMu]: the buffer is copied
    and cleared.  The result is [logsToSend]; it is empty when the buffer
    was, and [flushLogs] then returns without publishing. *)
Definition flushTake : M (list string) :=
  logMu_Lock;;
  buf ← getSvc logBuffer;
  if Nat.eqb (length buf) 0 then logMu_Unlock;; mret []
  else
    let logsToSend := buf in
    modSvc (set_logBuffer []);;
    logMu_Unlock;;
    mret logsToSend.

(** What happens to the log buffer.  A reader scans a line.  A ticker
    goroutine [g] (every start creates one) runs [flushLogs] in two
    steps, because [emitLog] is called after [logMu] is released: it
    takes the buffer, and later it publishes what it took.  Anything can
    happen between the two steps, the flush of another ticker goroutine
    included. *)
Inductive LogStep :=
| Scan (line : string)
| Take (g : nat)
| Publish (g : nat).

(** A schedule, run from the batches [pending] that the ticker
    goroutines have taken and not yet published; the result is what is
    pending at the end.  A step that its goroutine cannot make where it
    stands (a second take before the publication, a publication of
    nothing) is skipped. *)
Fixpoint logSchedule (steps : list LogStep)
    (pending : gmap nat (list string)) : M (gmap nat (list string)) :=
  match steps with
  | [] => mret pending
  | Scan line :: rest => readLog [line];; logSchedule rest pending
  | Take g :: rest =>
      match pending !! g with
      | Some _ => logSchedule rest pending
      | None =>
          logs ← flushTake;
          logSchedule rest
            (if Nat.eqb (length logs) 0 then pending
             else <[g := logs]> pending)
      end
  | Publish g :: rest =>
      match pending !! g with
      | Some logs => emitLog logs;; logSchedule rest (delete g pending)
      | None => logSchedule rest pending
      end
  end.

End Methods.
End Service.

(** ** Startup

    The service with its [initWait] channel: [initWait] is [true] once
    the channel is closed. *)

Record App := mkApp {
  initWait : bool;
  appState : State
}.

(** [main]: the service [NewMoleService()] makes, on a machine [w]. *)
Definition boot (w : World) : App :=
  {| initWait := false; appState := {| svc := NewMoleService; os := w |} |}.

(** The goroutine of [ServiceStartup]: [defer close(s.initWait)] runs
    when the body returns. *)
Definition ServiceStartup `{TomlCodec} (a : App) : App :=
  match Service.initTask (appState a) with
  | Ret _ st => {| initWait := true; appState := st |}
  | Blocked st => {| initWait := initWait a; appState := st |}
  end.

(** [GetStatus] with its first statement, [<-s.initWait]. *)
Definition App_GetStatus (a : App) : Outcome ServiceStatus :=
  if initWait a then Service.GetStatus (appState a) else Blocked (appState a).

(** ** Paths and traces *)

(** The path of [config.toml]. *)
Definition configPathOf (w : World) : string :=
  filepath_Join [filepath_Join [userConfigDir w; "mole"; "config"];
                 "config.toml"].

(** The path of [frpc.toml]. *)
Definition tomlPathOf (w : World) : string :=
  filepath_Join [filepath_Join [userConfigDir w; "mole"; "bin"];
                 "frpc.toml"].

(** The path of the [frpc] executable. *)
Definition frpcPathOf (w : World) : string :=
  filepath_Join [filepath_Join [userConfigDir w; "mole"; "bin"];
                 frpcTargetName (GOOS w)].

(** What no method changes: the machine, the embedded files, the clock. *)
Definition sameEnv (w w' : World) : Prop :=
  userConfigDir w' = userConfigDir w ∧ GOOS w' = GOOS w
  ∧ GOARCH w' = GOARCH w ∧ frpcBin w' = frpcBin w
  ∧ now w' = now w ∧ zone w' = zone w.

(** The state in which a method body runs after [s.mu.Lock()]. *)
Definition locked (st : State) : State :=
  {| svc := set_mu true (svc st); os := os st |}.

(** A configured supervisor at rest on a machine where [frpc] is in
    place and no system call is going to fail. *)
Definition idle (cfg : UserConfig) (st : State) : Prop :=
  mu (svc st) = false ∧ isRunning (svc st) = false
  ∧ frpCmd (svc st) = None ∧ config (svc st) = Some cfg
  ∧ outcomes (os st) = []
  ∧ is_Some (files (os st) !! frpcPathOf (os st)).

Module Trace.

Definition isWrite (e : Event) : bool :=
  match e with EvWriteFile _ _ => true | _ => false end.

(** A successful [Start]. *)
Definition isStarted (e : Event) : bool :=
  match e with EvStart _ _ (Some _) => true | _ => false end.

Definition isStart (e : Event) : bool :=
  match e with EvStart _ _ _ => true | _ => false end.

(** Every [Start] in [evs] comes after a write of [tomlPath], and the
    latest such write before it succeeded; [written] is the result of
    the latest write so far. *)
Fixpoint spawnGuarded (tomlPath : string) (written : bool)
    (evs : list Event) : bool :=
  match evs with
  | [] => true
  | EvWriteFile p ok :: rest =>
      spawnGuarded tomlPath (if String.eqb p tomlPath then ok else written)
        rest
  | EvStart _ _ _ :: rest => written && spawnGuarded tomlPath written rest
  | _ :: rest => spawnGuarded tomlPath written rest
  end.

(** No [Start] in [evs] comes after a failed write of [tomlPath]. *)
Fixpoint noSpawnAfterFailedWrite (tomlPath : string) (evs : list Event)
    : bool :=
  match evs with
  | [] => true
  | EvWriteFile p false :: rest =>
      (if String.eqb p tomlPath then negb (existsb isStart rest) else true)
      && noSpawnAfterFailedWrite tomlPath rest
  | _ :: rest => noSpawnAfterFailedWrite tomlPath rest
  end.

(** The batches of log lines published on "frp-logs", in order. *)
Definition batchOf (e : Event) : list (list string) :=
  match e with
  | EvEmit topic (PLogs logs) =>
      if String.eqb topic "frp-logs" then [logs] else []
  | _ => []
  end.

Definition batches (evs : list Event) : list (list string) :=
  concat (batchOf <$> evs).

(** The lines the readers scan in a schedule, in order. *)
Definition scanned (steps : list Service.LogStep) : list string :=
  concat ((λ s, match s with Service.Scan line => [line] | _ => [] end)
            <$> steps).

(** The lines of the batches taken and not yet published. *)
Definition held (pending : gmap nat (list string)) : list string :=
  concat (map_to_list pending).*2.

(** Every flush step of the schedule is made by the goroutine [g]. *)
Definition onlyFlusher (g : nat) (steps : list Service.LogStep) : Prop :=
  Forall (λ s, match s with
               | Service.Scan _ => True
               | Service.Take g' | Service.Publish g' => g' = g
               end) steps.

End Trace.

(** ** A sample installation

    A configuration, a world and a stand-in for the TOML codec, used to
    run the methods on concrete inputs.  The stand-in writes a
    configuration in a self-delimiting binary form and reads it back; of a
    runtime structure it writes the number of keys only ([frpc.toml] is
    never read by the service). *)

Module Sample.

Definition encNat (n : nat) : list byte := replicate n x01 ++ [x00].

Fixpoint decNat (bs : list byte) : option (nat * list byte) :=
  match bs with
  | x00 :: rest => Some (0%nat, rest)
  | x01 :: rest => '(n, rest) ← decNat rest; Some (S n, rest)
  | _ => None
  end.

Definition encString (s : string) : list byte :=
  encNat (String.length s) ++ list_byte_of_string s.

Definition decString (bs : list byte) : option (string * list byte) :=
  '(n, rest) ← decNat bs;
  if (length rest <? n)%nat then None
  else Some (string_of_list_byte (take n rest), drop n rest).

Fixpoint encPos (p : positive) : list byte :=
  match p with
  | xH => [x02]
  | xO p => x00 :: encPos p
  | xI p => x01 :: encPos p
  end.

Fixpoint decPos (bs : list byte) : option (positive * list byte) :=
  match bs with
  | x02 :: rest => Some (xH, rest)
  | x00 :: rest => '(p, rest) ← decPos rest; Some (xO p, rest)
  | x01 :: rest => '(p, rest) ← decPos rest; Some (xI p, rest)
  | _ => None
  end.

Definition encZ (z : Z) : list byte :=
  match z with
  | Z0 => [x00]
  | Zpos p => x01 :: encPos p
  | Zneg p => x02 :: encPos p
  end.

Definition decZ (bs : list byte) : option (Z * list byte) :=
  match bs with
  | x00 :: rest => Some (0, rest)
  | x01 :: rest => '(p, rest) ← decPos rest; Some (Zpos p, rest)
  | x02 :: rest => '(p, rest) ← decPos rest; Some (Zneg p, rest)
  | _ => None
  end.

Definition encBool (b : bool) : list byte := [if b then x01 else x00].

Definition decBool (bs : list byte) : option (bool * list byte) :=
  match bs with
  | x00 :: rest => Some (false, rest)
  | x01 :: rest => Some (true, rest)
  | _ => None
  end.

Definition encList {A} (enc : A → list byte) (l : list A) : list byte :=
  encNat (length l) ++ concat (enc <$> l).

Fixpoint decMany {A} (dec : list byte → option (A * list byte))
    (n : nat) (bs : list byte) : option (list A * list byte) :=
  match n with
  | O => Some ([], bs)
  | S n =>
      '(x, bs) ← dec bs;
      '(xs, bs) ← decMany dec n bs;
      Some (x :: xs, bs)
  end.

Definition decList {A} (dec : list byte → option (A * list byte))
    (bs : list byte) : option (list A * list byte) :=
  '(n, bs) ← decNat bs; decMany dec n bs.

Definition encRule (p : ProxyRule) : list byte :=
  encString (ID p) ++ encBool (Enabled p) ++ encString (ProxyType p)
  ++ encString (Name p) ++ encString (LocalIP p) ++ encZ (LocalPort p)
  ++ encZ (RemotePort p) ++ encList encString (Domains p).

Definition decRule (bs : list byte) : option (ProxyRule * list byte) :=
  '(id, bs) ← decString bs;
  '(en, bs) ← decBool bs;
  '(ty, bs) ← decString bs;
  '(nm, bs) ← decString bs;
  '(ip, bs) ← decString bs;
  '(lp, bs) ← decZ bs;
  '(rp, bs) ← decZ bs;
  '(ds, bs) ← decList decString bs;
  Some (mkProxyRule id en ty nm ip lp rp ds, bs).

Definition encConfig (c : UserConfig) : list byte :=
  encString (ConfigVersion c) ++ encString (LastUpdated c)
  ++ encString (Addr (Server c)) ++ encZ (Port (Server c))
  ++ encString (Token (Server c)) ++ encString (Remark (Server c))
  ++ encBool (AutoStart (Server c)) ++ encList encRule (Proxies c).

Definition decConfig (bs : list byte) : option UserConfig :=
  '(cv, bs) ← decString bs;
  '(lu, bs) ← decString bs;
  '(ad, bs) ← decString bs;
  '(po, bs) ← decZ bs;
  '(tk, bs) ← decString bs;
  '(rm, bs) ← decString bs;
  '(au, bs) ← decBool bs;
  '(ps, bs) ← decList decRule bs;
  match bs with
  | [] => Some (mkUserConfig cv lu (mkServerConfig ad po tk rm au) ps)
  | _ :: _ => None
  end.

#[export] Instance codec : TomlCodec := {|
  toml_Marshal_UserConfig c := Ok (encConfig c);
  toml_Marshal_map m := Ok (encNat (size m));
  toml_Unmarshal_UserConfig bs :=
    match decConfig bs with
    | Some c => Ok c
    | None => Err "toml: malformed document"
    end
|}.

Definition web : ProxyRule :=
  mkProxyRule "p1" true "http" "web" "127.0.0.1" 8080 0 ["a.example.com"].
Definition dns : ProxyRule :=
  mkProxyRule "p2" false "udp" "dns" "127.0.0.1" 53 6053 [].
Definition ssh : ProxyRule :=
  mkProxyRule "p3" true "tcp" "ssh" "" 22 6000 [].

Definition cfg : UserConfig :=
  mkUserConfig "" ""
    (mkServerConfig "frp.example.com" 7000 "secret" "home" false)
    [web; dns; ssh].

Definition binDir : string := "/home/u/.config/mole/bin".

(** A Linux machine on which [frpc] and [frpc.toml] are in place; the
    clock reads 2023-11-14T22:13:20.5Z. *)
Definition world : World :=
  {| files := {[ binDir +:+ "/frpc" := [x7f; x45; x4c; x46];
                 binDir +:+ "/frpc.toml" := [] ]};
     frpcBin := {[ "resources/bin/frpc_linux_amd64" := [x7f; x45; x4c; x46] ]};
     outcomes := [];
     trace := [];
     now := 1700000000500000000;
     zone := 0;
     nextPid := 4242;
     tickers := 0;
     GOOS := "linux";
     GOARCH := "amd64";
     userConfigDir := "/home/u/.config";
     torn := [] |}.

(** The same machine before anything was written to it. *)
Definition freshWorld : World := set_files ∅ world.

(** A service that holds [cfg]. *)
Definition service : MoleService := set_config (Some cfg) NewMoleService.

Definition final {A} (o : Outcome A) : State :=
  match o with Ret _ st => st | Blocked st => st end.

(** The configured service at rest. *)
Definition atRest : State := {| svc := service; os := world |}.

(** A new service on the untouched machine. *)
Definition unconfigured : State :=
  {| svc := NewMoleService; os := freshWorld |}.

(** The write of [frpc.toml] will succeed, the spawn will fail. *)
Definition spawnFails : State :=
  {| svc := service;
     os := set_outcomes [None; Some "fork/exec: permission denied"] world |}.

(** [frpc.toml] is missing and its next write will fail, once. *)
Definition flakyDisk : State :=
  {| svc := service;
     os := set_outcomes [Some "no space left on device"]
             (set_files (delete (binDir +:+ "/frpc.toml") (files world))
                world) |}.

(** After a start. *)
Definition started : State := final (Service.startFrp atRest).

(** After a start and a [Disconnect] whose kill succeeded, before the
    exit of the subprocess has been handled. *)
Definition disconnected : State := final (Service.Disconnect started).

(** Running, and the next kill will fail. *)
Definition killFails : State :=
  {| svc := svc started;
     os := set_outcomes [Some "operation not permitted"] (os started) |}.

(** At rest with two lines in the log buffer. *)
Definition buffered : State :=
  {| svc := set_logBuffer ["[I] start frpc"; "[I] login ok"] service;
     os := world |}.

(** Saving on a disk that takes [config.toml] and refuses [frpc.toml]. *)
Definition halfFullDisk : State :=
  {| svc := NewMoleService;
     os := set_outcomes [None; Some "no space left on device"] freshWorld |}.

(** Saving on a disk that refuses [config.toml]. *)
Definition fullDisk : State :=
  {| svc := NewMoleService;
     os := set_outcomes [Some "no space left on device"] freshWorld |}.

(** The configured service on an untouched machine of an architecture
    for which no [frpc] is embedded. *)
Definition exotic : State :=
  {| svc := service;
     os := {| files := ∅; frpcBin := frpcBin world; outcomes := [];
              trace := []; now := now world; zone := 0; nextPid := 4242;
              tickers := 0; GOOS := "linux"; GOARCH := "riscv64";
              userConfigDir := "/home/u/.config"; torn := [] |} |}.

(** A supervised subprocess on Windows. *)
Definition onWindows : State :=
  {| svc := set_isRunning true
              (set_frpCmd (Some (mkCmd "frpc.exe" ["-c"; "frpc.toml"] (Some 812)))
                 service);
     os := {| files := ∅; frpcBin := ∅; outcomes := [];
              trace := []; now := now world; zone := 0; nextPid := 813;
              tickers := 1; GOOS := "windows"; GOARCH := "amd64";
              userConfigDir := "C:/Users/u/AppData/Roaming"; torn := [] |} |}.

Definition configPath : string := "/home/u/.config/mole/config/config.toml".

(** The machine of [world] after [cfg], which does not ask for an
    automatic start, was saved. *)
Definition installed : World :=
  set_files (<[configPath := encConfig cfg]> (files world)) world.

(** A configuration that asks for an automatic start, and the machine on
    which it was saved. *)
Definition autoCfg : UserConfig :=
  mkUserConfig "1.0.0" "2023-11-14T22:13:20Z"
    (mkServerConfig "frp.example.com" 7000 "secret" "home" true)
    [web; dns; ssh].

Definition autoInstalled : World :=
  set_files (<[configPath := encConfig autoCfg]> (files world)) world.

(** [config.toml] is in place and the next write fails after the file
    was truncated. *)
Definition tornDisk : State :=
  {| svc := service;
     os := set_torn [Some 0%nat]
             (set_outcomes [Some "no space left on device"] installed) |}.

(** On the untouched machine the next write fails after two bytes. *)
Definition tornExtract : State :=
  {| svc := service;
     os := set_torn [Some 2%nat]
             (set_outcomes [Some "no space left on device"] freshWorld) |}.

(** [cfg] after an edit that the generator does not see: another remark,
    automatic start, a new id for the first rule, the disabled rule
    dropped. *)
Definition edited : UserConfig :=
  mkUserConfig "0.9" "yesterday"
    (mkServerConfig "frp.example.com" 7000 "secret" "office" true)
    [mkProxyRule "p9" true "http" "web" "127.0.0.1" 8080 443
       ["a.example.com"];
     ssh].

(** The codec of the configuration store, with the stand-in above for
    the run-time structure. *)
Definition store : TomlCodec := Toml.codec (λ m, Ok (encNat (size m))).

(** A remark in Latin-1: the byte E9 is not UTF-8. *)
Definition latin1 : UserConfig :=
  mkUserConfig "" ""
    (mkServerConfig "frp.example.com" 7000 "secret"
       (String "c" (String "a" (String "f" (String (ascii_of_N 233) ""))))
       false)
    [web].

End Sample.

(** * Properties *)

(** ** Timestamps *)

Module TimeFacts.
Import Time.

Lemma digitVal_digit (k : Z) : 0 ≤ k ≤ 9 → digitVal (digit k) = Some k.
Proof.
  intros Hk.
  assert (k = 0 ∨ k = 1 ∨ k = 2 ∨ k = 3 ∨ k = 4 ∨ k = 5 ∨ k = 6 ∨ k = 7
          ∨ k = 8 ∨ k = 9) as Hc by lia.
  repeat (destruct Hc as [->|Hc]; [reflexivity|]). by subst.
Qed.

Lemma read2_pad2 (n : Z) (rest : string) :
  0 ≤ n < 100 → read2 (pad2 n rest) = Some (n, rest).
Proof.
  intros Hn. unfold read2, pad2.
  rewrite !digitVal_digit by (Z.div_mod_to_equations; lia).
  f_equal. f_equal. Z.div_mod_to_equations. lia.
Qed.

Lemma read4_pad4 (n : Z) (rest : string) :
  0 ≤ n < 10000 → read4 (pad4 n rest) = Some (n, rest).
Proof.
  intros Hn. unfold read4, pad4.
  rewrite read2_pad2 by (Z.div_mod_to_equations; lia).
  cbn [mbind option_bind].
  rewrite read2_pad2 by (Z.div_mod_to_equations; lia).
  cbn [mbind option_bind]. f_equal. f_equal.
  Z.div_mod_to_equations. lia.
Qed.

Lemma readZone_zoneSuffix (z : Z) :
  -6000 < z < 6000 → readZone (zoneSuffix z) = Some z.
Proof.
  intros Hz. unfold zoneSuffix.
  destruct (Z.eqb_spec z 0) as [->|Hz0]; [done|].
  assert (0 ≤ Z.abs z / 60 < 100 ∧ 0 ≤ Z.abs z mod 60 < 100
          ∧ Z.abs z / 60 * 60 + Z.abs z mod 60 = Z.abs z) as (H1 & H2 & H3).
  { assert (0 ≤ Z.abs z < 6000) as Ha by lia. revert Ha.
    generalize (Z.abs z). intros a Ha. Z.div_mod_to_equations. lia. }
  destruct (Z.ltb_spec z 0) as [Hneg|Hpos];
    cbn [readZone Ascii.eqb Bool.eqb mbind option_bind];
    rewrite read2_pad2 by done;
    cbn [mbind option_bind expect Ascii.eqb Bool.eqb];
    rewrite read2_pad2 by done; cbn [mbind option_bind String.eqb];
    f_equal; lia.
Qed.

Lemma civil_roundtrip (days : Z) :
  0 <= days < 2932897 ->
  exists y m d, civilFromDays days = (y, m, d)
    /\ daysFromCivil y m d = days
    /\ 0 <= y < 10000 /\ 1 <= m <= 12 /\ 1 <= d <= 31.
Proof.
  intros Hd. unfold civilFromDays. cbv zeta.
  set (z := days + 719468).
  set (era := z / 146097).
  set (doe := z - era * 146097).
  set (yoe := (doe - doe / 1460 + doe / 36524 - doe / 146096) / 365).
  set (doy := doe - (365 * yoe + yoe / 4 - yoe / 100)).
  set (mp := (5 * doy + 2) / 153).
  set (d := doy - (153 * mp + 2) / 5 + 1).
  set (m := if mp <? 10 then mp + 3 else mp - 9).
  set (adj := if m <=? 2 then 1 else 0).
  exists (yoe + era * 400 + adj), m, d. split; [reflexivity|].
  assert (Hdoe : 0 <= doe < 146097 /\ 4 <= era <= 24 /\ (era = 24 -> doe < 146037)).
  { subst doe era z. Z.div_mod_to_equations. lia. }
  assert (Hyoe : 0 <= yoe <= 399 /\ 0 <= doy <= 365).
  { subst doy yoe. revert Hdoe. generalize doe. intros e He.
    Z.div_mod_to_equations. lia. }
  assert (Hmp : 0 <= mp <= 11 /\ 1 <= d <= 31
                /\ (153 * mp + 2) / 5 + d - 1 = doy).
  { subst d mp. revert Hyoe. generalize doy. intros e He.
    Z.div_mod_to_equations. lia. }
  assert (Hm : 1 <= m <= 12 /\ (if 2 <? m then m - 3 else m + 9) = mp
               /\ (m <= 2 <-> 10 <= mp)).
  { subst m. destruct (Z.ltb_spec mp 10).
    - destruct (Z.ltb_spec 2 (mp + 3)); lia.
    - destruct (Z.ltb_spec 2 (mp - 9)); lia. }
  assert (Hlate : yoe = 399 -> era = 24 -> mp < 10).
  { intros Hy He. destruct Hdoe as (_ & _ & Hd24). specialize (Hd24 He).
    assert (Hlt : doy < 306).
    { subst doy. rewrite Hy. Z.div_mod_to_equations. lia. }
    subst mp. revert Hlt. generalize doy. intros e Hlt.
    Z.div_mod_to_equations. lia. }
  assert (Hadj : 0 <= adj <= 1 /\ (adj = 1 <-> m <= 2)).
  { subst adj. destruct (Z.leb_spec m 2); lia. }
  split; [|lia].
  unfold daysFromCivil. cbv zeta. fold adj.
  destruct Hm as (Hm1 & -> & Hm3).
  replace (yoe + era * 400 + adj - adj) with (yoe + era * 400) by lia.
  replace ((yoe + era * 400) / 400) with era.
  2:{ Z.div_mod_to_equations. lia. }
  replace (yoe + era * 400 - era * 400) with yoe by lia.
  destruct Hmp as (_ & _ & Hdoy).
  fold yoe. subst doy doe z. lia.
Qed.

(** A formatted instant parses back to the whole second it lies in. *)
Lemma Parse_Format (zone t : Z) :
  -6000 < zone < 6000 →
  0 ≤ Unix t + zone * 60 < 253402300800 →
  Parse_RFC3339 (Format_RFC3339 zone t) = Some (Unix t).
Proof.
  intros Hz Ht. unfold Format_RFC3339, Parse_RFC3339. cbv zeta.
  set (loc := Unix t + zone * 60) in *.
  assert (Hdays : 0 ≤ loc / 86400 < 2932897).
  { Z.div_mod_to_equations. lia. }
  destruct (civil_roundtrip _ Hdays) as (y & m & d & -> & Hback & Hy & Hm & Hd).
  set (rem := loc mod 86400).
  assert (Hrem : 0 ≤ rem < 86400) by apply Z.mod_pos_bound, eq_refl.
  assert (0 ≤ rem / 3600 < 100 ∧ 0 ≤ rem mod 3600 / 60 < 100
          ∧ 0 ≤ rem mod 60 < 100
          ∧ rem / 3600 * 3600 + rem mod 3600 / 60 * 60 + rem mod 60 = rem)
    as (H1 & H2 & H3 & H4).
  { revert Hrem. generalize rem. intros e He. Z.div_mod_to_equations. lia. }
  rewrite read4_pad4 by lia. cbn [mbind option_bind expect Ascii.eqb Bool.eqb].
  rewrite read2_pad2 by lia. cbn [mbind option_bind expect Ascii.eqb Bool.eqb].
  rewrite read2_pad2 by lia. cbn [mbind option_bind expect Ascii.eqb Bool.eqb].
  rewrite read2_pad2 by lia. cbn [mbind option_bind expect Ascii.eqb Bool.eqb].
  rewrite read2_pad2 by lia. cbn [mbind option_bind expect Ascii.eqb Bool.eqb].
  rewrite read2_pad2 by lia. cbn [mbind option_bind expect Ascii.eqb Bool.eqb].
  rewrite readZone_zoneSuffix by lia. cbn [mbind option_bind].
  f_equal. rewrite Hback.
  pose proof (Z.div_mod loc 86400). subst rem. lia.
Qed.

End TimeFacts.

(** ** Runtime configuration generator *)

Section GeneratorFacts.
Import Generator.

Lemma foldl_proxyStep (ps : list ProxyRule) (acc : list (gmap string Any)) :
  foldl proxyStep acc ps
  = acc ++ (proxyItem <$> filter (λ p, Enabled p = true) ps).
Proof.
  revert acc. induction ps as [|p ps IH]; intros acc; simpl.
  - by rewrite app_nil_r.
  - rewrite IH. unfold proxyStep.
    destruct (decide (Enabled p = true)) as [E|E].
    + rewrite filter_cons_True by done. rewrite E. simpl.
      by rewrite <- app_assoc.
    + rewrite filter_cons_False by done. by destruct (Enabled p).
Qed.

Lemma buildProxies_filter (ps : list ProxyRule) :
  buildProxies ps = proxyItem <$> filter (λ p, Enabled p = true) ps.
Proof. unfold buildProxies. by rewrite foldl_proxyStep. Qed.

Lemma runProxies_buildRunCfg (cfg : UserConfig) :
  runProxies (buildRunCfg cfg) = proxyItem <$> enabledRules cfg.
Proof.
  unfold runProxies, buildRunCfg, enabledRules.
  rewrite lookup_insert_eq. apply buildProxies_filter.
Qed.

Lemma enabled_disabled_length (ps : list ProxyRule) :
  (length (filter (λ p, Enabled p = true) ps)
   + length (filter (λ p, Enabled p = false) ps) = length ps)%nat.
Proof.
  induction ps as [|p ps IH]; [done|].
  destruct (Enabled p) eqn:E.
  - rewrite filter_cons_True, filter_cons_False by (by rewrite E).
    simpl. lia.
  - rewrite filter_cons_False, filter_cons_True by (by rewrite E).
    simpl. lia.
Qed.

(** C1: a configuration with N enabled and M disabled rules (so N + M
    rules in all) generates exactly N proxy entries; the entries are the
    items of the enabled rules in their list order, and every entry comes
    from an enabled rule, none from a disabled one. *)
Theorem generate_enabled_in_order (cfg : UserConfig) :
  let entries := runProxies (buildRunCfg cfg) in
  (length (enabledRules cfg) + length (disabledRules cfg)
     = length (Proxies cfg))%nat
  ∧ length entries = length (enabledRules cfg)
  ∧ entries = proxyItem <$> enabledRules cfg
  ∧ enabledRules cfg `sublist_of` Proxies cfg
  ∧ (∀ i item, entries !! i = Some item →
       ∃ p, enabledRules cfg !! i = Some p ∧ p ∈ Proxies cfg
            ∧ Enabled p = true ∧ item = proxyItem p).
Proof.
  intros entries. subst entries. rewrite runProxies_buildRunCfg.
  split_and!.
  - apply enabled_disabled_length.
  - by rewrite length_fmap.
  - done.
  - apply sublist_filter.
  - intros i item Hi. rewrite list_lookup_fmap in Hi.
    destruct (enabledRules cfg !! i) as [p|] eqn:Hp; [|done].
    exists p. simplify_eq/=. split; [done|].
    apply list_elem_of_lookup_2 in Hp. unfold enabledRules in Hp.
    apply list_elem_of_filter in Hp as [? ?]. done.
Qed.

Lemma proxyItem_http (p : ProxyRule) :
  ProxyType p = "http" →
  proxyItem p !! "customDomains" = Some (AStrings (Domains p))
  ∧ proxyItem p !! "remotePort" = None.
Proof.
  intros Ht. unfold proxyItem. rewrite Ht. simpl. split.
  - by rewrite lookup_insert_eq.
  - by rewrite !lookup_insert_ne, lookup_empty by done.
Qed.

Lemma proxyItem_other (p : ProxyRule) :
  ProxyType p ≠ "http" →
  proxyItem p !! "remotePort" = Some (AInt (RemotePort p))
  ∧ proxyItem p !! "customDomains" = None.
Proof.
  intros Ht. unfold proxyItem.
  destruct (String.eqb_spec (ProxyType p) "http") as [|_]; [done|]. split.
  - by rewrite lookup_insert_eq.
  - by rewrite !lookup_insert_ne, lookup_empty by done.
Qed.

(** C2: the entry generated for an enabled rule (the i-th entry for the
    i-th enabled rule) has [customDomains], equal to the rule's domains,
    and no [remotePort] when the rule's type is "http"; it has
    [remotePort] and no [customDomains] when the type is "tcp" or
    "udp". *)
Theorem generate_type_fields (cfg : UserConfig) (i : nat) (p : ProxyRule) :
  enabledRules cfg !! i = Some p →
  ∃ item, runProxies (buildRunCfg cfg) !! i = Some item
    ∧ (ProxyType p = "http" →
         item !! "customDomains" = Some (AStrings (Domains p))
         ∧ item !! "remotePort" = None)
    ∧ (ProxyType p = "tcp" ∨ ProxyType p = "udp" →
         item !! "remotePort" = Some (AInt (RemotePort p))
         ∧ item !! "customDomains" = None).
Proof.
  intros Hp. exists (proxyItem p). split_and!.
  - by rewrite runProxies_buildRunCfg, list_lookup_fmap, Hp.
  - apply proxyItem_http.
  - intros [Ht|Ht]; apply proxyItem_other; by rewrite Ht.
Qed.

(** C9: the entry generated for an enabled rule carries the rule's
    [LocalIP] unchanged; for a rule whose [LocalIP] is empty the entry's
    [localIP] is the empty string, not the loopback address. *)
Theorem generate_localIP_verbatim (cfg : UserConfig) (i : nat) (p : ProxyRule) :
  enabledRules cfg !! i = Some p →
  ∃ item, runProxies (buildRunCfg cfg) !! i = Some item
    ∧ item !! "localIP" = Some (AString (LocalIP p))
    ∧ (LocalIP p = "" → item !! "localIP" ≠ Some (AString loopback)).
Proof.
  intros Hp. exists (proxyItem p).
  assert (Hip : proxyItem p !! "localIP" = Some (AString (LocalIP p))).
  { unfold proxyItem. destruct (String.eqb _ _);
      by rewrite !lookup_insert_ne, lookup_insert_eq by done. }
  split_and!.
  - by rewrite runProxies_buildRunCfg, list_lookup_fmap, Hp.
  - done.
  - intros Hempty. rewrite Hip, Hempty. discriminate.
Qed.

End GeneratorFacts.

(** ** Symbolic execution of method bodies *)

Ltac run_unfold :=
  unfold Service.startFrp, Service.stopFrp, Service.prepareFrpEnv,
    Service.SaveUserConfig, Service.generateFrpcToml,
    Service.loadConfigFromDisk, Service.Disconnect, Service.exitWaiter,
    Service.flushLogs, Service.cleanup,
    Service.emitLog, Service.emitFrpStatus,
    Service.getFrpBinDir, Service.getAppConfigDir,
    withLock, mu_Lock, mu_Unlock, logMu_Lock, logMu_Unlock,
    os_Stat_IsNotExist, os_ReadFile, os_WriteFile, frpcBin_ReadFile,
    Process_Kill, exec_Run, frpCmd_Start, time_NewTicker, ctx_Done,
    Event_Emit, record, nextOutcome, nextTorn, getSvc, getOs, modSvc, modOs,
    mbind, mret, M_bind, M_ret in *.

Ltac run_cbn :=
  cbn beta iota zeta delta
    [ negb andb orb default from_option length Nat.eqb isNil
      mbind mret M_bind M_ret
      svc os mu config isRunning frpCmd logMu logBuffer
      files frpcBin outcomes trace now zone nextPid tickers GOOS GOARCH
      userConfigDir torn Process Path Args
      set_mu set_config set_isRunning set_frpCmd set_logMu set_logBuffer
      set_files set_outcomes set_trace set_nextPid set_tickers set_torn ]
    in *.

Ltac run := run_unfold; run_cbn.

(** The body of [startFrp] with [prepareFrpEnv] and [generateFrpcToml]
    left folded. *)
Ltac unfold_start :=
  unfold Service.startFrp, Service.stopFrp, Service.emitLog,
    Service.emitFrpStatus,
    withLock, mu_Lock, mu_Unlock, frpCmd_Start, exec_Run, time_NewTicker,
    Event_Emit, record, nextOutcome, getSvc, getOs, modSvc, modOs,
    mbind, mret, M_bind, M_ret in *.

(** ** The three files are distinct *)

Lemma append_inj_l (a x y : string) : a +:+ x = a +:+ y → x = y.
Proof. induction a as [|c a IH]; simpl; [done|]. intros [= ?]. auto. Qed.

Lemma append_assoc_l (a b c : string) : (a +:+ b) +:+ c = a +:+ (b +:+ c).
Proof.
  induction a as [|x a IH]; [done|].
  change (String x ((a +:+ b) +:+ c) = String x (a +:+ b +:+ c)).
  by f_equal.
Qed.

Lemma frpcPath_ne_tomlPath (w : World) : frpcPathOf w ≠ tomlPathOf w.
Proof.
  unfold frpcPathOf, tomlPathOf, filepath_Join, frpcTargetName.
  generalize (String.concat "/" [userConfigDir w; "mole"; "bin"]). intros d.
  cbn [String.concat]. intros Heq. apply append_inj_l in Heq.
  destruct (String.eqb (GOOS w) "windows"); discriminate.
Qed.

Lemma tomlPath_ne_configPath (w : World) : tomlPathOf w ≠ configPathOf w.
Proof.
  unfold tomlPathOf, configPathOf, filepath_Join. cbn [String.concat].
  rewrite !append_assoc_l. intros Heq. apply append_inj_l in Heq.
  discriminate.
Qed.

Lemma frpcPath_ne_configPath (w : World) : frpcPathOf w ≠ configPathOf w.
Proof.
  unfold frpcPathOf, configPathOf, filepath_Join. cbn [String.concat].
  rewrite !append_assoc_l. intros Heq. apply append_inj_l in Heq.
  discriminate.
Qed.

(** ** The configuration document *)

Module TomlFacts.
Import Toml.

Lemma length_append (a b : string) :
  String.length (a +:+ b) = (String.length a + String.length b)%nat.
Proof. induction a as [|x a IH]; simpl; [done|by rewrite IH]. Qed.

(** Reading undoes the replacement of one byte. *)
Lemma readBasic_escapeByte (c : ascii) (t : string) :
  readBasic (escapeByte c +:+ t)
  = match readBasic t with
    | Some (v, rest) => Some (String c v, rest)
    | None => None
    end.
Proof.
  destruct c as [[] [] [] [] [] [] [] []]; reflexivity.
Qed.

Lemma readBasic_escape (s rest : string) :
  readBasic (escape s +:+ String quoteChar rest) = Some (s, rest).
Proof.
  induction s as [|c s IH]; [reflexivity|].
  cbn [escape]. rewrite append_assoc_l, readBasic_escapeByte, IH. done.
Qed.

Lemma readString_writeQuoted (s : string) :
  validUTF8 s = true → readString (writeQuoted s) = Some s.
Proof.
  intros Hs. unfold readString, writeQuoted.
  change (Ascii.eqb quoteChar quoteChar) with true. cbv iota.
  rewrite readBasic_escape, Hs. done.
Qed.

Lemma readBool_writeBool (b : bool) : readBool (writeBool b) = Some b.
Proof. by destruct b. Qed.

Lemma digitOf_char (k : N) :
  (k < 10)%N → digitOf (pretty_N_char k) = Some k.
Proof.
  intros Hk.
  assert (k = 0 ∨ k = 1 ∨ k = 2 ∨ k = 3 ∨ k = 4 ∨ k = 5 ∨ k = 6 ∨ k = 7
          ∨ k = 8 ∨ k = 9)%N as Hc by lia.
  repeat (destruct Hc as [->|Hc]; [reflexivity|]). by subst.
Qed.

(** The digits of a positive number are read back on top of what was
    read before them. *)
Lemma readDigits_pretty (x : N) :
  (0 < x)%N →
  ∃ p : N, ∀ acc s,
    readDigits acc (pretty_N_go x s) = readDigits (acc * p + x) s.
Proof.
  induction (N.lt_wf_0 x) as [x _ IH]; intros Hx.
  pose proof (N.div_mod x 10 ltac:(done)) as Heq.
  pose proof (N.mod_lt x 10 ltac:(done)) as Hm.
  pose proof (N.div_lt x 10 Hx ltac:(done)) as Hlt.
  remember (x `div` 10)%N as q eqn:Eq.
  remember (x `mod` 10)%N as r eqn:Er.
  assert (Hd : (q = 0 ∨ 0 < q)%N) by lia.
  destruct Hd as [H0|Hpos].
  - exists 10%N. intros acc s.
    rewrite pretty_N_go_step, <-Eq, <-Er, H0, pretty_N_go_0 by done.
    cbn [readDigits]. rewrite digitOf_char by done.
    f_equal. lia.
  - destruct (IH q) as [p Hp]; [done|done|].
    exists (p * 10)%N. intros acc s.
    rewrite pretty_N_go_step, <-Eq, <-Er, Hp by done.
    cbn [readDigits]. rewrite digitOf_char by done.
    f_equal. lia.
Qed.

Lemma pretty_N_go_head (x : N) (s : string) :
  (0 < x)%N →
  ∃ k t, (k < 10)%N ∧ pretty_N_go x s = String (pretty_N_char k) t.
Proof.
  revert s. induction (N.lt_wf_0 x) as [x _ IH]; intros s Hx.
  pose proof (N.mod_lt x 10 ltac:(done)) as Hm.
  pose proof (N.div_lt x 10 Hx ltac:(done)) as Hlt.
  rewrite pretty_N_go_step by done.
  remember (x `div` 10)%N as q eqn:Eq.
  assert (Hd : (q = 0 ∨ 0 < q)%N) by lia.
  destruct Hd as [H0|Hpos].
  - rewrite H0, pretty_N_go_0. eauto.
  - apply IH; done.
Qed.

Lemma readInt_digits (x : N) :
  (0 < x)%N → readInt (pretty_N_go x "") = Some (Z.of_N x).
Proof.
  intros Hx.
  destruct (pretty_N_go_head x "" Hx) as (k & t & Hk & Heq).
  destruct (readDigits_pretty x Hx) as [p Hp].
  specialize (Hp 0%N ""). rewrite Heq in Hp.
  unfold readInt. rewrite Heq.
  assert (Hne : Ascii.eqb (pretty_N_char k) "-" = false).
  { assert (k = 0 ∨ k = 1 ∨ k = 2 ∨ k = 3 ∨ k = 4 ∨ k = 5 ∨ k = 6 ∨ k = 7
            ∨ k = 8 ∨ k = 9)%N as Hc by lia.
    repeat (destruct Hc as [->|Hc]; [reflexivity|]). by subst. }
  rewrite Hne, Hp. cbn [readDigits mbind option_bind]. f_equal.
Qed.

Lemma readInt_writeInt (z : Z) : readInt (writeInt z) = Some z.
Proof.
  unfold writeInt, pretty, pretty_Z.
  destruct z as [|p|p]; [reflexivity| |].
  - unfold pretty, pretty_positive, pretty, pretty_N.
    rewrite decide_False by done. by rewrite readInt_digits.
  - unfold pretty, pretty_positive, pretty, pretty_N.
    rewrite decide_False by done.
    destruct (pretty_N_go_head (N.pos p) "") as (k & t & Hk & Heq); [done|].
    destruct (readDigits_pretty (N.pos p)) as [q Hq]; [done|].
    specialize (Hq 0%N ""). rewrite Heq in Hq.
    rewrite Heq.
    change (readInt (String "-" (String (pretty_N_char k) t)) = Some (Z.neg p)).
    cbn [readInt Ascii.eqb Bool.eqb]. rewrite Hq. cbn [readDigits mbind option_bind]. f_equal.
Qed.


(** *** Arrays of strings *)

Lemma length_writeElements (l : list string) :
  (length l ≤ String.length (writeElements l))%nat.
Proof.
  induction l as [|x [|y l] IH]; [done|simpl; lia|].
  change (writeElements (x :: y :: l))
    with (writeQuoted x +:+ ", " +:+ writeElements (y :: l)).
  rewrite !length_append. unfold writeQuoted at 1.
  cbn [String.length length] in *. lia.
Qed.

Lemma readElements_writeElements (l : list string) (fuel : nat) :
  l ≠ [] → (length l ≤ fuel)%nat → forallb validUTF8 l = true →
  readElements fuel (writeElements l +:+ "]") = Some l.
Proof.
  revert fuel. induction l as [|x [|y l] IH]; intros fuel Hne Hlen Hv; [done| |].
  - destruct fuel as [|fuel]; [simpl in Hlen; lia|].
    cbn [forallb] in Hv. apply andb_prop in Hv as [Hx _].
    change (writeElements [x] +:+ "]")
      with (String quoteChar ((escape x +:+ String quoteChar "") +:+ "]")).
    rewrite append_assoc_l.
    change (String quoteChar "" +:+ "]") with (String quoteChar "]").
    cbn [readElements]. change (Ascii.eqb quoteChar quoteChar) with true.
    cbv iota. rewrite readBasic_escape, Hx. reflexivity.
  - destruct fuel as [|fuel]; [simpl in Hlen; lia|].
    cbn [forallb] in Hv. apply andb_prop in Hv as [Hx Hv].
    change (writeElements (x :: y :: l) +:+ "]")
      with (String quoteChar
              ((((escape x +:+ String quoteChar "") +:+ ", "
                 +:+ writeElements (y :: l))) +:+ "]")).
    rewrite !append_assoc_l.
    change (String quoteChar "" +:+ ", " +:+ writeElements (y :: l) +:+ "]")
      with (String quoteChar
              (String "," (String " " (writeElements (y :: l) +:+ "]")))).
    cbn [readElements]. change (Ascii.eqb quoteChar quoteChar) with true.
    cbv iota. rewrite readBasic_escape, Hx.
    change (String.eqb (String "," _) "]") with false. cbv iota.
    rewrite IH; [done|done|simpl in *; lia|done].
Qed.

Lemma readStrings_writeStrings (l : list string) :
  forallb validUTF8 l = true → readStrings (writeStrings l) = Some l.
Proof.
  intros Hv. destruct l as [|x l]; [reflexivity|].
  unfold readStrings, writeStrings.
  assert (Hhd : ∃ t, writeElements (x :: l) +:+ "]" = String quoteChar t).
  { destruct l; eexists; reflexivity. }
  destruct Hhd as [t Ht].
  change ("[" +:+ writeElements (x :: l) +:+ "]")
    with (String "[" (writeElements (x :: l) +:+ "]")).
  rewrite Ht. change (String.eqb (String "[" (String quoteChar t)) "[]") with false.
  cbv iota. rewrite <-Ht.
  apply readElements_writeElements; [done| |done].
  rewrite length_append. pose proof (length_writeElements (x :: l)). lia.
Qed.

(** *** Lines *)

Lemma oneLine_append (a b : string) :
  oneLine (a +:+ b) = oneLine a && oneLine b.
Proof.
  induction a as [|c a IH]; [done|].
  change (String c a +:+ b) with (String c (a +:+ b)).
  cbn [oneLine]. rewrite IH. by rewrite andb_assoc.
Qed.

Lemma oneLine_escapeByte (c : ascii) : oneLine (escapeByte c) = true.
Proof. destruct c as [[] [] [] [] [] [] [] []]; reflexivity. Qed.

Lemma oneLine_escape (s : string) : oneLine (escape s) = true.
Proof.
  induction s as [|c s IH]; [done|].
  cbn [escape]. by rewrite oneLine_append, oneLine_escapeByte, IH.
Qed.

Lemma oneLine_writeQuoted (s : string) : oneLine (writeQuoted s) = true.
Proof.
  unfold writeQuoted. cbn [oneLine].
  rewrite oneLine_append, oneLine_escape. reflexivity.
Qed.

Lemma oneLine_writeBool (b : bool) : oneLine (writeBool b) = true.
Proof. by destruct b. Qed.

Lemma oneLine_digits (s : string) (acc n : N) :
  readDigits acc s = Some n → oneLine s = true.
Proof.
  revert acc. induction s as [|c s IH]; intros acc; [done|].
  cbn [readDigits oneLine].
  destruct (digitOf c) as [d|] eqn:Hd; [|done].
  intros Hr. rewrite (IH _ Hr), andb_true_r.
  destruct (Ascii.eqb_spec c newline) as [->|]; [discriminate Hd|done].
Qed.

Lemma oneLine_writeInt (z : Z) : oneLine (writeInt z) = true.
Proof.
  pose proof (readInt_writeInt z) as Hr. revert Hr.
  generalize (writeInt z). intros s. unfold readInt.
  destruct s as [|c s]; [done|].
  destruct (Ascii.eqb_spec c "-") as [->|Hc].
  - destruct s as [|c' s]; [done|].
    destruct (readDigits 0 (String c' s)) as [n|] eqn:Hn; [|done].
    intros _. exact (oneLine_digits _ _ _ Hn).
  - destruct (readDigits 0 (String c s)) as [n|] eqn:Hn; [|done].
    intros _. by rewrite (oneLine_digits _ _ _ Hn).
Qed.

Lemma oneLine_writeElements (l : list string) :
  oneLine (writeElements l) = true.
Proof.
  induction l as [|x [|y l] IH]; [done|apply oneLine_writeQuoted|].
  change (writeElements (x :: y :: l))
    with (writeQuoted x +:+ ", " +:+ writeElements (y :: l)).
  by rewrite !oneLine_append, oneLine_writeQuoted, IH.
Qed.

Lemma oneLine_writeStrings (l : list string) :
  oneLine (writeStrings l) = true.
Proof.
  unfold writeStrings.
  by rewrite !oneLine_append, oneLine_writeElements.
Qed.

Lemma oneLine_keyValue (indent key value : string) :
  oneLine indent = true → oneLine key = true → oneLine value = true →
  oneLine (keyValue indent key value) = true.
Proof.
  intros Hi Hk Hv. unfold keyValue.
  by rewrite !oneLine_append, Hi, Hk, Hv.
Qed.

Lemma lines_append (l r : string) :
  oneLine l = true → lines (l +:+ String newline r) = l :: lines r.
Proof.
  induction l as [|c l IH]; intros Hl.
  - reflexivity.
  - cbn [oneLine] in Hl. apply andb_prop in Hl as [Hc Hl].
    change (String c l +:+ String newline r)
      with (String c (l +:+ String newline r)).
    cbn [lines]. rewrite (negb_true_iff _) in Hc. rewrite Hc, IH by done.
    done.
Qed.

Lemma lines_unlines (ls : list string) :
  forallb oneLine ls = true → lines (unlines ls) = ls ++ [""].
Proof.
  induction ls as [|l ls IH]; intros Hls; [done|].
  cbn [forallb] in Hls. apply andb_prop in Hls as [Hl Hls].
  cbn [unlines]. rewrite lines_append, IH by done. done.
Qed.

Lemma oneLine_serverTable (s : ServerConfig) :
  forallb oneLine (serverTable s) = true.
Proof.
  unfold serverTable. cbn [forallb].
  rewrite !oneLine_keyValue;
    auto using oneLine_writeQuoted, oneLine_writeInt, oneLine_writeBool.
Qed.

Lemma oneLine_proxyTable (p : ProxyRule) :
  forallb oneLine (proxyTable p) = true.
Proof.
  unfold proxyTable. rewrite forallb_app. cbn [forallb].
  rewrite !oneLine_keyValue;
    auto using oneLine_writeQuoted, oneLine_writeInt, oneLine_writeBool.
  destruct (Nat.eqb _ _); [done|]. cbn [forallb].
  rewrite oneLine_keyValue; auto using oneLine_writeStrings.
Qed.

Lemma oneLine_document (c : UserConfig) :
  forallb oneLine (document c) = true.
Proof.
  unfold document. rewrite !forallb_app. cbn [forallb].
  rewrite !oneLine_keyValue, oneLine_serverTable;
    auto using oneLine_writeQuoted.
  assert (Hps : forallb oneLine (concat (proxyTable <$> Proxies c)) = true).
  { induction (Proxies c) as [|p ps IH]; [done|].
    cbn [fmap list_fmap concat]. by rewrite forallb_app, oneLine_proxyTable, IH. }
  rewrite Hps. by destruct (Nat.eqb _ _).
Qed.

(** *** The reader, line by line *)

Lemma trimLeft_writeInt (z : Z) : trimLeft (writeInt z) = writeInt z.
Proof.
  pose proof (readInt_writeInt z) as Hr. revert Hr.
  generalize (writeInt z). intros s. unfold readInt.
  destruct s as [|c s]; [done|].
  destruct (Ascii.eqb_spec c "-") as [->|Hc]; [done|].
  destruct (Ascii.eqb_spec c " ") as [->|Hs]; [done|].
  destruct (Ascii.eqb_spec c tab) as [->|Ht]; [done|].
  intros _. cbn [trimLeft].
  rewrite (proj2 (Ascii.eqb_neq _ _) Hs), (proj2 (Ascii.eqb_neq _ _) Ht).
  done.
Qed.

Lemma trimLeft_writeBool (b : bool) : trimLeft (writeBool b) = writeBool b.
Proof. by destruct b. Qed.

(** A line of the writer hands its key and its value to [assign]. *)
Ltac read_line :=
  match goal with
  | |- context [step ?d (keyValue ?i ?k ?v)] =>
      change (step d (keyValue i k v)) with (assign d k (trimLeft v))
  end.

Ltac read_value :=
  first
    [ rewrite trimLeft_writeInt, readInt_writeInt
    | rewrite trimLeft_writeBool, readBool_writeBool
    | change (trimLeft (writeQuoted ?s)) with (writeQuoted s);
      rewrite readString_writeQuoted by done
    | change (trimLeft (writeStrings ?l)) with (writeStrings l);
      rewrite readStrings_writeStrings by done ].

Ltac read_cbn :=
  cbn [assign setServer setRule pTable pServer pVersion pUpdated pRules
       String.eqb Ascii.eqb Bool.eqb mbind option_bind
       Addr Port Token Remark AutoStart
       ID Enabled ProxyType Name LocalIP LocalPort RemotePort Domains].

Lemma readLines_app (d : Partial) (l1 l2 : list string) :
  readLines d (l1 ++ l2)
  = match readLines d l1 with
    | Some d' => readLines d' l2
    | None => None
    end.
Proof.
  revert d. induction l1 as [|l l1 IH]; intros d; [done|].
  cbn [app readLines]. destruct (step d l); [apply IH|done].
Qed.

Lemma readLines_serverTable (d : Partial) (s : ServerConfig) :
  validServer s = true →
  readLines d (serverTable s)
  = Some (mkPartial (pVersion d) (pUpdated d) s (closeTable d) InServer).
Proof.
  unfold validServer. intros Hv.
  apply andb_prop in Hv as [Hv Hremark]. apply andb_prop in Hv as [Haddr Htoken].
  destruct s as [addr port token remark auto]. cbn [Addr Token Remark] in *.
  unfold serverTable. cbn [readLines Addr Port Token Remark AutoStart].
  change (step d "") with (Some d). cbv iota.
  change (step d "[server]")
    with (Some (mkPartial (pVersion d) (pUpdated d) (pServer d)
                  (closeTable d) InServer)).
  cbv iota.
  do 5 (read_line; read_cbn; read_value; read_cbn).
  reflexivity.
Qed.

Lemma readLines_proxyTable (d : Partial) (p : ProxyRule) :
  validRule p = true →
  readLines d (proxyTable p)
  = Some (mkPartial (pVersion d) (pUpdated d) (pServer d) (closeTable d)
            (InProxy p)).
Proof.
  unfold validRule. intros Hv.
  apply andb_prop in Hv as [Hv Hdom]. apply andb_prop in Hv as [Hv Hip].
  apply andb_prop in Hv as [Hv Hname]. apply andb_prop in Hv as [Hid Hty].
  destruct p as [id en ty name ip lp rp doms].
  cbn [ID ProxyType Name LocalIP Domains] in *.
  unfold proxyTable. rewrite readLines_app.
  cbn [readLines ID Enabled ProxyType Name LocalIP LocalPort RemotePort Domains].
  change (step d "") with (Some d). cbv iota.
  change (step d "[[proxies]]")
    with (Some (mkPartial (pVersion d) (pUpdated d) (pServer d)
                  (closeTable d)
                  (InProxy (mkProxyRule "" false "" "" "" 0 0 [])))).
  cbv iota.
  do 7 (read_line; read_cbn; read_value; read_cbn).
  destruct doms as [|x doms]; [reflexivity|].
  cbn [length Nat.eqb readLines].
  read_line; read_cbn; read_value; read_cbn.
  reflexivity.
Qed.

Lemma readLines_proxies (d : Partial) (ps : list ProxyRule) :
  forallb validRule ps = true →
  ∃ d', readLines d (concat (proxyTable <$> ps)) = Some d'
    ∧ pVersion d' = pVersion d ∧ pUpdated d' = pUpdated d
    ∧ pServer d' = pServer d ∧ closeTable d' = closeTable d ++ ps.
Proof.
  revert d. induction ps as [|p ps IH]; intros d Hv.
  - exists d. by rewrite app_nil_r.
  - cbn [forallb] in Hv. apply andb_prop in Hv as [Hp Hps].
    cbn [fmap list_fmap concat].
    rewrite readLines_app, readLines_proxyTable by done.
    destruct (IH (mkPartial (pVersion d) (pUpdated d) (pServer d)
                    (closeTable d) (InProxy p)) Hps)
      as (d' & Hd' & H1 & H2 & H3 & H4).
    exists d'. split; [exact Hd'|]. split; [done|]. split; [done|].
    split; [done|]. rewrite H4. unfold closeTable at 1.
    cbn [pTable pRules]. by rewrite <-app_assoc.
Qed.

(** The lines [Marshal] writes are read back as the configuration they
    were written from. *)
Lemma readLines_document (c : UserConfig) :
  validUTF8 (ConfigVersion c) = true →
  validUTF8 (LastUpdated c) = true →
  validText c = true →
  ∃ d, readLines start (document c ++ [""]) = Some d
    ∧ mkUserConfig (pVersion d) (pUpdated d) (pServer d) (closeTable d) = c.
Proof.
  intros Hcv Hlu Hv. unfold validText in Hv.
  apply andb_prop in Hv as [Hs Hps].
  destruct c as [cv lu s ps].
  cbn [ConfigVersion LastUpdated Server Proxies] in *.
  unfold document.
  cbn [app readLines ConfigVersion LastUpdated Server Proxies].
  unfold start at 1.
  do 2 (read_line; read_cbn; read_value; read_cbn).
  set (d0 := mkPartial cv lu _ _ _).
  assert (Hd1 : readLines d0
                  ((if Nat.eqb (length ps) 0 then ["proxies = []"] else []))
                = Some d0).
  { destruct ps; reflexivity. }
  rewrite readLines_app, (readLines_app d0), Hd1. cbv iota.
  rewrite (readLines_app d0), (readLines_serverTable d0) by done. cbv iota.
  destruct (readLines_proxies
              (mkPartial (pVersion d0) (pUpdated d0) s (closeTable d0) InServer)
              ps Hps) as (d' & Hd' & H1 & H2 & H3 & H4).
  rewrite Hd'. cbv iota. exists d'. split; [reflexivity|].
  rewrite H1, H2, H3, H4. reflexivity.
Qed.

(** [Unmarshal] inverts [Marshal] on well-formed text. *)
Lemma Unmarshal_Marshal (c : UserConfig) (data : list byte) :
  validUTF8 (ConfigVersion c) = true →
  validUTF8 (LastUpdated c) = true →
  validText c = true →
  Marshal c = Ok data → Unmarshal data = Ok c.
Proof.
  intros Hcv Hlu Hv Hm.
  assert (Hd : data = list_byte_of_string (unlines (document c)))
    by (unfold Marshal in Hm; congruence).
  subst data. unfold Unmarshal.
  rewrite string_of_list_byte_of_string.
  rewrite lines_unlines by apply oneLine_document.
  destruct (readLines_document c Hcv Hlu Hv) as (d & -> & Hc).
  by rewrite Hc.
Qed.

(** *** The timestamp is plain text *)

Lemma validUTF8_digit (k : Z) (rest : string) :
  0 ≤ k ≤ 9 →
  validUTF8 (String (Time.digit k) rest) = validUTF8 rest.
Proof.
  intros Hk.
  assert (k = 0 ∨ k = 1 ∨ k = 2 ∨ k = 3 ∨ k = 4 ∨ k = 5 ∨ k = 6 ∨ k = 7
          ∨ k = 8 ∨ k = 9) as Hc by lia.
  repeat (destruct Hc as [->|Hc]; [reflexivity|]). by subst.
Qed.

Lemma validUTF8_pad2 (n : Z) (rest : string) :
  0 ≤ n < 100 → validUTF8 (Time.pad2 n rest) = validUTF8 rest.
Proof.
  intros Hn. unfold Time.pad2.
  rewrite !validUTF8_digit by (Z.div_mod_to_equations; lia). done.
Qed.

Lemma validUTF8_pad4 (n : Z) (rest : string) :
  0 ≤ n < 10000 → validUTF8 (Time.pad4 n rest) = validUTF8 rest.
Proof.
  intros Hn. unfold Time.pad4.
  rewrite !validUTF8_pad2 by (Z.div_mod_to_equations; lia). done.
Qed.

Lemma validUTF8_zoneSuffix (z : Z) :
  -6000 < z < 6000 → validUTF8 (Time.zoneSuffix z) = true.
Proof.
  intros Hz. unfold Time.zoneSuffix.
  destruct (Z.eqb_spec z 0) as [->|Hz0]; [done|].
  assert (0 ≤ Z.abs z / 60 < 100 ∧ 0 ≤ Z.abs z mod 60 < 100) as (H1 & H2).
  { assert (0 ≤ Z.abs z < 6000) as Ha by lia. revert Ha.
    generalize (Z.abs z). intros a Ha. Z.div_mod_to_equations. lia. }
  assert (Htail : validUTF8 (Time.pad2 (Z.abs z / 60)
                    (String ":" (Time.pad2 (Z.abs z mod 60) ""))) = true).
  { rewrite validUTF8_pad2 by done.
    change (validUTF8 (String ":" ?r)) with (validUTF8 r).
    by rewrite validUTF8_pad2. }
  destruct (Z.ltb_spec z 0).
  - change (validUTF8 (String "-" ?r)) with (validUTF8 r). exact Htail.
  - change (validUTF8 (String "+" ?r)) with (validUTF8 r). exact Htail.
Qed.

(** A timestamp of [SaveUserConfig] consists of digits and
    punctuation. *)
Lemma validUTF8_Format (zone t : Z) :
  -6000 < zone < 6000 →
  0 ≤ Time.Unix t + zone * 60 < 253402300800 →
  validUTF8 (Time.Format_RFC3339 zone t) = true.
Proof.
  intros Hz Ht. unfold Time.Format_RFC3339. cbv zeta.
  set (loc := Time.Unix t + zone * 60) in *.
  assert (Hdays : 0 ≤ loc / 86400 < 2932897).
  { Z.div_mod_to_equations. lia. }
  destruct (TimeFacts.civil_roundtrip _ Hdays)
    as (y & m & d & -> & _ & Hy & Hm & Hd).
  set (rem := loc mod 86400).
  assert (Hrem : 0 ≤ rem < 86400) by apply Z.mod_pos_bound, eq_refl.
  assert (0 ≤ rem / 3600 < 100 ∧ 0 ≤ rem mod 3600 / 60 < 100
          ∧ 0 ≤ rem mod 60 < 100) as (H1 & H2 & H3).
  { revert Hrem. generalize rem. intros e He. Z.div_mod_to_equations. lia. }
  rewrite validUTF8_pad4 by lia.
  change (validUTF8 (String "-" ?r)) with (validUTF8 r).
  rewrite validUTF8_pad2 by lia.
  change (validUTF8 (String "-" ?r)) with (validUTF8 r).
  rewrite validUTF8_pad2 by lia.
  change (validUTF8 (String "T" ?r)) with (validUTF8 r).
  rewrite validUTF8_pad2 by lia.
  change (validUTF8 (String ":" ?r)) with (validUTF8 r).
  rewrite validUTF8_pad2 by lia.
  change (validUTF8 (String ":" ?r)) with (validUTF8 r).
  rewrite validUTF8_pad2 by lia.
  by apply validUTF8_zoneSuffix.
Qed.

(** What [SaveUserConfig] writes with this codec, [loadConfigFromDisk]
    decodes. *)
Lemma Unmarshal_stamped (newCfg : UserConfig) (zone t : Z) :
  validText newCfg = true →
  -6000 < zone < 6000 →
  0 ≤ Time.Unix t + zone * 60 < 253402300800 →
  ∃ data,
    Marshal (Service.stamped newCfg zone t) = Ok data
    ∧ Unmarshal data = Ok (Service.stamped newCfg zone t).
Proof.
  intros Hv Hz Ht. eexists. split; [reflexivity|].
  apply Unmarshal_Marshal; [done| |done|done].
  by apply validUTF8_Format.
Qed.

End TomlFacts.

Section ServiceFacts.
Context `{TomlCodec}.
Import Service.

(** *** Log aggregator *)

Lemma readLog_appends (lines : list string) (st : State) :
  logMu (svc st) = false →
  readLog lines st
  = Ret tt {| svc := set_logBuffer (logBuffer (svc st) ++ lines) (svc st);
              os := os st |}.
Proof.
  revert st. induction lines as [|line rest IH]; intros st Hm.
  - destruct st as [[m c r f lm buf] w]. simpl in *. subst lm.
    unfold mret, M_ret. by rewrite app_nil_r.
  - destruct st as [[m c r f lm buf] w]. simpl in Hm. subst lm.
    simpl. run. rewrite IH by done. run_cbn. by rewrite <- app_assoc.
Qed.

Lemma flushLogs_run (st : State) :
  logMu (svc st) = false →
  flushLogs st
  = Ret tt {| svc := set_logBuffer [] (svc st);
              os := match logBuffer (svc st) with
                    | [] => os st
                    | _ :: _ =>
                        set_trace (trace (os st) ++
                          [EvEmit "frp-logs" (PLogs (logBuffer (svc st)))])
                          (os st)
                    end |}.
Proof.
  destruct st as [[m c r f lm buf] w]. intros Hm. run. subst lm.
  destruct buf; by run_cbn.
Qed.

(** C8: a flush tick on an empty buffer publishes nothing; on a
    non-empty buffer it publishes exactly one "frp-logs" event, holding
    the whole buffer in order, and leaves the buffer empty.  The buffer
    at a tick is the sequence of lines appended since the previous flush:
    after a flush, the lines [lines] read from the pipes and the next
    tick add to the trace nothing if [lines] is empty and the single
    batch [lines] otherwise. *)
Theorem flush_tick_batch (st : State) (lines : list string) :
  logMu (svc st) = false →
  ∃ st0 st1 st2,
    flushLogs st = Ret tt st0
    ∧ logBuffer (svc st0) = []
    ∧ trace (os st0)
      = trace (os st) ++
        match logBuffer (svc st) with
        | [] => []
        | _ :: _ => [EvEmit "frp-logs" (PLogs (logBuffer (svc st)))]
        end
    ∧ readLog lines st0 = Ret tt st1
    ∧ flushLogs st1 = Ret tt st2
    ∧ logBuffer (svc st2) = []
    ∧ trace (os st2)
      = trace (os st0) ++
        match lines with
        | [] => []
        | _ :: _ => [EvEmit "frp-logs" (PLogs lines)]
        end.
Proof.
  intros Hm. eexists _, _, _.
  split; [by apply flushLogs_run|].
  split; [done|].
  split; [by destruct st as [[m c r f lm [|l buf]] w]; simpl;
            rewrite ?app_nil_r|].
  split; [apply readLog_appends; by destruct st as [[] ?]|].
  split; [apply flushLogs_run; by destruct st as [[] ?]|].
  split; [done|].
  destruct st as [[m c r f lm buf] w]; simpl.
  destruct lines as [|l lines]; simpl.
  - by destruct buf; simpl; rewrite app_nil_r.
  - by destruct buf.
Qed.

(** *** Disconnect *)

(** X27: on a running supervisor with a tracked process, [Disconnect]
    issues one kill.  If the kill fails with error [e], the status
    reports failure ([Success] false, [IsRunning] true, the message
    carrying [e]) and the service, its running flag included, is
    unchanged; [Disconnect] clears the flag only when the kill it issued
    succeeded. *)
Theorem Disconnect_kill_failure (st : State) (c : Cmd) (pid : Z) :
  isRunning (svc st) = true →
  frpCmd (svc st) = Some c →
  Process c = Some pid →
  ∃ r st', Disconnect st = Ret r st'
    ∧ (∀ e, outcomeAt 0 (outcomes (os st)) = Some e →
         r = {| Success := false; IsRunning := true; Config := None;
                Message := "停止进程失败: " +:+ e |}
         ∧ svc st' = svc st
         ∧ isRunning (svc st') = true
         ∧ trace (os st') = trace (os st) ++ [EvKill pid false])
    ∧ (isRunning (svc st') = false →
         outcomeAt 0 (outcomes (os st)) = None
         ∧ Success r = true
         ∧ trace (os st')
           = trace (os st) ++
             [EvKill pid true;
              EvEmit "frp-logs" (PLogs ["用户手动断开连接"])]).
Proof.
  destruct st as [[m cf r f lm buf] w], c as [pa ar pr].
  simpl. intros -> -> ->. unfold outcomeAt.
  run. destruct (outcomes w) as [|[e|] rest] eqn:Ho; run_cbn.
  - eexists _, _. split; [done|]. split; [done|]. intros _.
    by rewrite <- app_assoc.
  - eexists _, _. split; [done|]. split.
    + intros e' [= <-]. done.
    + done.
  - eexists _, _. split; [done|]. split; [done|]. intros _.
    by rewrite <- app_assoc.
Qed.

(** C6: [stopFrp], which is what the shutdown hook runs, does not
    look at the result of the kill command.  On a running supervisor
    with a tracked process and a kill that fails, [stopFrp] clears the
    running flag although nothing confirms that the process is gone, the
    handle staying tracked; at the same state [Disconnect] checks the
    result of its kill, reports the failure and keeps the flag. *)
Theorem stopFrp_clears_flag_unconfirmed
    (st : State) (c : Cmd) (pid : Z) (e : string) :
  mu (svc st) = false →
  isRunning (svc st) = true →
  frpCmd (svc st) = Some c →
  Process c = Some pid →
  outcomeAt 0 (outcomes (os st)) = Some e →
  (∃ st', stopFrp st = Ret tt st'
     ∧ isRunning (svc st') = false
     ∧ frpCmd (svc st') = Some c
     ∧ trace (os st')
       = trace (os st) ++
         [if String.eqb (GOOS (os st)) "windows"
          then EvRun "taskkill" ["/F"; "/T"; "/PID"; pretty pid] false
          else EvRun "kill" ["-9"; pretty pid] false])
  ∧ (∃ r st', Disconnect st = Ret r st'
       ∧ Success r = false
       ∧ Message r = "停止进程失败: " +:+ e
       ∧ isRunning (svc st') = true
       ∧ trace (os st') = trace (os st) ++ [EvKill pid false]).
Proof.
  destruct st as [[m cf r f lm buf] w], c as [pa ar pr]. unfold outcomeAt.
  simpl. intros -> -> -> -> Ho. split.
  - run. destruct (String.eqb (GOOS w) "windows"); run_cbn;
      destruct (outcomes w) as [|[e0|] rest] eqn:Hw; simplify_eq/=; run_cbn.
    all: eexists; split; [done|]; simpl; split_and!; done.
  - run. destruct (outcomes w) as [|[e0|] rest] eqn:Hw; simplify_eq/=;
      run_cbn.
    eexists _, _. split; [done|]. simpl. split_and!; done.
Qed.

(** *** SaveUserConfig *)

(** C10: when the user configuration is serialised and written (first
    system call) but the generation of the runtime configuration fails,
    in [toml.Marshal] or in the write of [frpc.toml] (second system
    call), [SaveUserConfig] returns an error although the stamped
    configuration is the in-memory configuration and is the content of
    [config.toml]. *)
Theorem SaveUserConfig_not_atomic
    (newCfg : UserConfig) (st : State) (data : list byte) :
  let cfg := stamped newCfg (zone (os st)) (now (os st)) in
  mu (svc st) = false →
  toml_Marshal_UserConfig cfg = Ok data →
  outcomeAt 0 (outcomes (os st)) = None →
  ((∃ e, toml_Marshal_map (Generator.buildRunCfg cfg) = Err e)
   ∨ (∃ out e, toml_Marshal_map (Generator.buildRunCfg cfg) = Ok out
               ∧ outcomeAt 1 (outcomes (os st)) = Some e)) →
  ∃ e st', SaveUserConfig newCfg st = Ret (Some e) st'
    ∧ config (svc st') = Some cfg
    ∧ files (os st') !! configPathOf (os st) = Some data
    ∧ mu (svc st') = false.
Proof.
  intros cfg Hmu Hdata Hw Hgen. subst cfg.
  destruct st as [[m cf r f lm buf] w].
  unfold configPathOf, outcomeAt in *. simpl in Hmu, Hdata, Hw, Hgen. subst m.
  run. rewrite Hdata. run_cbn.
  destruct Hgen as [[e He]|(out & e & Hout & Hf)].
  - destruct (outcomes w) as [|[e0|] rest] eqn:Ho; simplify_eq/=; run_cbn;
      rewrite He; run_cbn;
      eexists _, _; (split; [done|]); simpl; by rewrite lookup_insert_eq.
  - pose proof (tomlPath_ne_configPath w) as Hne.
    unfold tomlPathOf, configPathOf in Hne.
    destruct (outcomes w) as [|[e0|] [|[e1|] rest]] eqn:Ho;
      simplify_eq/=; run_cbn; rewrite Hout; run_cbn.
    destruct (torn w) as [|[k|] tn] eqn:Ht; run_cbn.
    all: eexists _, _; (split; [done|]); simpl.
    all: by rewrite ?lookup_insert_ne, lookup_insert_eq by done.
Qed.

(** *** Start *)

(** [generateFrpcToml] leaves the service alone and adds at most one
    write of [frpc.toml] to the trace; it returns nil exactly when that
    write succeeded. *)
Lemma generateFrpcToml_spec (st : State) :
  ∃ r st' new,
    generateFrpcToml st = Ret r st'
    ∧ svc st' = svc st
    ∧ sameEnv (os st) (os st')
    ∧ tickers (os st') = tickers (os st)
    ∧ nextPid (os st') = nextPid (os st)
    ∧ trace (os st') = trace (os st) ++ new
    ∧ ((r = None ∧ new = [EvWriteFile (tomlPathOf (os st)) true])
       ∨ (r ≠ None ∧ (new = [] ∨ new = [EvWriteFile (tomlPathOf (os st)) false]))).
Proof.
  destruct st as [[m cf r f lm buf] w]. unfold tomlPathOf, sameEnv.
  run. destruct cf as [cfg|]; run_cbn.
  2:{ eexists _, _, []. split; [done|]. simpl. rewrite app_nil_r.
      split_and!; try done. right. split; [done|]. by left. }
  destruct (toml_Marshal_map _) as [out|e]; run_cbn.
  2:{ eexists _, _, []. split; [done|]. simpl. rewrite app_nil_r.
      split_and!; try done. right. split; [done|]. by left. }
  destruct (outcomes w) as [|[e|] rest] eqn:Ho; run_cbn.
  - eexists _, _, _. split; [done|]. simpl. split_and!; try done.
    left. done.
  - destruct (torn w) as [|[k|] tn] eqn:Ht; run_cbn.
    all: eexists _, _, _; (split; [done|]); simpl; split_and!; try done.
    all: right; split; [done|]; by right.
  - eexists _, _, _. split; [done|]. simpl. split_and!; try done.
    left. done.
Qed.

Lemma prepareFrpEnv_spec (st : State) :
  ∃ r st' new,
    prepareFrpEnv st = Ret r st'
    ∧ svc st' = svc st
    ∧ sameEnv (os st) (os st')
    ∧ tickers (os st') = tickers (os st)
    ∧ nextPid (os st') = nextPid (os st)
    ∧ trace (os st') = trace (os st) ++ new
    ∧ forallb Trace.isWrite new = true
    ∧ (∀ fp tp, r = Ok (fp, tp) →
         fp = frpcPathOf (os st) ∧ tp = tomlPathOf (os st)).
Proof.
  destruct st as [[m cf r f lm buf] [fs bin o tr nw zn np tk goos arch dir tn]].
  unfold prepareFrpEnv, getFrpBinDir, os_Stat_IsNotExist, frpcBin_ReadFile,
    os_WriteFile, record, nextOutcome, nextTorn, getOs, modOs, mbind, mret,
    M_bind,
    M_ret, frpcPathOf, tomlPathOf, sameEnv.
  run_cbn.
  assert (Hfin : ∀ (r0 : Result (string * string)) (s : State) new,
    svc s = {| mu := m; config := cf; isRunning := r; frpCmd := f;
               logMu := lm; logBuffer := buf |} →
    (userConfigDir (os s) = dir ∧ GOOS (os s) = goos ∧ GOARCH (os s) = arch
     ∧ frpcBin (os s) = bin ∧ now (os s) = nw ∧ zone (os s) = zn) →
    tickers (os s) = tk → nextPid (os s) = np →
    trace (os s) = tr ++ new →
    forallb Trace.isWrite new = true →
    (∀ fp tp, r0 = Ok (fp, tp) →
       fp = filepath_Join [filepath_Join [dir; "mole"; "bin"];
                           frpcTargetName goos]
       ∧ tp = filepath_Join [filepath_Join [dir; "mole"; "bin"];
                             "frpc.toml"]) →
    ∃ r1 st' new',
      Ret r0 s = Ret r1 st'
      ∧ svc st' = {| mu := m; config := cf; isRunning := r; frpCmd := f;
                     logMu := lm; logBuffer := buf |}
      ∧ (userConfigDir (os st') = dir ∧ GOOS (os st') = goos
         ∧ GOARCH (os st') = arch ∧ frpcBin (os st') = bin
         ∧ now (os st') = nw ∧ zone (os st') = zn)
      ∧ tickers (os st') = tk ∧ nextPid (os st') = np
      ∧ trace (os st') = tr ++ new'
      ∧ forallb Trace.isWrite new' = true
      ∧ (∀ fp tp, r1 = Ok (fp, tp) →
           fp = filepath_Join [filepath_Join [dir; "mole"; "bin"];
                               frpcTargetName goos]
           ∧ tp = filepath_Join [filepath_Join [dir; "mole"; "bin"];
                                 "frpc.toml"])).
  { intros. eexists _, _, _. split; [reflexivity|]. done. }
  assert (Hgen : ∀ s pre,
    svc s = {| mu := m; config := cf; isRunning := r; frpCmd := f;
               logMu := lm; logBuffer := buf |} →
    (userConfigDir (os s) = dir ∧ GOOS (os s) = goos ∧ GOARCH (os s) = arch
     ∧ frpcBin (os s) = bin ∧ now (os s) = nw ∧ zone (os s) = zn) →
    tickers (os s) = tk → nextPid (os s) = np →
    trace (os s) = tr ++ pre →
    forallb Trace.isWrite pre = true →
    ∃ r1 st' new',
      match
        match generateFrpcToml s with
        | Ret _ st'0 => Ret () st'0
        | Blocked st'0 => Blocked st'0
        end
      with
      | Ret _ st'1 =>
          Ret (Ok (filepath_Join [filepath_Join [dir; "mole"; "bin"];
                                  frpcTargetName goos],
                   filepath_Join [filepath_Join [dir; "mole"; "bin"];
                                  "frpc.toml"])) st'1
      | Blocked st'1 => Blocked st'1
      end = Ret r1 st'
      ∧ svc st' = {| mu := m; config := cf; isRunning := r; frpCmd := f;
                     logMu := lm; logBuffer := buf |}
      ∧ (userConfigDir (os st') = dir ∧ GOOS (os st') = goos
         ∧ GOARCH (os st') = arch ∧ frpcBin (os st') = bin
         ∧ now (os st') = nw ∧ zone (os st') = zn)
      ∧ tickers (os st') = tk ∧ nextPid (os st') = np
      ∧ trace (os st') = tr ++ new'
      ∧ forallb Trace.isWrite new' = true
      ∧ (∀ fp tp, r1 = Ok (fp, tp) →
           fp = filepath_Join [filepath_Join [dir; "mole"; "bin"];
                               frpcTargetName goos]
           ∧ tp = filepath_Join [filepath_Join [dir; "mole"; "bin"];
                                 "frpc.toml"])).
  { intros s pre Hs He Ht Hp Htr Hw.
    destruct (generateFrpcToml_spec s)
      as (r1 & st' & new & Hg & Hsvc & Henv & Htk & Hpid & Htr' & Hres).
    rewrite Hg. apply (Hfin _ _ (pre ++ new)).
    - congruence.
    - unfold sameEnv in Henv. destruct He as (?&?&?&?&?&?).
      destruct Henv as (?&?&?&?&?&?). split_and!; congruence.
    - congruence.
    - congruence.
    - rewrite Htr', Htr. by rewrite app_assoc.
    - rewrite forallb_app, Hw. simpl.
      destruct Hres as [[_ ->]|[_ [->| ->]]]; done.
    - by intros fp tp [= <- <-]. }
  destruct (fs !! filepath_Join [_; frpcTargetName goos])
    as [binary|] eqn:Hbin; run_cbn.
  - destruct (fs !! filepath_Join [_; "frpc.toml"]) as [toml|] eqn:Htoml;
      run_cbn.
    + apply (Hfin _ _ []); try done.
      * simpl. by rewrite app_nil_r.
      * by intros fp tp [= <- <-].
    + apply (Hgen _ []); try done. simpl. by rewrite app_nil_r.
  - destruct (bin !! _) as [data|] eqn:Hemb; run_cbn.
    2:{ apply (Hfin _ _ []); try done. simpl. by rewrite app_nil_r. }
    destruct o as [|[e|] rest]; run_cbn.
    + destruct (<[_:=_]> fs !! _) as [toml|] eqn:Htoml; run_cbn.
      * eapply Hfin; try done.
        by intros fp tp [= <- <-].
      * eapply Hgen; try done.
    + destruct tn as [|[k|] tn]; run_cbn; eapply Hfin; try done.
    + destruct (<[_:=_]> fs !! _) as [toml|] eqn:Htoml; run_cbn.
      * eapply Hfin; try done.
        by intros fp tp [= <- <-].
      * eapply Hgen; try done.
Qed.

Lemma spawnGuarded_writes tp b ws rest :
  forallb Trace.isWrite ws = true →
  ∃ b', Trace.spawnGuarded tp b (ws ++ rest) = Trace.spawnGuarded tp b' rest.
Proof.
  revert b. induction ws as [|e ws IH]; intros b Hw; simpl in *.
  - by exists b.
  - destruct e; try done. simpl in Hw. by apply IH.
Qed.

Lemma isStarted_writes ws rest :
  forallb Trace.isWrite ws = true →
  existsb Trace.isStarted (ws ++ rest) = existsb Trace.isStarted rest.
Proof.
  induction ws as [|e ws IH]; intros Hw; simpl in *; [done|].
  destruct e; try done. simpl. by apply IH.
Qed.

Lemma tomlPathOf_sameEnv w w' : sameEnv w w' → tomlPathOf w' = tomlPathOf w.
Proof. intros (Hd & _). unfold tomlPathOf. by rewrite Hd. Qed.

(** What a returned [startFrp] has done, read off the trace. *)
Lemma startFrp_returned (st st' : State) :
  mu (svc st) = false →
  isRunning (svc st) = false →
  startFrp st = Ret tt st' →
  ∃ new, trace (os st') = trace (os st) ++ new
    ∧ Trace.spawnGuarded (tomlPathOf (os st)) false new = true
    ∧ (existsb Trace.isStarted new = false →
         isRunning (svc st') = false
         ∧ (frpCmd (svc st') = frpCmd (svc st)
            ∨ ∃ c, frpCmd (svc st') = Some c ∧ Process c = None))
    ∧ (isRunning (svc st') = true →
         ∃ c pid, frpCmd (svc st') = Some c ∧ Process c = Some pid)
    ∧ mu (svc st') = false.
Proof.
  destruct st as [[m cf r f lm buf] w]. simpl. intros -> -> Hrun.
  unfold_start. run_cbn.
  match type of Hrun with context [prepareFrpEnv ?s] =>
    destruct (prepareFrpEnv_spec s)
      as (r1 & [s1 w1] & new1 & Hp & Hs1 & He1 & Htk1 & Hpid1 & Htr1 & Hw1 & Hpaths)
  end.
  rewrite Hp in Hrun. simpl in Hs1, He1, Htk1, Hpid1, Htr1. subst s1.
  destruct r1 as [[fp tp]|e]; run_cbn.
  2:{ simplify_eq. exists new1. simpl. split; [done|].
      destruct (spawnGuarded_writes (tomlPathOf w) false new1 [] Hw1) as [b' Hb].
      rewrite app_nil_r in Hb. rewrite Hb. simpl.
      split; [done|]. split; [by auto|]. done. }
  match type of Hrun with context [generateFrpcToml ?s] =>
    destruct (generateFrpcToml_spec s)
      as (r2 & [s2 w2] & new2 & Hg & Hs2 & He2 & Htk2 & Hpid2 & Htr2 & Hres)
  end.
  rewrite Hg in Hrun. simpl in Hs2, He2, Htk2, Hpid2, Htr2, Hres. subst s2.
  rewrite (tomlPathOf_sameEnv _ _ He1) in Hres.
  destruct r2 as [e|]; run_cbn.
  { simplify_eq. exists (new1 ++ new2). simpl.
    split; [by rewrite Htr2, Htr1, app_assoc|].
    destruct (spawnGuarded_writes (tomlPathOf w) false new1 new2 Hw1) as [b' Hb].
    rewrite Hb, isStarted_writes by done.
    destruct Hres as [[? _]|[_ [->| ->]]]; [done|..]; simpl;
      (split; [done|]); (split; [by auto|]); done. }
  destruct Hres as [[_ ->]|[? _]]; [|done].
  destruct w2 as [fs2 bin2 o2 tr2 nw2 zn2 np2 tk2 goos2 arch2 dir2 tn2].
  simpl in *. subst tr2.
  assert (Hfin : ∀ tail,
    ∃ new, trace w1 ++ EvWriteFile (tomlPathOf w) true :: tail
           = trace w ++ new
      ∧ Trace.spawnGuarded (tomlPathOf w) false new
        = Trace.spawnGuarded (tomlPathOf w) true tail
      ∧ existsb Trace.isStarted new = existsb Trace.isStarted tail).
  { intros tail. exists (new1 ++ EvWriteFile (tomlPathOf w) true :: tail).
    split; [by rewrite Htr1, <- !app_assoc|].
    destruct (spawnGuarded_writes (tomlPathOf w) false new1
                (EvWriteFile (tomlPathOf w) true :: tail) Hw1) as [b' Hb].
    rewrite Hb, isStarted_writes by done. simpl.
    by rewrite String.eqb_refl. }
  destruct f as [[pa ar [pid|]]|]; run_cbn; [done|..].
  all: destruct o2 as [|[e|] rest]; run_cbn; simplify_eq; simpl.
  all: rewrite <- ?app_assoc; simpl.
  all: match goal with
       | |- ∃ new, _ ++ EvWriteFile _ true :: ?tail = _ ∧ _ =>
           destruct (Hfin tail) as (new & Hn1 & Hn2 & Hn3);
           exists new; rewrite Hn2, Hn3; simpl
       end.
  all: split; [done|]; split; [done|]; split; [|by eauto]; try done.
  all: intros _; split; [done|]; right; eauto.
Qed.

Lemma startFrp_returns (st : State) :
  mu (svc st) = false →
  (∀ c, frpCmd (svc st) = Some c → Process c = None) →
  ∃ st', startFrp st = Ret tt st'.
Proof.
  destruct st as [[m cf r f lm buf] w]. simpl. intros -> Hf.
  unfold_start. run_cbn.
  destruct r; run_cbn; [by eexists|].
  match goal with |- context [prepareFrpEnv ?s] =>
    destruct (prepareFrpEnv_spec s)
      as (r1 & [s1 w1] & new1 & Hp & Hs1 & _)
  end.
  rewrite Hp. simpl in Hs1. subst s1.
  destruct r1 as [[fp tp]|e]; run_cbn; [|by eexists].
  match goal with |- context [generateFrpcToml ?s] =>
    destruct (generateFrpcToml_spec s)
      as (r2 & [s2 w2] & new2 & Hg & Hs2 & _)
  end.
  rewrite Hg. simpl in Hs2. subst s2.
  destruct r2 as [e|]; run_cbn; [by eexists|].
  destruct f as [[pa ar pr]|]; run_cbn.
  - pose proof (Hf _ eq_refl) as Hpr. simpl in Hpr. subst pr. run_cbn.
    destruct (outcomes w2) as [|[e|] rest]; run_cbn; by eexists.
  - destruct (outcomes w2) as [|[e|] rest]; run_cbn; by eexists.
Qed.

Lemma startFrp_prepare_fails (st s1 : State) (e : string) :
  mu (svc st) = false →
  isRunning (svc st) = false →
  prepareFrpEnv (locked st) = Ret (Err e) s1 →
  startFrp st = Ret tt {| svc := svc st; os := os s1 |}
  ∧ ∃ new, trace (os s1) = trace (os st) ++ new
           ∧ forallb Trace.isWrite new = true.
Proof.
  destruct st as [[m cf r f lm buf] w]. unfold locked. simpl.
  intros -> -> Hprep.
  destruct (prepareFrpEnv_spec
              {| svc := set_mu true
                          {| mu := false; config := cf; isRunning := false;
                             frpCmd := f; logMu := lm; logBuffer := buf |};
                 os := w |})
    as (r1 & s1' & new1 & Hp & Hs1 & _ & _ & _ & Htr1 & Hw1 & _).
  rewrite Hprep in Hp. injection Hp as <- <-.
  split; [|by exists new1].
  unfold_start. run_cbn. rewrite Hprep. run_cbn.
  destruct s1 as [sv1 w1]. simpl in *. by subst sv1.
Qed.

Lemma startFrp_generate_fails
    (st s1 s2 : State) (paths : string * string) (e : string) :
  mu (svc st) = false →
  isRunning (svc st) = false →
  prepareFrpEnv (locked st) = Ret (Ok paths) s1 →
  generateFrpcToml s1 = Ret (Some e) s2 →
  startFrp st = Ret tt {| svc := svc st; os := os s2 |}
  ∧ ∃ new, trace (os s2) = trace (os st) ++ new
           ∧ forallb Trace.isWrite new = true.
Proof.
  destruct st as [[m cf r f lm buf] w]. unfold locked. simpl.
  intros -> -> Hprep Hgen.
  destruct (prepareFrpEnv_spec
              {| svc := set_mu true
                          {| mu := false; config := cf; isRunning := false;
                             frpCmd := f; logMu := lm; logBuffer := buf |};
                 os := w |})
    as (r1 & s1' & new1 & Hp & Hs1 & _ & _ & _ & Htr1 & Hw1 & _).
  rewrite Hprep in Hp. injection Hp as <- <-.
  destruct (generateFrpcToml_spec s1)
    as (r2 & s2' & new2 & Hg & Hs2 & _ & _ & _ & Htr2 & Hres).
  rewrite Hgen in Hg. injection Hg as <- <-.
  split.
  - unfold_start. run_cbn. rewrite Hprep. destruct paths as [fp tp].
    run_cbn. rewrite Hgen. run_cbn.
    destruct s1 as [sv1 w1], s2 as [sv2 w2]. simpl in *. by subst sv1 sv2.
  - exists (new1 ++ new2). split.
    + simpl in *. by rewrite Htr2, Htr1, app_assoc.
    + rewrite forallb_app, Hw1.
      destruct Hres as [[? _]|[_ [->| ->]]]; done.
Qed.

(** C5: [prepareFrpEnv] drops the error of the [generateFrpcToml] it
    calls when [frpc.toml] is missing.  On a configured supervisor at
    rest with [frpc] in place, a start in which that first write of
    [frpc.toml] fails goes on all the same: [startFrp] writes the file
    again and, this write succeeding, spawns [frpc].  The start ends
    with the running flag set, and its trace has the spawn after the
    failed write of the runtime configuration. *)
Theorem startFrp_spawns_after_dropped_error
    (cfg : UserConfig) (out : list byte) (e : string) (st : State) :
  toml_Marshal_map (Generator.buildRunCfg cfg) = Ok out →
  mu (svc st) = false → isRunning (svc st) = false →
  frpCmd (svc st) = None → config (svc st) = Some cfg →
  is_Some (files (os st) !! frpcPathOf (os st)) →
  files (os st) !! tomlPathOf (os st) = None →
  outcomes (os st) = [Some e] →
  let w := os st in
  let new :=
    [EvWriteFile (tomlPathOf w) false;
     EvWriteFile (tomlPathOf w) true;
     EvStart (frpcPathOf w) ["-c"; tomlPathOf w] (Some (nextPid w));
     EvEmit "frp-status" (PStatus "start")] in
  ∃ st',
    startFrp st = Ret tt st'
    ∧ isRunning (svc st') = true
    ∧ frpCmd (svc st')
      = Some (mkCmd (frpcPathOf w) ["-c"; tomlPathOf w] (Some (nextPid w)))
    ∧ trace (os st') = trace w ++ new
    ∧ Trace.noSpawnAfterFailedWrite (tomlPathOf w) new = false.
Proof.
  intros Hout Hmu Hrun Hcmd Hcfg [bin Hbin] Htoml Ho w new. subst w new.
  destruct st as [[m cf r f lm buf] [fs bn o tr nw zn np tk goos arch dir tn]].
  unfold frpcPathOf, tomlPathOf in *. simpl in *. subst.
  run. rewrite Hbin. run_cbn. rewrite Htoml. run_cbn. rewrite Hout. run_cbn.
  destruct tn as [|[k|] tn]; run_cbn; rewrite Hout; run_cbn.
  all: eexists; split; [reflexivity|]; simpl; split_and!; try done.
  all: try (by rewrite <- !app_assoc).
  all: by rewrite String.eqb_refl.
Qed.

(** C4: [startFrp] holds [s.mu] when it calls [stopFrp], whose first
    step is [s.mu.Lock()].  On a supervisor that is not running but still
    tracks a process, with the environment and the runtime configuration
    in order, the call blocks for ever: the lock stays taken, the old
    process is neither killed nor replaced, nothing but the writes of
    [frpc.toml] has happened. *)
Theorem startFrp_blocks_on_tracked_process
    (st : State) (c : Cmd) (pid : Z) (cfg : UserConfig)
    (out bin : list byte) :
  mu (svc st) = false →
  isRunning (svc st) = false →
  frpCmd (svc st) = Some c →
  Process c = Some pid →
  config (svc st) = Some cfg →
  toml_Marshal_map (Generator.buildRunCfg cfg) = Ok out →
  outcomes (os st) = [] →
  files (os st) !! frpcPathOf (os st) = Some bin →
  ∃ st', startFrp st = Blocked st'
    ∧ mu (svc st') = true
    ∧ isRunning (svc st') = false
    ∧ frpCmd (svc st') = Some c
    ∧ ∃ new, trace (os st') = trace (os st) ++ new
             ∧ forallb Trace.isWrite new = true.
Proof.
  destruct st as [[m cf r f lm buf] [fs bn o tr nw zn np tk goos arch dir tn]].
  destruct c as [pa ar pr]. unfold frpcPathOf. simpl.
  intros -> -> -> -> -> Hout -> Hbin.
  run. rewrite Hbin. run_cbn.
  destruct (fs !! filepath_Join [_; "frpc.toml"]) as [toml|] eqn:Htoml;
    run_cbn; rewrite Hout; run_cbn.
  - eexists. split; [done|]. simpl. split_and!; try done.
    eexists [_]. split; [reflexivity|done].
  - rewrite Hout. run_cbn.
    eexists. split; [done|]. simpl. split_and!; try done.
    eexists [_; _]. rewrite <- app_assoc. split; [reflexivity|done].
Qed.

Lemma cycle_idle (cfg : UserConfig) (out : list byte) (st : State) :
  toml_Marshal_map (Generator.buildRunCfg cfg) = Ok out →
  idle cfg st →
  ∃ st', (startFrp;; exitWaiter) st = Ret tt st'
    ∧ idle cfg st'
    ∧ tickers (os st') = S (tickers (os st)).
Proof.
  intros Hout (Hmu & Hrun & Hcmd & Hcfg & Ho & [bin Hbin]).
  pose proof (frpcPath_ne_tomlPath (os st)) as Hne.
  destruct st as [[m cf r f lm buf] [fs bn o tr nw zn np tk goos arch dir tn]].
  unfold idle, frpcPathOf, tomlPathOf in *. simpl in *. subst.
  run. rewrite Hbin. run_cbn.
  destruct (fs !! filepath_Join [_; "frpc.toml"]) as [toml|] eqn:Htoml;
    run_cbn; rewrite Hout; run_cbn; rewrite ?Hout; run_cbn.
  all: eexists; split; [reflexivity|]; simpl; split_and!; try done.
  all: rewrite ?lookup_insert_ne by done; eauto.
Qed.

(** C7: every start that reaches the spawn creates a ticker that only
    the end of the top-level context stops: after [n] rounds of start and
    subprocess exit, [n] more tickers are live. *)
Theorem starts_leak_tickers
    (n : nat) (cfg : UserConfig) (out : list byte) (st : State) :
  toml_Marshal_map (Generator.buildRunCfg cfg) = Ok out →
  idle cfg st →
  ∃ st', startExitCycles n st = Ret tt st'
    ∧ tickers (os st') = (tickers (os st) + n)%nat
    ∧ idle cfg st'.
Proof.
  intros Hout. revert st. induction n as [|n IH]; intros st Hidle.
  - exists st. split; [done|]. split; [lia|done].
  - destruct (cycle_idle cfg out st Hout Hidle) as (st1 & Hc & Hidle1 & Htk).
    destruct (IH st1 Hidle1) as (st' & Hn & Htk' & Hidle').
    exists st'. split.
    + simpl. unfold mbind, M_bind in *.
      destruct (startFrp st) as [[] s1|s1]; [|done].
      destruct (exitWaiter s1) as [[] s2|s2]; [|done].
      by simplify_eq.
    + split; [lia|done].
Qed.

(** *** Save, then load *)

(** The steps of the two methods, for a codec that reads back the
    document it wrote. *)
Lemma save_then_load_codec
    (newCfg : UserConfig) (st : State) (data : list byte) (t0 : Z) :
  let cfg := stamped newCfg (zone (os st)) (now (os st)) in
  mu (svc st) = false →
  Forall (λ o, o = None) (outcomes (os st)) →
  toml_Marshal_UserConfig cfg = Ok data →
  toml_Unmarshal_UserConfig data = Ok cfg →
  -6000 < zone (os st) < 6000 →
  0 ≤ Time.Unix (now (os st)) + zone (os st) * 60 < 253402300800 →
  t0 ≤ now (os st) →
  ∃ r st1 st2 loaded ts,
    SaveUserConfig newCfg st = Ret r st1
    ∧ loadConfigFromDisk st1 = Ret None st2
    ∧ config (svc st2) = Some loaded
    ∧ Server loaded = Server newCfg
    ∧ Proxies loaded = Proxies newCfg
    ∧ ConfigVersion loaded = "1.0.0"
    ∧ Time.Parse_RFC3339 (LastUpdated loaded) = Some ts
    ∧ ts = Time.Unix (now (os st))
    ∧ Time.Unix t0 ≤ ts.
Proof.
  intros cfg Hmu Hok Hdata Hback Hz Hrange Ht0.
  assert (Hts : Time.Parse_RFC3339 (LastUpdated cfg)
                = Some (Time.Unix (now (os st)))).
  { apply TimeFacts.Parse_Format; done. }
  assert (Hle : Time.Unix t0 ≤ Time.Unix (now (os st))).
  { unfold Time.Unix, Time.nanosPerSecond. Z.div_mod_to_equations. lia. }
  assert (Hall : ∃ r st1 st2,
    SaveUserConfig newCfg st = Ret r st1
    ∧ loadConfigFromDisk st1 = Ret None st2
    ∧ config (svc st2) = Some cfg).
  { subst cfg. pose proof (tomlPath_ne_configPath (os st)) as Hne.
    unfold tomlPathOf, configPathOf in Hne.
    destruct st as [[m cf r f lm buf] [fs bn o tr nw zn np tk goos arch dir tn]].
    simpl in *. subst m.
    run. rewrite Hdata. run_cbn.
    destruct o as [|o1 [|o2 [|o3 rest]]];
      repeat match goal with
             | Hf : Forall _ (_ :: _) |- _ =>
                 apply Forall_cons in Hf as [-> Hf]
             end;
      run_cbn;
      (destruct (toml_Marshal_map _) as [out|e]; run_cbn);
      (eexists _, _, _; split; [reflexivity|]); run_cbn;
      repeat (progress (rewrite ?lookup_insert_ne by done;
                        rewrite ?lookup_insert_eq; run_cbn));
      rewrite ?Hback; run_cbn; done. }
  destruct Hall as (r & st1 & st2 & Hs & Hl & Hc).
  exists r, st1, st2, cfg, (Time.Unix (now (os st))). done.
Qed.

End ServiceFacts.


(** ** The generated structure *)

Section GeneratorStructure.
Import Generator.

Lemma buildRunCfg_server (cfg : UserConfig) :
  buildRunCfg cfg !! "serverAddr" = Some (AString (Addr (Server cfg)))
  ∧ buildRunCfg cfg !! "serverPort" = Some (AInt (Port (Server cfg)))
  ∧ buildRunCfg cfg !! "auth"
    = Some (AStringMap (<["token" := Token (Server cfg)]>
                          (<["method" := "token"]> ∅))).
Proof.
  unfold buildRunCfg. cbv zeta.
  split_and!; by rewrite !lookup_insert_ne, lookup_insert_eq by done.
Qed.

(** X1: the structure handed to [toml.Marshal] has exactly the four keys
    [serverAddr], [serverPort], [auth] and [proxies]; the first two are
    the server address and port of the configuration, and [auth] holds
    exactly [method], always "token", and [token], the configured token.
    The remark and the auto-start flag are not part of it. *)
Theorem generate_server_block (cfg : UserConfig) :
  dom (buildRunCfg cfg)
  = ({["serverAddr"; "serverPort"; "auth"; "proxies"]} : gset string)
  ∧ buildRunCfg cfg !! "serverAddr" = Some (AString (Addr (Server cfg)))
  ∧ buildRunCfg cfg !! "serverPort" = Some (AInt (Port (Server cfg)))
  ∧ ∃ auth, buildRunCfg cfg !! "auth" = Some (AStringMap auth)
      ∧ dom auth = ({["method"; "token"]} : gset string)
      ∧ auth !! "method" = Some "token"
      ∧ auth !! "token" = Some (Token (Server cfg)).
Proof.
  destruct (buildRunCfg_server cfg) as (Ha & Hp & Hau).
  split; [|split; [exact Ha|split; [exact Hp|]]].
  - unfold buildRunCfg. cbv zeta.
    rewrite !dom_insert_L, dom_empty_L. set_solver.
  - eexists. split; [exact Hau|]. split; [|split].
    + rewrite !dom_insert_L, dom_empty_L. set_solver.
    + by rewrite lookup_insert_ne, lookup_insert_eq by done.
    + by rewrite lookup_insert_eq.
Qed.

Lemma proxyItem_fields (p : ProxyRule) :
  proxyItem p !! "name" = Some (AString (Name p))
  ∧ proxyItem p !! "type" = Some (AString (ProxyType p))
  ∧ proxyItem p !! "localIP" = Some (AString (LocalIP p))
  ∧ proxyItem p !! "localPort" = Some (AInt (LocalPort p)).
Proof.
  unfold proxyItem. cbv zeta.
  destruct (String.eqb _ _); split_and!;
    by rewrite ?lookup_insert_ne, lookup_insert_eq by done.
Qed.

Lemma proxyItem_dom (p : ProxyRule) :
  dom (proxyItem p)
  = ({["name"; "type"; "localIP"; "localPort";
       if String.eqb (ProxyType p) "http" then "customDomains"
       else "remotePort"]} : gset string).
Proof.
  unfold proxyItem. cbv zeta.
  destruct (String.eqb _ _); rewrite !dom_insert_L, dom_empty_L; set_solver.
Qed.

(** X2: every generated proxy entry comes from an enabled rule of the
    configuration and has exactly five fields: the rule's [name], [type],
    [localIP] and [localPort], and one more, [customDomains] when the
    type is exactly "http" and [remotePort] for any other type, known or
    not.  The rule's id and its enabled flag are not emitted. *)
Theorem generate_entry_fields (cfg : UserConfig) (item : gmap string Any) :
  item ∈ runProxies (buildRunCfg cfg) →
  ∃ p, p ∈ Proxies cfg ∧ Enabled p = true
    ∧ item !! "name" = Some (AString (Name p))
    ∧ item !! "type" = Some (AString (ProxyType p))
    ∧ item !! "localIP" = Some (AString (LocalIP p))
    ∧ item !! "localPort" = Some (AInt (LocalPort p))
    ∧ dom item
      = ({["name"; "type"; "localIP"; "localPort";
           if String.eqb (ProxyType p) "http" then "customDomains"
           else "remotePort"]} : gset string)
    ∧ (ProxyType p ≠ "http" →
         item !! "remotePort" = Some (AInt (RemotePort p))
         ∧ item !! "customDomains" = None).
Proof.
  rewrite runProxies_buildRunCfg. intros Hin.
  apply list_elem_of_fmap in Hin as (p & -> & Hp).
  unfold enabledRules in Hp. apply list_elem_of_filter in Hp as [He Hp].
  exists p. destruct (proxyItem_fields p) as (?&?&?&?).
  split_and!; try done.
  - apply proxyItem_dom.
  - apply proxyItem_other.
Qed.

Lemma proxyItem_sameEntry (p q : ProxyRule) :
  proxyItem p = proxyItem q ↔ sameEntry p q.
Proof.
  unfold sameEntry. split.
  - intros Heq.
    destruct (proxyItem_fields p) as (Hn & Ht & Hi & Hl).
    destruct (proxyItem_fields q) as (Hn' & Ht' & Hi' & Hl').
    rewrite Heq in Hn, Ht, Hi, Hl.
    assert (Name p = Name q) by congruence.
    assert (Hty : ProxyType p = ProxyType q) by congruence.
    assert (LocalIP p = LocalIP q) by congruence.
    assert (LocalPort p = LocalPort q) by congruence.
    split_and!; try done.
    destruct (String.eqb_spec (ProxyType p) "http") as [Hh|Hh].
    + destruct (proxyItem_http p Hh) as [Hd _].
      rewrite Hty in Hh. destruct (proxyItem_http q Hh) as [Hd' _].
      rewrite Heq in Hd. congruence.
    + destruct (proxyItem_other p Hh) as [Hd _].
      rewrite Hty in Hh. destruct (proxyItem_other q Hh) as [Hd' _].
      rewrite Heq in Hd. congruence.
  - intros (Hn & Ht & Hi & Hl & Hx). unfold proxyItem. cbv zeta.
    rewrite <- Hn, <- Ht, <- Hi, <- Hl.
    destruct (String.eqb _ _); by rewrite Hx.
Qed.

(** X3: two configurations generate the same structure exactly when they
    have the same server address, port and token and their enabled
    rules, taken in order, agree pairwise on name, type, local address
    and port and on the domains (type "http") or the remote port (any
    other type).  Nothing else of a configuration reaches [frpc.toml]:
    not its version and time stamp, the remark, the auto-start flag, the
    rule ids or the disabled rules. *)
Theorem generate_determined_by (a b : UserConfig) :
  buildRunCfg a = buildRunCfg b
  ↔ Addr (Server a) = Addr (Server b)
    ∧ Port (Server a) = Port (Server b)
    ∧ Token (Server a) = Token (Server b)
    ∧ Forall2 sameEntry (enabledRules a) (enabledRules b).
Proof.
  split.
  - intros Heq.
    destruct (buildRunCfg_server a) as (Ha & Hp & Hau).
    destruct (buildRunCfg_server b) as (Ha' & Hp' & Hau').
    pose proof (runProxies_buildRunCfg a) as Hra.
    pose proof (runProxies_buildRunCfg b) as Hrb.
    rewrite Heq in Ha, Hp, Hau, Hra.
    split_and!; try congruence.
    + assert (Hm : (<["token" := Token (Server a)]>
                      (<["method" := "token"]> ∅) : gmap string string)
                   = <["token" := Token (Server b)]>
                       (<["method" := "token"]> ∅)) by congruence.
      apply (f_equal (λ m, m !! "token")) in Hm.
      rewrite !lookup_insert_eq in Hm. congruence.
    + rewrite Hrb in Hra. clear -Hra.
      revert Hra. generalize (enabledRules a) (enabledRules b).
      intros l. induction l as [|p l IH]; intros [|q l'] Hl; simplify_eq/=.
      * constructor.
      * constructor; [by apply proxyItem_sameEntry|]. by apply IH.
  - intros (Ha & Hp & Ht & Hall). unfold buildRunCfg. cbv zeta.
    rewrite Ha, Hp, Ht. f_equal. f_equal.
    rewrite !buildProxies_filter. fold (enabledRules a) (enabledRules b).
    induction Hall as [|p q l l' Hpq _ IH]; [done|].
    simpl. f_equal; [by apply proxyItem_sameEntry|done].
Qed.

(** X4: the loop over the rules distributes over concatenation: the
    entries of a rule list [ps ++ qs] are the entries of [ps] followed by
    the entries of [qs].  Adding rules at the end of the list leaves the
    entries generated for the earlier rules, and their order, as they
    were. *)
Theorem generate_concat (ps qs : list ProxyRule) :
  buildProxies (ps ++ qs) = buildProxies ps ++ buildProxies qs.
Proof. by rewrite !buildProxies_filter, filter_app, fmap_app. Qed.

Lemma filter_enabled_nil (ps : list ProxyRule) :
  filter (λ p, Enabled p = true) ps = []
  ↔ Forall (λ p, Enabled p = false) ps.
Proof.
  induction ps as [|p ps IH]; [done|].
  destruct (Enabled p) eqn:E.
  - rewrite filter_cons_True by done. split; [done|].
    intros Hall. apply Forall_cons in Hall as [Hp _]. congruence.
  - rewrite filter_cons_False by (by rewrite E). rewrite IH.
    split; [by constructor|]. by intros [_ ?]%Forall_cons.
Qed.

(** X5: the generated structure has no proxy entry exactly when every
    rule of the configuration is disabled (in particular when there is no
    rule at all); the [proxies] key is present all the same. *)
Theorem generate_no_entries (cfg : UserConfig) :
  (runProxies (buildRunCfg cfg) = []
   ↔ Forall (λ p, Enabled p = false) (Proxies cfg))
  ∧ is_Some (buildRunCfg cfg !! "proxies").
Proof.
  split.
  - rewrite runProxies_buildRunCfg. unfold enabledRules.
    rewrite <- filter_enabled_nil. split.
    + apply fmap_nil_inv.
    + by intros ->.
  - unfold buildRunCfg. cbv zeta. rewrite lookup_insert_eq. by eexists.
Qed.

End GeneratorStructure.

(** ** The store, the supervisor and the startup *)

Ltac run_more :=
  unfold Service.Connect, Service.GetStatus, Service.getRunningSummary,
    Service.goRun, Service.initTask, mu_RLock, mu_RUnlock in *;
  run.

(** The startup goroutine with [startFrp] left folded. *)
Ltac unfold_init :=
  unfold ServiceStartup, boot, Service.initTask, Service.loadConfigFromDisk,
    Service.getAppConfigDir, os_Stat_IsNotExist, os_ReadFile, nextOutcome,
    getOs, modSvc, getSvc, mu_RLock, mu_RUnlock, NewMoleService,
    mbind, mret, M_bind, M_ret in *.

Section StoreFacts.
Context `{TomlCodec}.
Import Service.

(** X6: [generateFrpcToml] always returns, leaves the service as it is
    and touches no file but [frpc.toml].  It returns nil only if there is
    a configuration whose runtime structure was serialised, and then
    [frpc.toml] holds exactly these bytes.  When it returns an error,
    either nothing at all has happened (there is no configuration, the
    error being "未发现有效配置", or the structure could not be
    serialised), or the write of [frpc.toml] failed, and then the file
    is as it was or holds the first bytes of the new document. *)
Theorem generateFrpcToml_writes (st : State) :
  ∃ r st', generateFrpcToml st = Ret r st'
    ∧ svc st' = svc st
    ∧ (∀ path, path ≠ tomlPathOf (os st) →
         files (os st') !! path = files (os st) !! path)
    ∧ (r = None →
         ∃ cfg out, config (svc st) = Some cfg
           ∧ toml_Marshal_map (Generator.buildRunCfg cfg) = Ok out
           ∧ files (os st') !! tomlPathOf (os st) = Some out)
    ∧ (r ≠ None →
         st' = st
         ∨ ∃ cfg out e, config (svc st) = Some cfg
             ∧ toml_Marshal_map (Generator.buildRunCfg cfg) = Ok out
             ∧ outcomeAt 0 (outcomes (os st)) = Some e
             ∧ r = Some e
             ∧ (files (os st') = files (os st)
                ∨ ∃ k, files (os st')
                       = <[tomlPathOf (os st) := take k out]> (files (os st))))
    ∧ (config (svc st) = None → r = Some "未发现有效配置" ∧ st' = st)
    ∧ (∀ cfg e, config (svc st) = Some cfg →
         toml_Marshal_map (Generator.buildRunCfg cfg) = Err e →
         r = Some e ∧ st' = st).
Proof.
  destruct st as [[m cf r f lm buf] w]. unfold tomlPathOf, outcomeAt.
  run. destruct cf as [cfg|]; run_cbn.
  2:{ eexists _, _. split; [done|]. simpl. split_and!; try done. by left. }
  destruct (toml_Marshal_map _) as [out|e] eqn:Hout; run_cbn.
  2:{ eexists _, _. split; [done|]. simpl. split_and!; try done.
      - by left.
      - intros cfg' e' [= <-] Herr. split; [congruence|done]. }
  destruct (outcomes w) as [|[e|] rest] eqn:Ho; run_cbn.
  2: destruct (torn w) as [|[k|] tn] eqn:Ht; run_cbn.
  all: eexists _, _; (split; [done|]); simpl; split_and!; try done.
  all: try (intros path Hp; by rewrite lookup_insert_ne).
  all: try (intros _; eexists _, _; split_and!;
            [done..|by rewrite lookup_insert_eq]).
  all: try (intros cfg' e' [= <-] Herr; congruence).
  all: intros _; right; exists cfg, out, e; split_and!; try done.
  all: try (by left).
  right. by exists k.
Qed.

(** X7: [loadConfigFromDisk] always returns and never writes: the files
    and the trace are as before.  When it returns an error (the file is
    missing, the read fails or the document does not parse) the service,
    its configuration included, is unchanged; it returns nil only when
    [config.toml] exists and parses, and then the parsed configuration is
    the current one and nothing else of the service has changed. *)
Theorem loadConfigFromDisk_reads (st : State) :
  ∃ r st', loadConfigFromDisk st = Ret r st'
    ∧ files (os st') = files (os st)
    ∧ trace (os st') = trace (os st)
    ∧ (r ≠ None → svc st' = svc st)
    ∧ (r = None →
         ∃ data cfg, files (os st) !! configPathOf (os st) = Some data
           ∧ toml_Unmarshal_UserConfig data = Ok cfg
           ∧ svc st' = set_config (Some cfg) (svc st))
    ∧ (files (os st) !! configPathOf (os st) = None → r ≠ None).
Proof.
  destruct st as [[m cf r f lm buf] w]. unfold configPathOf.
  run. destruct (files w !! _) as [data|] eqn:Hd; run_cbn;
    rewrite ?Hd; run_cbn.
  2:{ eexists _, _. split; [done|]. simpl. split_and!; done. }
  destruct (outcomes w) as [|[e|] rest] eqn:Ho; run_cbn.
  all: try (destruct (toml_Unmarshal_UserConfig data) as [cfg|e'] eqn:Hdec;
            run_cbn).
  all: eexists _, _; (split; [done|]); simpl; split_and!; try done.
  all: intros _; eexists _, _; split_and!; done.
Qed.

(** X8: when the write of [config.toml] fails, [SaveUserConfig] returns
    "保存文件失败: " followed by the cause, with the lock released.  The
    stamped configuration is already the in-memory one; [frpc.toml] was
    not attempted and no file other than [config.toml] has changed;
    [config.toml] itself is as it was or holds the first bytes of the new
    document, so the previous valid file may be lost. *)
Theorem SaveUserConfig_first_stage_fails
    (newCfg : UserConfig) (st : State) (data : list byte) (e : string) :
  let cfg := stamped newCfg (zone (os st)) (now (os st)) in
  mu (svc st) = false →
  toml_Marshal_UserConfig cfg = Ok data →
  outcomeAt 0 (outcomes (os st)) = Some e →
  ∃ st', SaveUserConfig newCfg st
         = Ret (Some ("保存文件失败: " +:+ e)) st'
    ∧ svc st' = set_config (Some cfg) (svc st)
    ∧ (files (os st') = files (os st)
       ∨ ∃ k, files (os st')
              = <[configPathOf (os st) := take k data]> (files (os st)))
    ∧ trace (os st')
      = trace (os st) ++ [EvWriteFile (configPathOf (os st)) false].
Proof.
  intros cfg Hmu Hd Ho. subst cfg.
  destruct st as [[m cf r f lm buf] [fs bn o tr nw zn np tk goos arch dir tn]].
  unfold configPathOf, outcomeAt in *. simpl in *. subst m.
  run. rewrite Hd. run_cbn.
  destruct o as [|[e0|] rest]; simplify_eq/=; run_cbn.
  destruct tn as [|[k|] tn]; run_cbn.
  all: eexists; split; [done|]; simpl; split_and!; try done.
  all: try (by left).
  right. by exists k.
Qed.

(** X9: when both documents are serialised and both writes succeed,
    [SaveUserConfig] returns nil; the in-memory configuration is the
    stamped one; [config.toml] holds its serialisation and [frpc.toml]
    the serialisation of the runtime structure of the configuration as
    it was passed in; the two writes, in this order, are all that
    happened: the running flag and the process handle are untouched, a
    running subprocess is neither stopped nor restarted. *)
Theorem SaveUserConfig_success
    (newCfg : UserConfig) (st : State) (data out : list byte) :
  let cfg := stamped newCfg (zone (os st)) (now (os st)) in
  mu (svc st) = false →
  toml_Marshal_UserConfig cfg = Ok data →
  toml_Marshal_map (Generator.buildRunCfg newCfg) = Ok out →
  outcomeAt 0 (outcomes (os st)) = None →
  outcomeAt 1 (outcomes (os st)) = None →
  ∃ st', SaveUserConfig newCfg st = Ret None st'
    ∧ svc st' = set_config (Some cfg) (svc st)
    ∧ files (os st')
      = <[tomlPathOf (os st) := out]>
          (<[configPathOf (os st) := data]> (files (os st)))
    ∧ trace (os st')
      = trace (os st) ++ [EvWriteFile (configPathOf (os st)) true;
                          EvWriteFile (tomlPathOf (os st)) true].
Proof.
  intros cfg Hmu Hd Hout H0 H1. subst cfg.
  destruct st as [[m cf r f lm buf] [fs bn o tr nw zn np tk goos arch dir tn]].
  unfold configPathOf, tomlPathOf, outcomeAt in *.
  simpl in *. subst m.
  change (Generator.buildRunCfg newCfg)
    with (Generator.buildRunCfg (stamped newCfg zn nw)) in Hout.
  run. rewrite Hd. run_cbn.
  destruct o as [|[e0|] [|[e1|] rest]]; simplify_eq/=; run_cbn;
    rewrite Hout; run_cbn.
  all: eexists; split; [done|]; simpl; split_and!; try done.
  all: by rewrite <- app_assoc.
Qed.

End StoreFacts.

Section SupervisorFacts.
Context `{TomlCodec}.
Import Service.

(** *** Disconnect and stop *)

(** X10: [Disconnect] never blocks (it does not take [s.mu]) and never
    releases the process handle: [frpCmd], the configuration, the lock,
    the log buffer, the files and the tickers are as before, the status
    carries no configuration, and the running flag is never set by it.
    On a supervisor that is not running it does nothing at all and says
    "服务本就处于停止状态". *)
Theorem Disconnect_frame (st : State) :
  ∃ r st', Disconnect st = Ret r st'
    ∧ frpCmd (svc st') = frpCmd (svc st)
    ∧ config (svc st') = config (svc st)
    ∧ mu (svc st') = mu (svc st)
    ∧ logBuffer (svc st') = logBuffer (svc st)
    ∧ files (os st') = files (os st)
    ∧ tickers (os st') = tickers (os st)
    ∧ Config r = None
    ∧ (isRunning (svc st') = true → isRunning (svc st) = true)
    ∧ (isRunning (svc st) = false →
         st' = st
         ∧ r = {| Success := true; IsRunning := false; Config := None;
                  Message := "服务本就处于停止状态" |}).
Proof.
  destruct st as [[m cf r f lm buf] w]. run.
  destruct r; run_cbn.
  2:{ eexists _, _. split; [done|]. simpl. split_and!; done. }
  destruct f as [[pa ar [pid|]]|]; run_cbn.
  1: destruct (outcomes w) as [|[e|] rest] eqn:Ho; run_cbn.
  all: eexists _, _; (split; [done|]); simpl; split_and!; done.
Qed.

(** X11: on a running supervisor whose kill succeeds, [Disconnect]
    reports "服务已断开" after one kill and one log line; the handle of
    the killed process is still tracked; a second [Disconnect] kills
    nothing, changes nothing and reports that the service was already
    stopped. *)
Theorem Disconnect_twice (st : State) (c : Cmd) (pid : Z) :
  isRunning (svc st) = true →
  frpCmd (svc st) = Some c →
  Process c = Some pid →
  outcomeAt 0 (outcomes (os st)) = None →
  ∃ st1,
    Disconnect st
    = Ret {| Success := true; IsRunning := false; Config := None;
             Message := "服务已断开" |} st1
    ∧ Disconnect st1
      = Ret {| Success := true; IsRunning := false; Config := None;
               Message := "服务本就处于停止状态" |} st1
    ∧ frpCmd (svc st1) = Some c
    ∧ trace (os st1)
      = trace (os st) ++ [EvKill pid true;
                          EvEmit "frp-logs" (PLogs ["用户手动断开连接"])].
Proof.
  destruct st as [[m cf r f lm buf] w], c as [pa ar pr]. unfold outcomeAt.
  simpl. intros -> -> -> Ho. run.
  destruct (outcomes w) as [|[e|] rest] eqn:Hw; simplify_eq/=; run_cbn.
  all: eexists; split; [done|]; run_cbn; split_and!; try done.
  all: by rewrite <- app_assoc.
Qed.

(** X12: [stopFrp] (and so [cleanup], which is what the shutdown hook
    runs) on a free lock returns with the lock free and the handle, the
    configuration and the files as before.  Without a tracked process it
    does nothing, whatever the running flag says.  With a tracked process
    it runs exactly one command, [taskkill /F /T /PID pid] on Windows and
    [kill -9 pid] elsewhere, and clears the running flag whether or not
    the command succeeded. *)
Theorem stopFrp_kills (st : State) :
  mu (svc st) = false →
  ∃ st', cleanup st = Ret tt st'
    ∧ mu (svc st') = false
    ∧ frpCmd (svc st') = frpCmd (svc st)
    ∧ config (svc st') = config (svc st)
    ∧ files (os st') = files (os st)
    ∧ match frpCmd (svc st) with
      | Some {| Process := Some pid |} =>
          let ok := isNil (outcomeAt 0 (outcomes (os st))) in
          isRunning (svc st') = false
          ∧ trace (os st')
            = trace (os st) ++
              [if String.eqb (GOOS (os st)) "windows"
               then EvRun "taskkill" ["/F"; "/T"; "/PID"; pretty pid] ok
               else EvRun "kill" ["-9"; pretty pid] ok]
      | _ => st' = st
      end.
Proof.
  destruct st as [[m cf r f lm buf] w]. unfold outcomeAt, cleanup.
  simpl. intros ->.
  run. destruct f as [[pa ar [pid|]]|]; run_cbn.
  2,3: eexists; split; [done|]; simpl; split_and!; done.
  destruct (String.eqb (GOOS w) "windows"); run_cbn;
    destruct (outcomes w) as [|[e|] rest] eqn:Hw; run_cbn.
  all: eexists; split; [done|]; simpl; split_and!; done.
Qed.

(** X13: once the exit of the killed subprocess has been handled, the
    supervisor can be started again.  From a running supervisor, a
    [Disconnect] whose kill succeeds followed by the exit-waiter leaves
    no handle and a false flag, having published the two log lines and
    the "stop" status in this order, and the next [startFrp] returns. *)
Theorem restart_after_exit (st : State) (c : Cmd) (pid : Z) :
  mu (svc st) = false →
  isRunning (svc st) = true →
  frpCmd (svc st) = Some c →
  Process c = Some pid →
  outcomeAt 0 (outcomes (os st)) = None →
  ∃ r st1 st2 st3,
    Disconnect st = Ret r st1
    ∧ exitWaiter st1 = Ret tt st2
    ∧ frpCmd (svc st2) = None
    ∧ isRunning (svc st2) = false
    ∧ trace (os st2)
      = trace (os st) ++
        [EvKill pid true;
         EvEmit "frp-logs" (PLogs ["用户手动断开连接"]);
         EvEmit "frp-logs" (PLogs ["警告：frpc 进程已退出"]);
         EvEmit "frp-status" (PStatus "stop")]
    ∧ startFrp st2 = Ret tt st3.
Proof.
  destruct st as [[m cf r f lm buf] w], c as [pa ar pr]. unfold outcomeAt.
  simpl. intros -> -> -> -> Ho.
  assert (∃ r st1 st2,
    Disconnect
      {| svc := {| mu := false; config := cf; isRunning := true;
                   frpCmd := Some {| Path := pa; Args := ar;
                                     Process := Some pid |};
                   logMu := lm; logBuffer := buf |};
         os := w |} = Ret r st1
    ∧ exitWaiter st1 = Ret tt st2
    ∧ frpCmd (svc st2) = None
    ∧ isRunning (svc st2) = false
    ∧ mu (svc st2) = false
    ∧ trace (os st2)
      = trace w ++
        [EvKill pid true;
         EvEmit "frp-logs" (PLogs ["用户手动断开连接"]);
         EvEmit "frp-logs" (PLogs ["警告：frpc 进程已退出"]);
         EvEmit "frp-status" (PStatus "stop")])
    as (r & st1 & st2 & Hd & He & Hc & Hr & Hm & Ht).
  { run. destruct (outcomes w) as [|[e|] rest] eqn:Hw; simplify_eq/=; run_cbn.
    all: eexists _, _, _; split; [reflexivity|]; run_cbn; split_and!; try done.
    all: by rewrite <- !app_assoc. }
  destruct (startFrp_returns st2) as [st3 Hs]; [done|by rewrite Hc|].
  exists r, st1, st2, st3. done.
Qed.

(** *** Start *)

(** X14: a start on a configured supervisor at rest, on a machine where
    [frpc] is in place and nothing fails.  The call returns with the
    running flag set and the handle of the command
    [frpc -c <dir>/frpc.toml], whose process is the one just spawned;
    [frpc.toml] holds the serialised runtime structure of the current
    configuration; one more ticker is live; the trace gained the write
    of [frpc.toml] (twice when the file was missing), the spawn and the
    "start" status, in this order. *)
Theorem startFrp_success (cfg : UserConfig) (out : list byte) (st : State) :
  toml_Marshal_map (Generator.buildRunCfg cfg) = Ok out →
  idle cfg st →
  let w := os st in
  let cmd := mkCmd (frpcPathOf w) ["-c"; tomlPathOf w] (Some (nextPid w)) in
  ∃ st' pre,
    startFrp st = Ret tt st'
    ∧ svc st' = set_isRunning true (set_frpCmd (Some cmd) (svc st))
    ∧ files (os st') = <[tomlPathOf w := out]> (files w)
    ∧ nextPid (os st') = nextPid w + 1
    ∧ tickers (os st') = S (tickers w)
    ∧ pre = match files w !! tomlPathOf w with
            | Some _ => []
            | None => [EvWriteFile (tomlPathOf w) true]
            end
    ∧ trace (os st')
      = trace w ++ pre ++
        [EvWriteFile (tomlPathOf w) true;
         EvStart (frpcPathOf w) ["-c"; tomlPathOf w] (Some (nextPid w));
         EvEmit "frp-status" (PStatus "start")].
Proof.
  intros Hout (Hmu & Hrun & Hcmd & Hcfg & Ho & [bin Hbin]) w cmd.
  subst w cmd.
  destruct st as [[m cf r f lm buf] [fs bn o tr nw zn np tk goos arch dir tn]].
  unfold idle, frpcPathOf, tomlPathOf in *. simpl in *. subst.
  run. rewrite Hbin. run_cbn.
  destruct (fs !! filepath_Join [_; "frpc.toml"]) as [toml|] eqn:Htoml;
    run_cbn; rewrite Hout; run_cbn; rewrite ?Hout; run_cbn.
  all: eexists _, _; split; [reflexivity|]; simpl; split_and!; try done.
  all: rewrite <- ?app_assoc; simpl; try done.
  by rewrite insert_insert_eq.
Qed.

(** X15: a start whose spawn fails, on a configured supervisor at rest
    with [frpc] and [frpc.toml] in place.  The runtime configuration was
    written, the spawn was attempted with the command
    [frpc -c <dir>/frpc.toml] and the failure was published as the
    two-line log batch "frpc 进程启动失败：", cause; the flag is false, the
    handle holds the command without a process, no "start" status was
    published, and the ticker created before the spawn is live all the
    same. *)
Theorem startFrp_spawn_failure
    (cfg : UserConfig) (out toml : list byte) (e : string) (st : State) :
  toml_Marshal_map (Generator.buildRunCfg cfg) = Ok out →
  mu (svc st) = false → isRunning (svc st) = false →
  frpCmd (svc st) = None → config (svc st) = Some cfg →
  is_Some (files (os st) !! frpcPathOf (os st)) →
  files (os st) !! tomlPathOf (os st) = Some toml →
  outcomeAt 0 (outcomes (os st)) = None →
  outcomeAt 1 (outcomes (os st)) = Some e →
  let w := os st in
  ∃ st',
    startFrp st = Ret tt st'
    ∧ isRunning (svc st') = false
    ∧ frpCmd (svc st') = Some (mkCmd (frpcPathOf w) ["-c"; tomlPathOf w] None)
    ∧ tickers (os st') = S (tickers w)
    ∧ nextPid (os st') = nextPid w
    ∧ trace (os st')
      = trace w ++
        [EvWriteFile (tomlPathOf w) true;
         EvStart (frpcPathOf w) ["-c"; tomlPathOf w] None;
         EvEmit "frp-logs" (PLogs ["frpc 进程启动失败："; e])].
Proof.
  intros Hout Hmu Hrun Hcmd Hcfg [bin Hbin] Htoml H0 H1 w. subst w.
  destruct st as [[m cf r f lm buf] [fs bn o tr nw zn np tk goos arch dir tn]].
  unfold frpcPathOf, tomlPathOf, outcomeAt in *. simpl in *. subst.
  run. rewrite Hbin. run_cbn. rewrite Htoml. run_cbn. rewrite Hout. run_cbn.
  destruct o as [|[e0|] [|[e1|] rest]]; simplify_eq/=; run_cbn.
  eexists; split; [reflexivity|]; simpl; split_and!; try done.
  by rewrite <- ?app_assoc.
Qed.

(** X16: [Connect] on a configured supervisor at rest changes nothing
    itself: it answers "启动中..." and leaves one [startFrp] goroutine
    behind, and does so again if called before that goroutine has run.
    The first goroutine starts the subprocess; a second one then finds
    the running flag set and does nothing, so two quick calls spawn one
    process; a later [Connect] answers that the tunnel is already
    running and starts no goroutine. *)
Theorem double_Connect_single_spawn
    (cfg : UserConfig) (out : list byte) (st : State) :
  toml_Marshal_map (Generator.buildRunCfg cfg) = Ok out →
  idle cfg st →
  ∃ st1,
    Connect st
    = Ret ({| Success := true; IsRunning := false; Config := Some cfg;
              Message := "启动中..." |}, Some go_startFrp) st
    ∧ goRun (Some go_startFrp) st = Ret tt st1
    ∧ isRunning (svc st1) = true
    ∧ goRun (Some go_startFrp) st1 = Ret tt st1
    ∧ Connect st1
      = Ret ({| Success := true; IsRunning := true; Config := Some cfg;
                Message := "提示：隧道已在运行中，无需重复连接。" |}, None) st1.
Proof.
  intros Hout (Hmu & Hrun & Hcmd & Hcfg & Ho & [bin Hbin]).
  destruct st as [[m cf r f lm buf] [fs bn o tr nw zn np tk goos arch dir tn]].
  unfold idle, frpcPathOf, tomlPathOf in *. simpl in *. subst.
  run_more. rewrite Hbin. run_cbn.
  destruct (fs !! filepath_Join [_; "frpc.toml"]) as [toml|] eqn:Htoml;
    run_cbn; rewrite Hout; run_cbn; rewrite ?Hout; run_cbn.
  all: eexists; split; [reflexivity|]; split; [reflexivity|]; run_cbn; done.
Qed.

(** X17: without a configuration nothing is ever spawned.  [Connect]
    answers with [Success] false, starts no goroutine and changes
    nothing.  A [startFrp] that runs all the same returns with the
    service as it was, no process, no ticker and [frpc.toml] as it was:
    at most the [frpc] binary has been extracted. *)
Theorem unconfigured_never_spawns (st : State) :
  mu (svc st) = false →
  isRunning (svc st) = false →
  config (svc st) = None →
  Connect st
  = Ret ({| Success := false; IsRunning := false; Config := None;
            Message := "错误：未发现有效配置。请先前往配置页保存服务器信息。" |},
         None) st
  ∧ ∃ st' new,
      startFrp st = Ret tt st'
      ∧ svc st' = svc st
      ∧ tickers (os st') = tickers (os st)
      ∧ nextPid (os st') = nextPid (os st)
      ∧ trace (os st') = trace (os st) ++ new
      ∧ forallb Trace.isWrite new = true
      ∧ files (os st') !! tomlPathOf (os st)
        = files (os st) !! tomlPathOf (os st).
Proof.
  intros Hmu Hrun Hcfg.
  pose proof (frpcPath_ne_tomlPath (os st)) as Hne.
  destruct st as [[m cf r f lm buf] [fs bn o tr nw zn np tk goos arch dir tn]].
  unfold frpcPathOf, tomlPathOf in *. simpl in *. subst.
  split; [by run_more|].
  run.
  destruct (fs !! filepath_Join [_; frpcTargetName goos]) as [binary|] eqn:Hbin;
    run_cbn.
  - destruct (fs !! filepath_Join [_; "frpc.toml"]) as [toml|] eqn:Htoml;
      run_cbn; rewrite ?Htoml; run_cbn.
    all: eexists _, []; split; [reflexivity|]; simpl; rewrite app_nil_r; done.
  - destruct (bn !! _) as [data|] eqn:Hemb; run_cbn.
    2:{ eexists _, []. split; [reflexivity|]. simpl. rewrite app_nil_r. done. }
    destruct o as [|[e|] rest]; run_cbn.
    2:{ destruct tn as [|[k|] tn]; run_cbn.
        all: eexists _, [_]; split; [reflexivity|]; simpl; split_and!;
          try done.
        by rewrite lookup_insert_ne. }
    all: destruct (<[_:=_]> fs !! filepath_Join [_; "frpc.toml"])
           as [toml|] eqn:Htoml; run_cbn.
    all: eexists _, [_]; split; [reflexivity|]; simpl; split_and!; try done.
    all: by rewrite lookup_insert_ne.
Qed.

(** *** The environment of [frpc] *)

Lemma generateFrpcToml_effect (st : State) :
  ∃ r st' new,
    generateFrpcToml st = Ret r st'
    ∧ svc st' = svc st
    ∧ sameEnv (os st) (os st')
    ∧ trace (os st') = trace (os st) ++ new
    ∧ (∀ path, path ≠ tomlPathOf (os st) →
         files (os st') !! path = files (os st) !! path).
Proof.
  destruct st as [[m cf r f lm buf] w]. unfold tomlPathOf, sameEnv.
  run. destruct cf as [cfg|]; run_cbn.
  2:{ eexists _, _, []. split; [done|]. simpl. rewrite app_nil_r.
      split_and!; done. }
  destruct (toml_Marshal_map _) as [out|e]; run_cbn.
  2:{ eexists _, _, []. split; [done|]. simpl. rewrite app_nil_r.
      split_and!; done. }
  destruct (outcomes w) as [|[e|] rest] eqn:Ho; run_cbn.
  2: destruct (torn w) as [|[k|] tn] eqn:Ht; run_cbn.
  all: eexists _, _, [_]; (split; [done|]); simpl; split_and!; try done.
  all: intros path Hp; by rewrite lookup_insert_ne.
Qed.

(** X18: when both [frpc] and [frpc.toml] exist, [prepareFrpEnv] does
    nothing and returns the two paths: an executable that is in place is
    never overwritten from the embedded copy, and an existing runtime
    configuration is not regenerated here. *)
Theorem prepareFrpEnv_in_place (st : State) :
  is_Some (files (os st) !! frpcPathOf (os st)) →
  is_Some (files (os st) !! tomlPathOf (os st)) →
  prepareFrpEnv st = Ret (Ok (frpcPathOf (os st), tomlPathOf (os st))) st.
Proof.
  intros [bin Hbin] [toml Htoml].
  destruct st as [[m cf r f lm buf] [fs bn o tr nw zn np tk goos arch dir tn]].
  unfold frpcPathOf, tomlPathOf in *. simpl in *.
  run. rewrite Hbin. run_cbn. rewrite Htoml. run_cbn. done.
Qed.

(** What [prepareFrpEnv] does from its second step on, when [frpc.toml]
    is missing: the generation, whose result is dropped. *)
Lemma prepareFrpEnv_generates (s : State) (fp tp : string) :
  tp = tomlPathOf (os s) →
  fp ≠ tp →
  ∃ st',
    match
      match generateFrpcToml s with
      | Ret _ st'0 => Ret () st'0
      | Blocked st'0 => Blocked st'0
      end
    with
    | Ret _ st'1 => Ret (Ok (fp, tp)) st'1
    | Blocked st'1 => Blocked st'1
    end = Ret (Ok (fp, tp)) st'
    ∧ svc st' = svc s
    ∧ files (os st') !! fp = files (os s) !! fp
    ∧ ∃ rest, trace (os st') = trace (os s) ++ rest.
Proof.
  intros -> Hne.
  destruct (generateFrpcToml_effect s)
    as (r2 & s2 & new & Hg & Hs2 & _ & Htr & Hfr).
  rewrite Hg. eexists. split; [reflexivity|].
  split_and!; [done|by apply Hfr|by exists new].
Qed.

(** X19: when [frpc] is missing, the embedded file system has the
    binary [frpcMap] names for the architecture and the write succeeds,
    [prepareFrpEnv] writes the binary out first and returns the two
    paths; the executable on disk is then the embedded binary, byte for
    byte, whatever the generation of a missing [frpc.toml] did
    afterwards.  The service is unchanged. *)
Theorem prepareFrpEnv_extracts
    (st : State) (name : string) (data : list byte) :
  files (os st) !! frpcPathOf (os st) = None →
  frpcMap (GOOS (os st)) !! GOARCH (os st) = Some name →
  frpcBin (os st) !! name = Some data →
  outcomeAt 0 (outcomes (os st)) = None →
  ∃ st' rest,
    prepareFrpEnv st
    = Ret (Ok (frpcPathOf (os st), tomlPathOf (os st))) st'
    ∧ svc st' = svc st
    ∧ files (os st') !! frpcPathOf (os st) = Some data
    ∧ trace (os st')
      = trace (os st) ++ EvWriteFile (frpcPathOf (os st)) true :: rest.
Proof.
  intros Hbin Hname Hdata Ho.
  pose proof (frpcPath_ne_tomlPath (os st)) as Hne.
  destruct st as [[m cf r f lm buf] [fs bn o tr nw zn np tk goos arch dir tn]].
  unfold frpcPathOf, tomlPathOf, outcomeAt in *. simpl in *.
  unfold prepareFrpEnv, getFrpBinDir, os_Stat_IsNotExist, frpcBin_ReadFile,
    os_WriteFile, record, nextOutcome, nextTorn, getOs, modOs, mbind, mret,
    M_bind, M_ret.
  run_cbn. rewrite Hbin. run_cbn. rewrite Hname. run_cbn. unfold id.
  rewrite Hdata. run_cbn.
  set (fp := filepath_Join [filepath_Join [dir; "mole"; "bin"];
                            frpcTargetName goos]) in *.
  set (tp := filepath_Join [filepath_Join [dir; "mole"; "bin"];
                            "frpc.toml"]) in *.
  destruct o as [|[e|] rest]; simplify_eq/=; run_cbn.
  all: destruct (<[fp:=data]> fs !! tp) as [toml|] eqn:Htoml; run_cbn.
  1,3: eexists _, []; split; [reflexivity|]; simpl; split_and!; try done;
       by rewrite lookup_insert_eq.
  all: match goal with
       | |- context [generateFrpcToml ?s] =>
           destruct (prepareFrpEnv_generates s fp tp)
             as (st2 & Hg & Hs & Hf & rest' & Ht); [done|done|]
       end.
  all: simpl in Hs, Hf, Ht; rewrite lookup_insert_eq in Hf.
  all: exists st2, rest'; split; [exact Hg|]; split_and!; try done.
  all: by rewrite Ht, <- app_assoc.
Qed.

Lemma prepareFrpEnv_binary_present (s : State) (b : list byte) :
  files (os s) !! frpcPathOf (os s) = Some b →
  ∃ st', prepareFrpEnv s
         = Ret (Ok (frpcPathOf (os s), tomlPathOf (os s))) st'
    ∧ svc st' = svc s
    ∧ files (os st') !! frpcPathOf (os s) = Some b.
Proof.
  intros Hbin.
  pose proof (frpcPath_ne_tomlPath (os s)) as Hne.
  destruct s as [[m cf r f lm buf] [fs bn o tr nw zn np tk goos arch dir tn]].
  unfold frpcPathOf, tomlPathOf in *. simpl in *.
  unfold prepareFrpEnv, getFrpBinDir, os_Stat_IsNotExist, getOs, mbind, mret,
    M_bind, M_ret.
  run_cbn. rewrite Hbin. run_cbn.
  set (fp := filepath_Join [filepath_Join [dir; "mole"; "bin"];
                            frpcTargetName goos]) in *.
  set (tp := filepath_Join [filepath_Join [dir; "mole"; "bin"];
                            "frpc.toml"]) in *.
  destruct (fs !! tp) as [toml|] eqn:Htoml; run_cbn.
  - eexists. split; [reflexivity|]. done.
  - match goal with
    | |- context [generateFrpcToml ?s] =>
        destruct (prepareFrpEnv_generates s fp tp)
          as (st2 & Hg & Hs & Hf & rest' & Ht); [done|done|]
    end.
    simpl in Hf. exists st2. split; [exact Hg|]. split; [done|].
    by rewrite Hf.
Qed.

(** X26: a failed extraction is not repaired.  When [frpc] is missing
    and the write of the embedded binary fails after the file was
    created, [prepareFrpEnv] returns the error and leaves an executable
    that holds only the first bytes of the binary, nothing else having
    changed.  The next [prepareFrpEnv] finds a file at the path, does not
    extract again and returns the two paths, the truncated file still in
    place. *)
Theorem prepareFrpEnv_partial_binary
    (st : State) (name e : string) (data : list byte) (k : nat)
    (tn : list (option nat)) :
  files (os st) !! frpcPathOf (os st) = None →
  frpcMap (GOOS (os st)) !! GOARCH (os st) = Some name →
  frpcBin (os st) !! name = Some data →
  outcomeAt 0 (outcomes (os st)) = Some e →
  torn (os st) = Some k :: tn →
  ∃ st1 st2,
    prepareFrpEnv st = Ret (Err e) st1
    ∧ svc st1 = svc st
    ∧ files (os st1) = <[frpcPathOf (os st) := take k data]> (files (os st))
    ∧ trace (os st1)
      = trace (os st) ++ [EvWriteFile (frpcPathOf (os st)) false]
    ∧ prepareFrpEnv st1
      = Ret (Ok (frpcPathOf (os st), tomlPathOf (os st))) st2
    ∧ files (os st2) !! frpcPathOf (os st) = Some (take k data).
Proof.
  intros Hbin Hname Hdata Ho Htn.
  assert (Hfirst : ∃ st1,
    prepareFrpEnv st = Ret (Err e) st1
    ∧ svc st1 = svc st
    ∧ files (os st1) = <[frpcPathOf (os st) := take k data]> (files (os st))
    ∧ trace (os st1)
      = trace (os st) ++ [EvWriteFile (frpcPathOf (os st)) false]
    ∧ userConfigDir (os st1) = userConfigDir (os st)
    ∧ GOOS (os st1) = GOOS (os st)).
  { destruct st
      as [[m cf r f lm buf] [fs bn o tr nw zn np tk goos arch dir tn0]].
    unfold frpcPathOf, tomlPathOf, outcomeAt in *. simpl in *. subst tn0.
    run. rewrite Hbin. run_cbn. rewrite Hname. run_cbn. unfold id.
    rewrite Hdata. run_cbn.
    destruct o as [|[e0|] rest]; simplify_eq/=; run_cbn.
    eexists. split; [reflexivity|]. done. }
  destruct Hfirst as (st1 & H1 & Hs1 & Hf1 & Ht1 & Hdir & Hgoos).
  assert (Hfp : frpcPathOf (os st1) = frpcPathOf (os st)).
  { unfold frpcPathOf. by rewrite Hdir, Hgoos. }
  assert (Htp : tomlPathOf (os st1) = tomlPathOf (os st)).
  { unfold tomlPathOf. by rewrite Hdir. }
  destruct (prepareFrpEnv_binary_present st1 (take k data))
    as (st2 & H2 & _ & Hf2).
  { by rewrite Hfp, Hf1, lookup_insert_eq. }
  rewrite Hfp, Htp in H2. rewrite Hfp in Hf2.
  exists st1, st2. done.
Qed.

(** X20: on an architecture [frpcMap] has no entry for, the lookup gives
    the empty name, which the embedded file system does not have: with
    [frpc] missing, [prepareFrpEnv] fails with the error of the embedded
    read and changes nothing, and [startFrp] returns having done nothing
    at all: no write, no spawn, no event for the front end. *)
Theorem prepareFrpEnv_unsupported_arch (st : State) :
  files (os st) !! frpcPathOf (os st) = None →
  frpcMap (GOOS (os st)) !! GOARCH (os st) = None →
  frpcBin (os st) !! "" = None →
  prepareFrpEnv st = Ret (Err "open : file does not exist") st
  ∧ (mu (svc st) = false → isRunning (svc st) = false →
       startFrp st = Ret tt st).
Proof.
  intros Hbin Harch Hemb.
  assert (Hprep : ∀ s, os s = os st →
            prepareFrpEnv s = Ret (Err "open : file does not exist") s).
  { intros [sv w] Hw. simpl in Hw. subst w.
    destruct st as [sv0 [fs bn o tr nw zn np tk goos arch dir tn]].
    unfold frpcPathOf in *. simpl in *.
    run. rewrite Hbin. run_cbn. rewrite Harch. run_cbn. rewrite Hemb.
    by run_cbn. }
  split; [by apply Hprep|].
  intros Hmu Hrun.
  destruct (startFrp_prepare_fails st (locked st) "open : file does not exist")
    as [Hs _]; [done|done|by apply Hprep|].
  rewrite Hs. by destruct st.
Qed.

Lemma prepareFrpEnv_files (st : State) :
  ∃ r st', prepareFrpEnv st = Ret r st'
    ∧ ∀ path, path ≠ frpcPathOf (os st) → path ≠ tomlPathOf (os st) →
        files (os st') !! path = files (os st) !! path.
Proof.
  destruct st as [[m cf r f lm buf] [fs bn o tr nw zn np tk goos arch dir tn]].
  unfold frpcPathOf, tomlPathOf. simpl.
  unfold prepareFrpEnv, getFrpBinDir, os_Stat_IsNotExist, frpcBin_ReadFile,
    os_WriteFile, record, nextOutcome, nextTorn, getOs, modOs, mbind, mret,
    M_bind,
    M_ret.
  run_cbn.
  set (fp := filepath_Join [filepath_Join [dir; "mole"; "bin"];
                            frpcTargetName goos]) in *.
  set (tp := filepath_Join [filepath_Join [dir; "mole"; "bin"];
                            "frpc.toml"]) in *.
  assert (Hgen : ∀ s,
    userConfigDir (os s) = dir →
    (∀ path, path ≠ fp → path ≠ tp → files (os s) !! path = fs !! path) →
    ∃ res st',
      match
        match generateFrpcToml s with
        | Ret _ st'0 => Ret () st'0
        | Blocked st'0 => Blocked st'0
        end
      with
      | Ret _ st'1 => Ret (Ok (fp, tp)) st'1
      | Blocked st'1 => Blocked st'1
      end = Ret res st'
      ∧ ∀ path, path ≠ fp → path ≠ tp → files (os st') !! path = fs !! path).
  { intros s Hdir Hfile.
    destruct (generateFrpcToml_effect s)
      as (r2 & s2 & new & Hg & _ & _ & _ & Hfr).
    rewrite Hg. eexists _, _. split; [reflexivity|].
    intros path H1 H2. rewrite Hfr; [by apply Hfile|].
    unfold tomlPathOf. by rewrite Hdir. }
  destruct (fs !! fp) as [binary|] eqn:Hbin; run_cbn.
  - destruct (fs !! tp) as [toml|] eqn:Htoml; run_cbn.
    + by eexists _, _.
    + match goal with |- context [generateFrpcToml ?s] =>
        destruct (Hgen s) as (r2 & st2 & Hg & Hf); [done|done|] end.
      by eexists _, _.
  - destruct (bn !! _) as [data|] eqn:Hemb; run_cbn; [|by eexists _, _].
    destruct o as [|[e|] rest]; run_cbn.
    2:{ destruct tn as [|[k|] tn]; run_cbn.
        all: eexists _, _; split; [reflexivity|]; simpl; try done.
        intros path H1 H2. by rewrite lookup_insert_ne. }
    all: destruct (<[fp:=data]> fs !! tp) as [toml|] eqn:Htoml; run_cbn.
    1,3: eexists _, _; split; [reflexivity|]; simpl;
         intros path H1 H2; by rewrite lookup_insert_ne.
    all: match goal with |- context [generateFrpcToml ?s] =>
           destruct (Hgen s) as (r2 & st2 & Hg & Hf);
             [done|simpl; intros path H1 H2; by rewrite lookup_insert_ne|]
         end.
    all: by eexists _, _.
Qed.

(** X21: whatever [startFrp] does on a free lock, whether it returns or
    blocks, it leaves the configuration and the log buffer of the
    service alone and changes no file other than the [frpc] executable
    and [frpc.toml]; [config.toml] in particular is as it was. *)
Theorem startFrp_frame (st : State) :
  mu (svc st) = false →
  ∃ st', (startFrp st = Ret tt st' ∨ startFrp st = Blocked st')
    ∧ config (svc st') = config (svc st)
    ∧ logBuffer (svc st') = logBuffer (svc st)
    ∧ (∀ path, path ≠ frpcPathOf (os st) → path ≠ tomlPathOf (os st) →
         files (os st') !! path = files (os st) !! path)
    ∧ files (os st') !! configPathOf (os st)
      = files (os st) !! configPathOf (os st).
Proof.
  intros Hmu.
  assert (Hcfgpath : ∀ st' : State,
    (∀ path, path ≠ frpcPathOf (os st) → path ≠ tomlPathOf (os st) →
       files (os st') !! path = files (os st) !! path) →
    files (os st') !! configPathOf (os st)
    = files (os st) !! configPathOf (os st)).
  { intros st' Hfr. apply Hfr.
    - intros Heq. by apply (frpcPath_ne_configPath (os st)).
    - intros Heq. by apply (tomlPath_ne_configPath (os st)). }
  cut (∃ st', (startFrp st = Ret tt st' ∨ startFrp st = Blocked st')
    ∧ config (svc st') = config (svc st)
    ∧ logBuffer (svc st') = logBuffer (svc st)
    ∧ (∀ path, path ≠ frpcPathOf (os st) → path ≠ tomlPathOf (os st) →
         files (os st') !! path = files (os st) !! path)).
  { intros (st' & Hs & Hc & Hl & Hf). exists st'. split_and!; try done.
    by apply Hcfgpath. }
  clear Hcfgpath.
  destruct st as [[m cf r f lm buf] w]. simpl in *. subst m.
  unfold_start. run_cbn.
  destruct r; run_cbn.
  { eexists. split; [by left|]. done. }
  match goal with |- context [prepareFrpEnv ?s] =>
    destruct (prepareFrpEnv_spec s)
      as (r1 & [s1 w1] & new1 & Hp & Hs1 & He1 & _);
    destruct (prepareFrpEnv_files s) as (r1' & s1' & Hp' & Hf1)
  end.
  rewrite Hp in Hp'. injection Hp' as <- <-.
  rewrite Hp. simpl in Hs1, He1, Hf1. subst s1.
  destruct r1 as [[fp tp]|e]; run_cbn.
  2:{ eexists. split; [by left|]. done. }
  match goal with |- context [generateFrpcToml ?s] =>
    destruct (generateFrpcToml_effect s)
      as (r2 & [s2 w2] & new2 & Hg & Hs2 & _ & _ & Hf2)
  end.
  rewrite Hg. simpl in Hs2, Hf2. subst s2.
  rewrite (tomlPathOf_sameEnv _ _ He1) in Hf2.
  assert (Hf : ∀ path, path ≠ frpcPathOf w → path ≠ tomlPathOf w →
            files w2 !! path = files w !! path).
  { intros path H1 H2. rewrite Hf2 by done. by apply Hf1. }
  clear Hf1 Hf2 Hp Hg.
  destruct w2 as [fs2 bin2 o2 tr2 nw2 zn2 np2 tk2 goos2 arch2 dir2 tn2].
  simpl in Hf.
  destruct r2 as [e|]; run_cbn.
  { eexists. split; [by left|]. done. }
  destruct f as [[pa ar [pid|]]|]; run_cbn.
  { eexists. split; [by right|]. done. }
  all: destruct o2 as [|[e|] rest]; run_cbn.
  all: eexists; (split; [by left|]); done.
Qed.

(** *** Startup and status *)

Lemma GetStatus_returns (st : State) :
  mu (svc st) = false →
  GetStatus st
  = Ret {| Success := true; IsRunning := isRunning (svc st);
           Config := config (svc st);
           Message := if isRunning (svc st) then "FRP 服务正在运行中"
                      else match config (svc st) with
                           | None => "尚未完成基础配置"
                           | Some _ => "服务待命中"
                           end |} st.
Proof.
  destruct st as [[m cf r f lm buf] w]. simpl. intros ->. run_more.
  destruct r; run_cbn; [done|]. by destruct cf.
Qed.

Lemma initTask_returns (w : World) :
  ∃ st', initTask {| svc := NewMoleService; os := w |} = Ret tt st'
    ∧ mu (svc st') = false.
Proof.
  destruct w as [fs bn o tr nw zn np tk goos arch dir tn].
  unfold_init. run_cbn.
  destruct (fs !! _) as [data|] eqn:Hd; run_cbn; rewrite ?Hd; run_cbn.
  2: by eexists.
  destruct o as [|[e|] rest]; run_cbn.
  2: by eexists.
  all: destruct (toml_Unmarshal_UserConfig data) as [cfg|e'] eqn:Hdec; run_cbn.
  2,4: by eexists.
  all: destruct (AutoStart (Server cfg)); run_cbn; [|by eexists].
  all: match goal with |- context [startFrp ?s] =>
         destruct (startFrp_returns s) as [st' Hs]; [done|done|];
         destruct (startFrp_returned s st') as (_ & _ & _ & _ & _ & Hmu);
           [done|done|done|]
       end.
  all: rewrite Hs; by eexists.
Qed.

(** X22: on every machine, whatever is on its disk and whichever of its
    system calls fail, the startup goroutine of a new service runs to
    its end and closes [initWait], with the lock free.  [GetStatus]
    blocks before that and returns after it, reporting the running flag
    and the configuration of the service, which it does not change. *)
Theorem ServiceStartup_closes_initWait (w : World) :
  let a := ServiceStartup (boot w) in
  App_GetStatus (boot w) = Blocked (appState (boot w))
  ∧ initWait a = true
  ∧ mu (svc (appState a)) = false
  ∧ ∃ r, App_GetStatus a = Ret r (appState a)
      ∧ Success r = true
      ∧ IsRunning r = isRunning (svc (appState a))
      ∧ Config r = config (svc (appState a)).
Proof.
  intros a. subst a. split; [done|].
  destruct (initTask_returns w) as (st' & Hi & Hmu).
  unfold ServiceStartup, boot. simpl. rewrite Hi. simpl.
  split; [done|]. split; [done|].
  eexists. unfold App_GetStatus. simpl.
  rewrite GetStatus_returns by done. done.
Qed.

(** X23: the startup starts the tunnel only for a stored configuration
    that asks for it.  When [config.toml] is missing or unreadable, does
    not parse, or parses to a configuration whose auto-start flag is
    off, the startup writes no file, publishes nothing, creates no
    ticker and leaves the supervisor not running with no handle. *)
Theorem ServiceStartup_without_autostart (w : World) :
  (∀ data cfg,
     files w !! configPathOf w = Some data →
     toml_Unmarshal_UserConfig data = Ok cfg →
     AutoStart (Server cfg) = false) →
  let st := appState (ServiceStartup (boot w)) in
  files (os st) = files w
  ∧ trace (os st) = trace w
  ∧ tickers (os st) = tickers w
  ∧ isRunning (svc st) = false
  ∧ frpCmd (svc st) = None.
Proof.
  intros Hno st. subst st.
  destruct w as [fs bn o tr nw zn np tk goos arch dir tn].
  unfold configPathOf in Hno. simpl in Hno.
  unfold ServiceStartup, boot. cbn [appState initWait].
  unfold_init. run_cbn.
  destruct (fs !! _) as [data|] eqn:Hd; run_cbn; rewrite ?Hd; run_cbn.
  2: by simpl.
  destruct o as [|[e|] rest]; run_cbn.
  2: by simpl.
  all: destruct (toml_Unmarshal_UserConfig data) as [cfg|e'] eqn:Hdec; run_cbn.
  2,4: by simpl.
  all: rewrite (Hno data cfg) by done; run_cbn; by simpl.
Qed.

(** X24: when [config.toml] parses to a configuration with the
    auto-start flag on, [frpc] is in place and nothing fails, the
    startup loads the configuration and starts the tunnel: at its end
    [initWait] is closed, the loaded configuration is the current one,
    the running flag is set, the handle is the command
    [frpc -c <dir>/frpc.toml] with the process just spawned, and the
    trace gained writes of files, the spawn and the "start" status. *)
Theorem ServiceStartup_autostart
    (w : World) (data out : list byte) (cfg : UserConfig) :
  files w !! configPathOf w = Some data →
  toml_Unmarshal_UserConfig data = Ok cfg →
  AutoStart (Server cfg) = true →
  toml_Marshal_map (Generator.buildRunCfg cfg) = Ok out →
  is_Some (files w !! frpcPathOf w) →
  outcomes w = [] →
  let a := ServiceStartup (boot w) in
  initWait a = true
  ∧ config (svc (appState a)) = Some cfg
  ∧ isRunning (svc (appState a)) = true
  ∧ frpCmd (svc (appState a))
    = Some (mkCmd (frpcPathOf w) ["-c"; tomlPathOf w] (Some (nextPid w)))
  ∧ ∃ pre, forallb Trace.isWrite pre = true
      ∧ trace (os (appState a))
        = trace w ++ pre ++
          [EvStart (frpcPathOf w) ["-c"; tomlPathOf w] (Some (nextPid w));
           EvEmit "frp-status" (PStatus "start")].
Proof.
  intros Hd Hdec Hauto Hout [bin Hbin] Ho a. subst a.
  destruct w as [fs bn o tr nw zn np tk goos arch dir tn].
  unfold configPathOf, frpcPathOf, tomlPathOf in *. simpl in *. subst o.
  unfold ServiceStartup, boot. cbn [appState initWait].
  unfold NewMoleService. run_more. rewrite Hd. run_cbn.
  rewrite ?Hd. run_cbn. rewrite Hdec. run_cbn. rewrite Hauto. run_cbn.
  rewrite Hbin. run_cbn.
  destruct (fs !! filepath_Join [_; "frpc.toml"]) as [toml|] eqn:Htoml;
    run_cbn; rewrite Hout; run_cbn; rewrite ?Hout; run_cbn.
  all: cbn [appState initWait]; run_cbn.
  all: split_and!; try done.
  - eexists [_]. rewrite <- !app_assoc. simpl. split; [|reflexivity]. done.
  - eexists [_; _]. rewrite <- !app_assoc. simpl. split; [|reflexivity]. done.
Qed.

(** *** The log buffer under any schedule *)

Lemma flushTake_run (st : State) :
  logMu (svc st) = false →
  flushTake st
  = Ret (logBuffer (svc st))
      {| svc := set_logBuffer [] (svc st); os := os st |}.
Proof.
  destruct st as [[m c r f lm buf] w]. simpl. intros ->.
  unfold flushTake. run. destruct buf; by run_cbn.
Qed.

Lemma emitLog_run (logs : list string) (st : State) :
  emitLog logs st
  = Ret tt {| svc := svc st;
              os := match logs with
                    | [] => os st
                    | _ :: _ =>
                        set_trace (trace (os st)
                                   ++ [EvEmit "frp-logs" (PLogs logs)]) (os st)
                    end |}.
Proof. destruct st as [s w]. run. destruct logs; by run_cbn. Qed.

(** [flushLogs] is the two steps, one after the other. *)
Lemma flushLogs_two_steps (st : State) :
  logMu (svc st) = false →
  flushLogs st = (logs ← flushTake; emitLog logs) st.
Proof.
  intros Hm. rewrite flushLogs_run by done.
  unfold mbind, M_bind. rewrite flushTake_run by done.
  rewrite emitLog_run. simpl. by destruct st as [[m c r f lm buf] w].
Qed.

Lemma held_insert (g : nat) (logs : list string) (p : gmap nat (list string)) :
  p !! g = None → Trace.held (<[g := logs]> p) ≡ₚ logs ++ Trace.held p.
Proof.
  intros Hg. unfold Trace.held.
  rewrite (map_to_list_insert p g logs Hg). done.
Qed.

Lemma held_delete (g : nat) (logs : list string) (p : gmap nat (list string)) :
  p !! g = Some logs → Trace.held p ≡ₚ logs ++ Trace.held (delete g p).
Proof.
  intros Hg. unfold Trace.held.
  rewrite <- (map_to_list_delete p g logs Hg). done.
Qed.

Lemma held_empty : Trace.held ∅ = [].
Proof. unfold Trace.held. by rewrite map_to_list_empty. Qed.

Lemma logSchedule_perm (steps : list LogStep) :
  ∀ (p : gmap nat (list string)) (st : State),
  logMu (svc st) = false →
  map_Forall (λ _ l, l ≠ []) p →
  ∃ st' p' new,
    logSchedule steps p st = Ret p' st'
    ∧ trace (os st') = trace (os st) ++ new
    ∧ concat (Trace.batches new) ++ Trace.held p' ++ logBuffer (svc st')
      ≡ₚ Trace.held p ++ logBuffer (svc st) ++ Trace.scanned steps
    ∧ Forall (λ b, b ≠ []) (Trace.batches new)
    ∧ length (Trace.batches new) = length new
    ∧ logMu (svc st') = false.
Proof.
  induction steps as [|[line|g|g] steps IH]; intros p st Hm Hp.
  - exists st, p, []. cbn. rewrite !app_nil_r. done.
  - cbn [logSchedule]. unfold mbind at 1, M_bind.
    rewrite readLog_appends by done.
    match goal with |- context [logSchedule steps p ?s] =>
      destruct (IH p s) as (st' & p' & new & Hr & Ht & Hc & Hne & Hl & Hm');
        [by destruct st as [[] ?]|done|]
    end.
    rewrite Hr. exists st', p', new. split; [done|].
    destruct st as [[m c r f lm buf] w]. simpl in *.
    split_and!; try done.
    rewrite Hc. unfold Trace.scanned. cbn. by rewrite <- !app_assoc.
  - cbn [logSchedule]. destruct (p !! g) as [l|] eqn:Hg.
    + destruct (IH p st) as (st' & p' & new & Hr & Ht & Hc & Hne & Hl & Hm');
        [done|done|].
      exists st', p', new. split_and!; try done.
    + unfold mbind at 1, M_bind. rewrite flushTake_run by done.
      assert (Hsc : Trace.scanned (Take g :: steps) = Trace.scanned steps)
        by done.
      rewrite Hsc.
      destruct st as [[m c r f lm buf] w]. simpl in Hm. subst lm.
      cbn [svc os logBuffer set_logBuffer].
      destruct buf as [|l buf]; cbn [length Nat.eqb].
      * match goal with |- context [logSchedule steps p ?s] =>
          destruct (IH p s)
            as (st' & p' & new & Hr & Ht & Hc & Hne & Hl & Hm'); [done|done|]
        end.
        exists st', p', new. split_and!; try done.
      * set (b := l :: buf). assert (Hb : b ≠ []) by done. clearbody b.
        match goal with |- context [logSchedule steps ?q ?s] =>
          destruct (IH q s)
            as (st' & p' & new & Hr & Ht & Hc & Hne & Hl & Hm'); [done| |]
        end.
        { by apply map_Forall_insert_2. }
        exists st', p', new. split_and!; try done.
        cbn [svc logBuffer app] in Hc. rewrite Hc, held_insert by done.
        rewrite (app_assoc (Trace.held p)).
        apply Permutation_app_tail, Permutation_app_comm.
  - cbn [logSchedule]. destruct (p !! g) as [l|] eqn:Hg.
    + unfold mbind at 1, M_bind. rewrite emitLog_run.
      assert (Hsc : Trace.scanned (Publish g :: steps) = Trace.scanned steps)
        by done.
      rewrite Hsc.
      assert (Hl0 : l ≠ []) by (by apply (Hp g)).
      destruct st as [[m c r f lm buf] w]. simpl in Hm. subst lm.
      cbn [svc os].
      assert (Hw : match l with
                   | [] => w
                   | _ :: _ =>
                       set_trace (trace w ++ [EvEmit "frp-logs" (PLogs l)]) w
                   end
                   = set_trace (trace w ++ [EvEmit "frp-logs" (PLogs l)]) w)
        by (by destruct l).
      rewrite Hw.
      match goal with |- context [logSchedule steps ?q ?s] =>
        destruct (IH q s)
          as (st' & p' & new & Hr & Ht & Hc & Hne & Hl & Hm'); [done| |]
      end.
      { by apply map_Forall_delete. }
      exists st', p', (EvEmit "frp-logs" (PLogs l) :: new).
      cbn [svc os trace set_trace logBuffer] in *.
      split; [done|]. split; [by rewrite Ht, <- app_assoc|].
      assert (Hbt : Trace.batches (EvEmit "frp-logs" (PLogs l) :: new)
                    = l :: Trace.batches new) by done.
      rewrite Hbt. cbn [concat length]. split_and!; try done.
      * rewrite <- app_assoc, Hc, (held_delete g l p Hg).
        by rewrite <- app_assoc.
      * by constructor.
      * by rewrite Hl.
    + destruct (IH p st) as (st' & p' & new & Hr & Ht & Hc & Hne & Hl & Hm');
        [done|done|].
      exists st', p', new. split_and!; try done.
Qed.

Lemma logSchedule_ordered (g : nat) (steps : list LogStep) :
  ∀ (p : gmap nat (list string)) (st : State),
  logMu (svc st) = false →
  Trace.onlyFlusher g steps →
  ∃ st' p' new,
    logSchedule steps p st = Ret p' st'
    ∧ trace (os st') = trace (os st) ++ new
    ∧ concat (Trace.batches new) ++ default [] (p' !! g)
        ++ logBuffer (svc st')
      = default [] (p !! g) ++ logBuffer (svc st) ++ Trace.scanned steps.
Proof.
  induction steps as [|[line|g'|g'] steps IH]; intros p st Hm Honly.
  - exists st, p, []. cbn. by rewrite !app_nil_r.
  - apply Forall_cons in Honly as [_ Honly].
    cbn [logSchedule]. unfold mbind at 1, M_bind.
    rewrite readLog_appends by done.
    match goal with |- context [logSchedule steps p ?s] =>
      destruct (IH p s) as (st' & p' & new & Hr & Ht & Hc);
        [by destruct st as [[] ?]|done|]
    end.
    rewrite Hr. exists st', p', new. split; [done|].
    destruct st as [[m c r f lm buf] w]. simpl in *.
    split; [done|]. rewrite Hc. unfold Trace.scanned. cbn.
    by rewrite <- !app_assoc.
  - apply Forall_cons in Honly as [-> Honly].
    assert (Hsc : Trace.scanned (Take g :: steps) = Trace.scanned steps)
      by done.
    rewrite Hsc.
    cbn [logSchedule]. destruct (p !! g) as [l|] eqn:Hg.
    + destruct (IH p st) as (st' & p' & new & Hr & Ht & Hc); [done|done|].
      exists st', p', new. rewrite Hg in Hc. done.
    + unfold mbind at 1, M_bind. rewrite flushTake_run by done.
      destruct st as [[m c r f lm buf] w]. simpl in Hm. subst lm.
      cbn [svc os logBuffer set_logBuffer default from_option].
      destruct buf as [|l buf]; cbn [length Nat.eqb].
      * match goal with |- context [logSchedule steps p ?s] =>
          destruct (IH p s) as (st' & p' & new & Hr & Ht & Hc); [done|done|]
        end.
        exists st', p', new. rewrite Hg in Hc. done.
      * match goal with |- context [logSchedule steps ?q ?s] =>
          destruct (IH q s) as (st' & p' & new & Hr & Ht & Hc); [done|done|]
        end.
        exists st', p', new. rewrite lookup_insert_eq in Hc.
        cbn [svc logBuffer default from_option id app] in Hc.
        split_and!; done.
  - apply Forall_cons in Honly as [-> Honly].
    assert (Hsc : Trace.scanned (Publish g :: steps) = Trace.scanned steps)
      by done.
    rewrite Hsc.
    cbn [logSchedule]. destruct (p !! g) as [l|] eqn:Hg.
    + unfold mbind at 1, M_bind. rewrite emitLog_run.
      destruct st as [[m c r f lm buf] w]. simpl in Hm. subst lm.
      cbn [svc os default from_option id].
      destruct l as [|x l].
      * match goal with |- context [logSchedule steps ?q ?s] =>
          destruct (IH q s) as (st' & p' & new & Hr & Ht & Hc); [done|done|]
        end.
        exists st', p', new. rewrite lookup_delete_eq in Hc.
        split_and!; done.
      * match goal with |- context [logSchedule steps ?q ?s] =>
          destruct (IH q s) as (st' & p' & new & Hr & Ht & Hc); [done|done|]
        end.
        exists st', p', (EvEmit "frp-logs" (PLogs (x :: l)) :: new).
        rewrite lookup_delete_eq in Hc.
        cbn [svc os trace set_trace logBuffer default from_option app] in *.
        split; [done|]. split; [by rewrite Ht, <- app_assoc|].
        assert (Hbt : Trace.batches (EvEmit "frp-logs" (PLogs (x :: l)) :: new)
                      = (x :: l) :: Trace.batches new) by done.
        rewrite Hbt. cbn [concat]. rewrite <- app_assoc. by rewrite Hc.
    + destruct (IH p st) as (st' & p' & new & Hr & Ht & Hc); [done|done|].
      exists st', p', new. rewrite Hg in Hc. done.
Qed.

(** X25: however the scans of the readers and the two steps of the
    flushes of any number of ticker goroutines interleave, no line is
    lost or duplicated: the lines of the published batches, of the
    batches taken and not yet published and of the buffer are, up to
    order, the lines that were in the buffer at the start and the lines
    scanned.  Nothing but log batches is published and no batch is
    empty.  When a single ticker goroutine flushes, the order is kept as
    well: the batches in order of publication, then the pending batch,
    then the buffer, are the initial lines followed by the scanned lines
    in scan order. *)
Theorem logSchedule_conserves_lines (steps : list LogStep) (st : State) :
  logMu (svc st) = false →
  ∃ st' pending new,
    logSchedule steps ∅ st = Ret pending st'
    ∧ trace (os st') = trace (os st) ++ new
    ∧ concat (Trace.batches new) ++ Trace.held pending
        ++ logBuffer (svc st')
      ≡ₚ logBuffer (svc st) ++ Trace.scanned steps
    ∧ Forall (λ b, b ≠ []) (Trace.batches new)
    ∧ length (Trace.batches new) = length new
    ∧ (∀ g, Trace.onlyFlusher g steps →
         concat (Trace.batches new) ++ default [] (pending !! g)
           ++ logBuffer (svc st')
         = logBuffer (svc st) ++ Trace.scanned steps).
Proof.
  intros Hm.
  destruct (logSchedule_perm steps ∅ st Hm)
    as (st' & p' & new & Hr & Ht & Hc & Hne & Hl & _).
  { apply map_Forall_empty. }
  exists st', p', new. rewrite held_empty in Hc.
  split_and!; try done.
  intros g Honly.
  destruct (logSchedule_ordered g steps ∅ st Hm Honly)
    as (st2 & p2 & new2 & Hr2 & Ht2 & Hc2).
  rewrite Hr in Hr2. injection Hr2 as <- <-.
  rewrite Ht in Ht2. apply app_inv_head in Ht2. subst new2.
  by rewrite lookup_empty in Hc2.
Qed.

End SupervisorFacts.

(** * The sample installation at work *)

Section SampleRuns.
Import Service Sample.

Lemma generate_type_fields_witness :
  Generator.enabledRules cfg !! 0%nat = Some web
  ∧ ∃ item, Generator.runProxies (Generator.buildRunCfg cfg) !! 0%nat = Some item
      ∧ (ProxyType web = "http" →
           item !! "customDomains" = Some (AStrings (Domains web))
           ∧ item !! "remotePort" = None)
      ∧ (ProxyType web = "tcp" ∨ ProxyType web = "udp" →
           item !! "remotePort" = Some (AInt (RemotePort web))
           ∧ item !! "customDomains" = None).
Proof.
  split; [reflexivity|].
  apply (generate_type_fields cfg 0 web). reflexivity.
Defined.

Lemma generate_localIP_verbatim_witness :
  Generator.enabledRules cfg !! 1%nat = Some ssh
  ∧ ∃ item, Generator.runProxies (Generator.buildRunCfg cfg) !! 1%nat = Some item
      ∧ item !! "localIP" = Some (AString (LocalIP ssh))
      ∧ (LocalIP ssh = "" →
           item !! "localIP" ≠ Some (AString Generator.loopback)).
Proof.
  split; [reflexivity|].
  apply (generate_localIP_verbatim cfg 1 ssh). reflexivity.
Defined.

(** The scenario behind [disconnected]: a start, then a [Disconnect]
    that kills the subprocess. *)
Example disconnected_reached :
  startFrp atRest = Ret tt started
  ∧ isRunning (svc started) = true
  ∧ Disconnect started
    = Ret {| Success := true; IsRunning := false; Config := None;
             Message := "服务已断开" |} disconnected
  ∧ isRunning (svc disconnected) = false
  ∧ frpCmd (svc disconnected)
    = Some (mkCmd (binDir +:+ "/frpc") ["-c"; binDir +:+ "/frpc.toml"]
              (Some 4242)).
Proof. vm_compute. done. Qed.

Lemma startFrp_blocks_witness :
  ∃ st', startFrp disconnected = Blocked st'
    ∧ mu (svc st') = true
    ∧ isRunning (svc st') = false
    ∧ frpCmd (svc st')
      = Some (mkCmd (binDir +:+ "/frpc") ["-c"; binDir +:+ "/frpc.toml"]
                (Some 4242))
    ∧ ∃ new, trace (os st') = trace (os disconnected) ++ new
             ∧ forallb Trace.isWrite new = true.
Proof.
  apply (startFrp_blocks_on_tracked_process disconnected _ 4242 cfg
           (encNat 4) [x7f; x45; x4c; x46]); reflexivity.
Defined.

Lemma startFrp_spawns_after_dropped_error_witness :
  files (os flakyDisk) !! tomlPathOf (os flakyDisk) = None
  ∧ outcomes (os flakyDisk) = [Some "no space left on device"]
  ∧ ∃ st',
      startFrp flakyDisk = Ret tt st'
      ∧ isRunning (svc st') = true
      ∧ frpCmd (svc st')
        = Some (mkCmd (binDir +:+ "/frpc") ["-c"; binDir +:+ "/frpc.toml"]
                  (Some 4242))
      ∧ trace (os st')
        = [EvWriteFile (binDir +:+ "/frpc.toml") false;
           EvWriteFile (binDir +:+ "/frpc.toml") true;
           EvStart (binDir +:+ "/frpc") ["-c"; binDir +:+ "/frpc.toml"]
             (Some 4242);
           EvEmit "frp-status" (PStatus "start")]
      ∧ Trace.noSpawnAfterFailedWrite (tomlPathOf (os flakyDisk))
          [EvWriteFile (binDir +:+ "/frpc.toml") false;
           EvWriteFile (binDir +:+ "/frpc.toml") true;
           EvStart (binDir +:+ "/frpc") ["-c"; binDir +:+ "/frpc.toml"]
             (Some 4242);
           EvEmit "frp-status" (PStatus "start")] = false.
Proof.
  split; [reflexivity|]. split; [reflexivity|].
  apply (startFrp_spawns_after_dropped_error cfg (encNat 4)
           "no space left on device" flakyDisk); try reflexivity.
  vm_compute. eauto.
Defined.

(** The failed spawn itself: the write, the attempt, the log line; the
    flag stays false and the command has no process. *)
Example spawn_failure_run :
  ∃ st', startFrp spawnFails = Ret tt st'
    ∧ isRunning (svc st') = false
    ∧ frpCmd (svc st')
      = Some (mkCmd (binDir +:+ "/frpc") ["-c"; binDir +:+ "/frpc.toml"] None)
    ∧ trace (os st')
      = [EvWriteFile (binDir +:+ "/frpc.toml") true;
         EvStart (binDir +:+ "/frpc") ["-c"; binDir +:+ "/frpc.toml"] None;
         EvEmit "frp-logs"
           (PLogs ["frpc 进程启动失败："; "fork/exec: permission denied"])].
Proof. eexists. vm_compute. done. Qed.

Lemma stopFrp_clears_flag_unconfirmed_witness :
  isRunning (svc killFails) = true
  ∧ outcomeAt 0 (outcomes (os killFails)) = Some "operation not permitted"
  ∧ (∃ st', stopFrp killFails = Ret tt st'
       ∧ isRunning (svc st') = false
       ∧ frpCmd (svc st')
         = Some (mkCmd (binDir +:+ "/frpc") ["-c"; binDir +:+ "/frpc.toml"]
                   (Some 4242))
       ∧ trace (os st')
         = trace (os killFails) ++ [EvRun "kill" ["-9"; "4242"] false])
  ∧ (∃ r st', Disconnect killFails = Ret r st'
       ∧ Success r = false
       ∧ Message r = "停止进程失败: " +:+ "operation not permitted"
       ∧ isRunning (svc st') = true
       ∧ trace (os st') = trace (os killFails) ++ [EvKill 4242 false]).
Proof.
  split; [reflexivity|]. split; [reflexivity|].
  apply (stopFrp_clears_flag_unconfirmed killFails
           (mkCmd (binDir +:+ "/frpc") ["-c"; binDir +:+ "/frpc.toml"]
              (Some 4242)) 4242 "operation not permitted"); reflexivity.
Defined.

Lemma Disconnect_kill_failure_witness :
  isRunning (svc killFails) = true
  ∧ ∃ r st', Disconnect killFails = Ret r st'
    ∧ (∀ e, outcomeAt 0 (outcomes (os killFails)) = Some e →
         r = {| Success := false; IsRunning := true; Config := None;
                Message := "停止进程失败: " +:+ e |}
         ∧ svc st' = svc killFails
         ∧ isRunning (svc st') = true
         ∧ trace (os st') = trace (os killFails) ++ [EvKill 4242 false])
    ∧ (isRunning (svc st') = false →
         outcomeAt 0 (outcomes (os killFails)) = None
         ∧ Success r = true
         ∧ trace (os st')
           = trace (os killFails) ++
             [EvKill 4242 true;
              EvEmit "frp-logs" (PLogs ["用户手动断开连接"])]).
Proof.
  split; [reflexivity|].
  apply (Disconnect_kill_failure killFails
           (mkCmd (binDir +:+ "/frpc") ["-c"; binDir +:+ "/frpc.toml"]
              (Some 4242)) 4242); reflexivity.
Defined.

Lemma starts_leak_tickers_witness :
  idle cfg atRest
  ∧ ∃ st', startExitCycles 2 atRest = Ret tt st'
      ∧ tickers (os st') = (tickers (os atRest) + 2)%nat
      ∧ idle cfg st'.
Proof.
  assert (Hidle : idle cfg atRest).
  { repeat split; try reflexivity. vm_compute. eauto. }
  split; [exact Hidle|].
  apply (starts_leak_tickers 2 cfg (encNat 4) atRest); [reflexivity|exact Hidle].
Defined.

Lemma flush_tick_batch_witness :
  logMu (svc buffered) = false
  ∧ ∃ st0 st1 st2,
      flushLogs buffered = Ret tt st0
      ∧ logBuffer (svc st0) = []
      ∧ trace (os st0)
        = trace (os buffered) ++
          match logBuffer (svc buffered) with
          | [] => []
          | _ :: _ => [EvEmit "frp-logs" (PLogs (logBuffer (svc buffered)))]
          end
      ∧ readLog ["[I] proxy added"] st0 = Ret tt st1
      ∧ flushLogs st1 = Ret tt st2
      ∧ logBuffer (svc st2) = []
      ∧ trace (os st2)
        = trace (os st0) ++ [EvEmit "frp-logs" (PLogs ["[I] proxy added"])].
Proof.
  split; [reflexivity|].
  apply (flush_tick_batch buffered ["[I] proxy added"]). reflexivity.
Defined.

Lemma SaveUserConfig_not_atomic_witness :
  let saved := stamped cfg (zone (os halfFullDisk)) (now (os halfFullDisk)) in
  mu (svc halfFullDisk) = false
  ∧ ∃ e st', SaveUserConfig cfg halfFullDisk = Ret (Some e) st'
      ∧ config (svc st') = Some saved
      ∧ files (os st') !! configPathOf (os halfFullDisk)
        = Some (encConfig saved)
      ∧ mu (svc st') = false.
Proof.
  split; [reflexivity|].
  apply (SaveUserConfig_not_atomic cfg halfFullDisk); try reflexivity.
  right. exists (encNat 4), "no space left on device". split; reflexivity.
Defined.


End SampleRuns.


(** * More runs of the sample installation *)

Section MoreSampleRuns.
Import Service Sample.

Lemma generate_entry_fields_witness :
  Generator.proxyItem ssh
    ∈ Generator.runProxies (Generator.buildRunCfg cfg)
  ∧ ∃ p, p ∈ Proxies cfg ∧ Enabled p = true
      ∧ Generator.proxyItem ssh !! "name" = Some (AString (Name p))
      ∧ Generator.proxyItem ssh !! "type" = Some (AString (ProxyType p))
      ∧ Generator.proxyItem ssh !! "localIP" = Some (AString (LocalIP p))
      ∧ Generator.proxyItem ssh !! "localPort" = Some (AInt (LocalPort p))
      ∧ dom (Generator.proxyItem ssh)
        = ({["name"; "type"; "localIP"; "localPort";
             if String.eqb (ProxyType p) "http" then "customDomains"
             else "remotePort"]} : gset string)
      ∧ (ProxyType p ≠ "http" →
           Generator.proxyItem ssh !! "remotePort"
           = Some (AInt (RemotePort p))
           ∧ Generator.proxyItem ssh !! "customDomains" = None).
Proof.
  assert (Hin : Generator.proxyItem ssh
                  ∈ Generator.runProxies (Generator.buildRunCfg cfg)).
  { apply list_elem_of_lookup_2 with 1%nat. reflexivity. }
  split; [exact Hin|].
  apply (generate_entry_fields cfg (Generator.proxyItem ssh) Hin).
Defined.

(** An edit of [cfg] that the generator does not see. *)
Example edit_unseen_by_generator :
  edited ≠ cfg
  ∧ Generator.buildRunCfg edited = Generator.buildRunCfg cfg.
Proof. split; [by intros [=]|]. vm_compute. reflexivity. Qed.

Lemma SaveUserConfig_first_stage_fails_witness :
  let saved := stamped cfg (zone (os tornDisk)) (now (os tornDisk)) in
  mu (svc tornDisk) = false
  ∧ outcomeAt 0 (outcomes (os tornDisk)) = Some "no space left on device"
  ∧ ∃ st', SaveUserConfig cfg tornDisk
           = Ret (Some ("保存文件失败: " +:+ "no space left on device")) st'
      ∧ svc st' = set_config (Some saved) (svc tornDisk)
      ∧ (files (os st') = files (os tornDisk)
         ∨ ∃ k, files (os st')
                = <[configPathOf (os tornDisk) := take k (encConfig saved)]>
                    (files (os tornDisk)))
      ∧ trace (os st')
        = trace (os tornDisk)
          ++ [EvWriteFile (configPathOf (os tornDisk)) false].
Proof.
  intros saved. split; [reflexivity|]. split; [reflexivity|].
  apply (SaveUserConfig_first_stage_fails cfg tornDisk (encConfig saved)
           "no space left on device"); reflexivity.
Defined.

(** That failed save: the configuration that was on disk is gone. *)
Example save_truncates_config :
  ∃ e st', SaveUserConfig cfg tornDisk = Ret (Some e) st'
    ∧ files (os tornDisk) !! configPath = Some (encConfig cfg)
    ∧ files (os st') !! configPath = Some [].
Proof. eexists _, _. vm_compute. done. Qed.

Lemma SaveUserConfig_success_witness :
  let saved := stamped cfg (zone (os unconfigured)) (now (os unconfigured)) in
  mu (svc unconfigured) = false
  ∧ ∃ st', SaveUserConfig cfg unconfigured = Ret None st'
      ∧ svc st' = set_config (Some saved) (svc unconfigured)
      ∧ files (os st')
        = <[tomlPathOf (os unconfigured) := encNat 4]>
            (<[configPathOf (os unconfigured) := encConfig saved]>
               (files (os unconfigured)))
      ∧ trace (os st')
        = trace (os unconfigured)
          ++ [EvWriteFile (configPathOf (os unconfigured)) true;
              EvWriteFile (tomlPathOf (os unconfigured)) true].
Proof.
  intros saved. split; [reflexivity|].
  apply (SaveUserConfig_success cfg unconfigured (encConfig saved) (encNat 4));
    reflexivity.
Defined.

Lemma Disconnect_twice_witness :
  isRunning (svc started) = true
  ∧ ∃ st1,
      Disconnect started
      = Ret {| Success := true; IsRunning := false; Config := None;
               Message := "服务已断开" |} st1
      ∧ Disconnect st1
        = Ret {| Success := true; IsRunning := false; Config := None;
                 Message := "服务本就处于停止状态" |} st1
      ∧ frpCmd (svc st1)
        = Some (mkCmd (binDir +:+ "/frpc") ["-c"; binDir +:+ "/frpc.toml"]
                  (Some 4242))
      ∧ trace (os st1)
        = trace (os started)
          ++ [EvKill 4242 true;
              EvEmit "frp-logs" (PLogs ["用户手动断开连接"])].
Proof.
  split; [reflexivity|].
  apply (Disconnect_twice started
           (mkCmd (binDir +:+ "/frpc") ["-c"; binDir +:+ "/frpc.toml"]
              (Some 4242)) 4242); reflexivity.
Defined.

Lemma stopFrp_kills_witness :
  mu (svc started) = false
  ∧ ∃ st', cleanup started = Ret tt st'
      ∧ mu (svc st') = false
      ∧ frpCmd (svc st') = frpCmd (svc started)
      ∧ config (svc st') = config (svc started)
      ∧ files (os st') = files (os started)
      ∧ isRunning (svc st') = false
      ∧ trace (os st')
        = trace (os started) ++ [EvRun "kill" ["-9"; "4242"] true].
Proof.
  split; [reflexivity|].
  exact (stopFrp_kills started eq_refl).
Defined.

(** The same on Windows: [taskkill] with the process tree. *)
Example stopFrp_on_windows :
  ∃ st', cleanup onWindows = Ret tt st'
    ∧ isRunning (svc st') = false
    ∧ trace (os st') = [EvRun "taskkill" ["/F"; "/T"; "/PID"; "812"] true].
Proof. eexists. vm_compute. done. Qed.

Lemma restart_after_exit_witness :
  mu (svc started) = false
  ∧ isRunning (svc started) = true
  ∧ ∃ r st1 st2 st3,
      Disconnect started = Ret r st1
      ∧ exitWaiter st1 = Ret tt st2
      ∧ frpCmd (svc st2) = None
      ∧ isRunning (svc st2) = false
      ∧ trace (os st2)
        = trace (os started) ++
          [EvKill 4242 true;
           EvEmit "frp-logs" (PLogs ["用户手动断开连接"]);
           EvEmit "frp-logs" (PLogs ["警告：frpc 进程已退出"]);
           EvEmit "frp-status" (PStatus "stop")]
      ∧ startFrp st2 = Ret tt st3.
Proof.
  split; [reflexivity|]. split; [reflexivity|].
  apply (restart_after_exit started
           (mkCmd (binDir +:+ "/frpc") ["-c"; binDir +:+ "/frpc.toml"]
              (Some 4242)) 4242); reflexivity.
Defined.

Lemma startFrp_success_witness :
  idle cfg atRest
  ∧ ∃ st' pre,
      startFrp atRest = Ret tt st'
      ∧ svc st'
        = set_isRunning true
            (set_frpCmd
               (Some (mkCmd (frpcPathOf world) ["-c"; tomlPathOf world]
                        (Some 4242)))
               service)
      ∧ files (os st') = <[tomlPathOf world := encNat 4]> (files world)
      ∧ nextPid (os st') = 4242 + 1
      ∧ tickers (os st') = 1%nat
      ∧ pre = []
      ∧ trace (os st')
        = trace world ++ pre ++
          [EvWriteFile (tomlPathOf world) true;
           EvStart (frpcPathOf world) ["-c"; tomlPathOf world] (Some 4242);
           EvEmit "frp-status" (PStatus "start")].
Proof.
  assert (Hidle : idle cfg atRest).
  { repeat split; try reflexivity. vm_compute. eauto. }
  split; [exact Hidle|].
  exact (startFrp_success cfg (encNat 4) atRest eq_refl Hidle).
Defined.

Lemma startFrp_spawn_failure_witness :
  mu (svc spawnFails) = false
  ∧ isRunning (svc spawnFails) = false
  ∧ outcomeAt 1 (outcomes (os spawnFails))
    = Some "fork/exec: permission denied"
  ∧ ∃ st',
      startFrp spawnFails = Ret tt st'
      ∧ isRunning (svc st') = false
      ∧ frpCmd (svc st')
        = Some (mkCmd (frpcPathOf world) ["-c"; tomlPathOf world] None)
      ∧ tickers (os st') = 1%nat
      ∧ nextPid (os st') = 4242
      ∧ trace (os st')
        = trace world ++
          [EvWriteFile (tomlPathOf world) true;
           EvStart (frpcPathOf world) ["-c"; tomlPathOf world] None;
           EvEmit "frp-logs"
             (PLogs ["frpc 进程启动失败："; "fork/exec: permission denied"])].
Proof.
  split; [reflexivity|]. split; [reflexivity|]. split; [reflexivity|].
  apply (startFrp_spawn_failure cfg (encNat 4) [] _ spawnFails);
    try reflexivity.
  vm_compute. eauto.
Defined.

Lemma double_Connect_single_spawn_witness :
  idle cfg atRest
  ∧ ∃ st1,
      Connect atRest
      = Ret ({| Success := true; IsRunning := false; Config := Some cfg;
                Message := "启动中..." |}, Some go_startFrp) atRest
      ∧ goRun (Some go_startFrp) atRest = Ret tt st1
      ∧ isRunning (svc st1) = true
      ∧ goRun (Some go_startFrp) st1 = Ret tt st1
      ∧ Connect st1
        = Ret ({| Success := true; IsRunning := true; Config := Some cfg;
                  Message := "提示：隧道已在运行中，无需重复连接。" |}, None)
            st1.
Proof.
  assert (Hidle : idle cfg atRest).
  { repeat split; try reflexivity. vm_compute. eauto. }
  split; [exact Hidle|].
  exact (double_Connect_single_spawn cfg (encNat 4) atRest eq_refl Hidle).
Defined.

Lemma unconfigured_never_spawns_witness :
  config (svc unconfigured) = None
  ∧ Connect unconfigured
    = Ret ({| Success := false; IsRunning := false; Config := None;
              Message := "错误：未发现有效配置。请先前往配置页保存服务器信息。" |},
           None) unconfigured
  ∧ ∃ st' new,
      startFrp unconfigured = Ret tt st'
      ∧ svc st' = svc unconfigured
      ∧ tickers (os st') = tickers (os unconfigured)
      ∧ nextPid (os st') = nextPid (os unconfigured)
      ∧ trace (os st') = trace (os unconfigured) ++ new
      ∧ forallb Trace.isWrite new = true
      ∧ files (os st') !! tomlPathOf (os unconfigured)
        = files (os unconfigured) !! tomlPathOf (os unconfigured).
Proof.
  split; [reflexivity|].
  apply (unconfigured_never_spawns unconfigured); reflexivity.
Defined.

(** What that start did: it extracted the executable. *)
Example unconfigured_start_extracts :
  ∃ st', startFrp unconfigured = Ret tt st'
    ∧ trace (os st') = [EvWriteFile (binDir +:+ "/frpc") true]
    ∧ files (os st') !! (binDir +:+ "/frpc") = Some [x7f; x45; x4c; x46].
Proof. eexists. vm_compute. done. Qed.

Lemma prepareFrpEnv_in_place_witness :
  is_Some (files (os atRest) !! frpcPathOf (os atRest))
  ∧ is_Some (files (os atRest) !! tomlPathOf (os atRest))
  ∧ prepareFrpEnv atRest
    = Ret (Ok (frpcPathOf (os atRest), tomlPathOf (os atRest))) atRest.
Proof.
  assert (H1 : is_Some (files (os atRest) !! frpcPathOf (os atRest))).
  { vm_compute. eauto. }
  assert (H2 : is_Some (files (os atRest) !! tomlPathOf (os atRest))).
  { vm_compute. eauto. }
  split; [exact H1|]. split; [exact H2|].
  exact (prepareFrpEnv_in_place atRest H1 H2).
Defined.

Lemma prepareFrpEnv_extracts_witness :
  files (os unconfigured) !! frpcPathOf (os unconfigured) = None
  ∧ ∃ st' rest,
      prepareFrpEnv unconfigured
      = Ret (Ok (frpcPathOf (os unconfigured), tomlPathOf (os unconfigured)))
          st'
      ∧ svc st' = svc unconfigured
      ∧ files (os st') !! frpcPathOf (os unconfigured)
        = Some [x7f; x45; x4c; x46]
      ∧ trace (os st')
        = trace (os unconfigured)
          ++ EvWriteFile (frpcPathOf (os unconfigured)) true :: rest.
Proof.
  split; [reflexivity|].
  apply (prepareFrpEnv_extracts unconfigured
           "resources/bin/frpc_linux_amd64" [x7f; x45; x4c; x46]);
    reflexivity.
Defined.

Lemma prepareFrpEnv_partial_binary_witness :
  files (os tornExtract) !! frpcPathOf (os tornExtract) = None
  ∧ ∃ st1 st2,
      prepareFrpEnv tornExtract = Ret (Err "no space left on device") st1
      ∧ svc st1 = svc tornExtract
      ∧ files (os st1)
        = <[frpcPathOf (os tornExtract) := take 2 [x7f; x45; x4c; x46]]>
            (files (os tornExtract))
      ∧ trace (os st1)
        = trace (os tornExtract)
          ++ [EvWriteFile (frpcPathOf (os tornExtract)) false]
      ∧ prepareFrpEnv st1
        = Ret (Ok (frpcPathOf (os tornExtract), tomlPathOf (os tornExtract)))
            st2
      ∧ files (os st2) !! frpcPathOf (os tornExtract)
        = Some (take 2 [x7f; x45; x4c; x46]).
Proof.
  split; [reflexivity|].
  apply (prepareFrpEnv_partial_binary tornExtract
           "resources/bin/frpc_linux_amd64" "no space left on device"
           [x7f; x45; x4c; x46] 2 []); reflexivity.
Defined.

(** What follows: the start in which the extraction fails spawns
    nothing; the next start spawns the truncated file. *)
Example partial_binary_is_spawned :
  ∃ st1 st2,
    startFrp tornExtract = Ret tt st1
    ∧ isRunning (svc st1) = false
    ∧ startFrp st1 = Ret tt st2
    ∧ isRunning (svc st2) = true
    ∧ files (os st2) !! (binDir +:+ "/frpc") = Some [x7f; x45]
    ∧ existsb Trace.isStarted (trace (os st2)) = true.
Proof. eexists _, _. vm_compute. done. Qed.

Lemma prepareFrpEnv_unsupported_arch_witness :
  frpcMap (GOOS (os exotic)) !! GOARCH (os exotic) = None
  ∧ prepareFrpEnv exotic = Ret (Err "open : file does not exist") exotic
  ∧ (mu (svc exotic) = false → isRunning (svc exotic) = false →
       startFrp exotic = Ret tt exotic).
Proof.
  split; [reflexivity|].
  apply (prepareFrpEnv_unsupported_arch exotic); reflexivity.
Defined.

Lemma startFrp_frame_witness :
  mu (svc atRest) = false
  ∧ ∃ st', (startFrp atRest = Ret tt st' ∨ startFrp atRest = Blocked st')
      ∧ config (svc st') = config (svc atRest)
      ∧ logBuffer (svc st') = logBuffer (svc atRest)
      ∧ (∀ path, path ≠ frpcPathOf (os atRest) →
           path ≠ tomlPathOf (os atRest) →
           files (os st') !! path = files (os atRest) !! path)
      ∧ files (os st') !! configPathOf (os atRest)
        = files (os atRest) !! configPathOf (os atRest).
Proof.
  split; [reflexivity|].
  apply (startFrp_frame atRest). reflexivity.
Defined.

Lemma ServiceStartup_without_autostart_witness :
  files installed !! configPathOf installed = Some (encConfig cfg)
  ∧ let st := appState (ServiceStartup (boot installed)) in
    files (os st) = files installed
    ∧ trace (os st) = trace installed
    ∧ tickers (os st) = tickers installed
    ∧ isRunning (svc st) = false
    ∧ frpCmd (svc st) = None.
Proof.
  assert (Hfile : files installed !! configPathOf installed
                  = Some (encConfig cfg)).
  { vm_compute. reflexivity. }
  split; [exact Hfile|].
  apply (ServiceStartup_without_autostart installed).
  intros data c Hd Hdec. rewrite Hfile in Hd. injection Hd as <-.
  vm_compute in Hdec. injection Hdec as <-. reflexivity.
Defined.

(** After that startup the configuration is loaded and the status says
    that the service is standing by. *)
Example startup_status :
  App_GetStatus (ServiceStartup (boot installed))
  = Ret {| Success := true; IsRunning := false; Config := Some cfg;
           Message := "服务待命中" |}
      {| svc := service; os := installed |}.
Proof. vm_compute. reflexivity. Qed.

Lemma ServiceStartup_autostart_witness :
  AutoStart (Server autoCfg) = true
  ∧ let a := ServiceStartup (boot autoInstalled) in
    initWait a = true
    ∧ config (svc (appState a)) = Some autoCfg
    ∧ isRunning (svc (appState a)) = true
    ∧ frpCmd (svc (appState a))
      = Some (mkCmd (frpcPathOf autoInstalled)
                ["-c"; tomlPathOf autoInstalled]
                (Some (nextPid autoInstalled)))
    ∧ ∃ pre, forallb Trace.isWrite pre = true
        ∧ trace (os (appState a))
          = trace autoInstalled ++ pre ++
            [EvStart (frpcPathOf autoInstalled)
               ["-c"; tomlPathOf autoInstalled]
               (Some (nextPid autoInstalled));
             EvEmit "frp-status" (PStatus "start")].
Proof.
  split; [reflexivity|].
  apply (ServiceStartup_autostart autoInstalled (encConfig autoCfg)
           (encNat 4) autoCfg).
  - vm_compute. reflexivity.
  - vm_compute. reflexivity.
  - reflexivity.
  - reflexivity.
  - vm_compute. eauto.
  - reflexivity.
Defined.

Lemma logSchedule_conserves_lines_witness :
  let steps :=
    [Scan "[I] proxy added"; Take 0; Scan "[W] retry"; Publish 0; Take 0] in
  logMu (svc buffered) = false
  ∧ Trace.onlyFlusher 0 steps
  ∧ ∃ st' pending new,
      logSchedule steps ∅ buffered = Ret pending st'
      ∧ trace (os st') = trace (os buffered) ++ new
      ∧ concat (Trace.batches new) ++ Trace.held pending
          ++ logBuffer (svc st')
        ≡ₚ logBuffer (svc buffered) ++ Trace.scanned steps
      ∧ Forall (λ b, b ≠ []) (Trace.batches new)
      ∧ length (Trace.batches new) = length new
      ∧ (∀ g, Trace.onlyFlusher g steps →
           concat (Trace.batches new) ++ default [] (pending !! g)
             ++ logBuffer (svc st')
           = logBuffer (svc buffered) ++ Trace.scanned steps).
Proof.
  intros steps. split; [reflexivity|].
  split; [repeat constructor|].
  apply (logSchedule_conserves_lines steps buffered). reflexivity.
Defined.

(** That schedule: one batch of three lines is published, the fourth
    line is taken and waits for its publication. *)
Example logSchedule_run :
  ∃ st' pending,
    logSchedule
      [Scan "[I] proxy added"; Take 0; Scan "[W] retry"; Publish 0; Take 0]
      ∅ buffered = Ret pending st'
    ∧ trace (os st')
      = [EvEmit "frp-logs"
           (PLogs ["[I] start frpc"; "[I] login ok"; "[I] proxy added"])]
    ∧ pending !! 0%nat = Some ["[W] retry"]
    ∧ logBuffer (svc st') = [].
Proof. eexists _, _. vm_compute. done. Qed.

(** With the ticker goroutines of two starts the batches can overtake
    each other: the line scanned second is published first. *)
Example two_flushers_reorder :
  ∃ st' pending,
    logSchedule [Scan "one"; Take 1; Scan "two"; Take 2; Publish 2; Publish 1]
      ∅ atRest = Ret pending st'
    ∧ trace (os st')
      = [EvEmit "frp-logs" (PLogs ["two"]); EvEmit "frp-logs" (PLogs ["one"])].
Proof. eexists _, _. vm_compute. done. Qed.

End MoreSampleRuns.

(** [Format] and [Parse] on two instants. *)
Example format_example :
  Time.Format_RFC3339 0 1700000000500000000 = "2023-11-14T22:13:20Z".
Proof. vm_compute. reflexivity. Qed.
Example format_example2 :
  Time.Format_RFC3339 (-330) 1709210096000000001 = "2024-02-29T07:04:56-05:30".
Proof. vm_compute. reflexivity. Qed.
Example parse_example2 :
  Time.Parse_RFC3339 "2024-02-29T07:04:56-05:30" = Some 1709210096.
Proof. vm_compute. reflexivity. Qed.
